(** * Stock loaders: ingestion and mover detection

    A shallow embedding of the two loaders of the repository,
    [stock_data_loader_fast.py] (module [Fast]) and [stock_data_loader.py]
    (class [StockDataLoader], module of the same name), and the properties
    their specification states about them.

    Conventions of the embedding.
    - Prices are binary64 floats, as pandas and numpy hold them: the kernel's
      primitive floats, with IEEE division (a zero denominator gives an
      infinity or a NaN, it does not raise).  A null read back from the store
      is the NaN pandas puts in a float64 column.
    - Dates are day numbers ([Z]); subtracting two of them gives the [.days]
      of the [timedelta].
    - [pd.Timestamp.now()] and [datetime.now()] read a wall clock: the clock
      is a function from the number of readings taken so far to the reading,
      and the code that stamps records threads that number. *)

From Stdlib Require Import ZArith String Ascii DecimalString List Bool Lia Floats Permutation Sorted.
Import ListNotations.

Local Open Scope Z_scope.

(** ** Python, numpy and pandas primitives *)

Module Py.

(** [pd.isna] / [pd.notna] on a float64 scalar. *)
Definition isna (x : float) : bool := PrimFloat.is_nan x.
Definition notna (x : float) : bool := negb (isna x).

(** [a >= b] on floats: false as soon as one side is a NaN. *)
Definition ge (a b : float) : bool := PrimFloat.leb b a.

(** The exact value of a finite non-zero float is [(-1)^s * m * 2^e];
    [round_half_even_scaled k m e] is [k * m * 2^e] rounded to the nearest
    integer, ties to even. *)
Definition round_half_even_scaled (k : Z) (m : positive) (e : Z) : Z :=
  let n := k * Z.pos m in
  if 0 <=? e then Z.shiftl n e
  else
    let d := Z.shiftl 1 (- e) in
    let q := n / d in
    let r := n mod d in
    match 2 * r ?= d with
    | Lt => q
    | Gt => q + 1
    | Eq => if Z.even q then q else q + 1
    end.

(** The float nearest to the integer [n] (ties to even). *)
Definition float_of_Z (n : Z) : float :=
  SF2Prim (binary_normalize prec emax n 0 false).

(** The float nearest to [n / 100] for a signed magnitude ([strtod] of the
    decimal string that [round] builds). *)
Definition float_of_hundredths (s : bool) (n : Z) : float :=
  match n with
  | Z.pos p =>
      SF2Prim (SFdiv prec emax (S754_finite s p 0) (S754_finite false 100 0))
  | _ => SF2Prim (S754_zero s)
  end.

(** Python's [round(x, 2)] on a float: NaN and the infinities round to
    themselves; a finite [x] is converted to the correctly rounded decimal
    with two places (ties to even on the exact binary value) and that
    decimal is read back as the nearest float. *)
Definition round2 (x : float) : float :=
  match Prim2SF x with
  | S754_finite s m e => float_of_hundredths s (round_half_even_scaled 100 m e)
  | _ => x
  end.

(** [np.rint]: nearest integer, ties to even, as a float that keeps the
    sign of its argument. *)
Definition rint (x : float) : float :=
  match Prim2SF x with
  | S754_finite s m e =>
      match round_half_even_scaled 1 m e with
      | Z.pos p => SF2Prim (binary_normalize prec emax (cond_Zopp s (Z.pos p)) 0 false)
      | _ => SF2Prim (S754_zero s)
      end
  | _ => x
  end.

(** [round] of a numpy float64 with two decimals: numpy scales, rounds to
    an integer and scales back, all in float arithmetic. *)
Definition np_round2 (x : float) : float :=
  (rint (x * 100) / 100)%float.

(** [int(x)] on a float: truncation toward zero; [None] when Python raises
    ([ValueError] on NaN, [OverflowError] on an infinity). *)
Definition int_of_float (x : float) : option Z :=
  match Prim2SF x with
  | S754_zero _ => Some 0
  | S754_finite s m e =>
      Some (cond_Zopp s (if 0 <=? e then Z.shiftl (Z.pos m) e
                         else Z.shiftr (Z.pos m) (- e)))
  | _ => None
  end.

(** [str.upper] on the ASCII letters tickers are made of. *)
Definition upper_ascii (c : ascii) : ascii :=
  let n := nat_of_ascii c in
  if ((97 <=? n) && (n <=? 122))%nat then ascii_of_nat (n - 32) else c.

Fixpoint upper (s : string) : string :=
  match s with
  | EmptyString => EmptyString
  | String c s' => String (upper_ascii c) (upper s')
  end.

(** [seq.iloc[i]] / [list[i]] with Python's negative indices; [None] is
    the [IndexError]. *)
Definition iloc {A : Type} (l : list A) (i : Z) : option A :=
  let n := Z.of_nat (length l) in
  if i <? 0
  then (if n + i <? 0 then None else nth_error l (Z.to_nat (n + i)))
  else nth_error l (Z.to_nat i).

(** [Series.unique()]: the distinct values in order of first appearance. *)
Fixpoint unique (l : list string) : list string :=
  match l with
  | [] => []
  | x :: t => x :: filter (fun y => negb (String.eqb y x)) (unique t)
  end.

(** [sort_values]: a stable insertion sort on a "less or equal" test.  The
    frames sorted here come from tables with a unique key, so equal keys do
    not arise and the order among them is immaterial. *)
Section Sort.
Context {A : Type} (le : A -> A -> bool).

Fixpoint insert (x : A) (l : list A) : list A :=
  match l with
  | [] => [x]
  | y :: t => if le x y then x :: l else y :: insert x t
  end.

Fixpoint sort_values (l : list A) : list A :=
  match l with
  | [] => []
  | x :: t => insert x (sort_values t)
  end.
End Sort.

(** [range(0, len(l), size)] with [l[i:i + size]]: consecutive slices. *)
Fixpoint slices_fuel {A : Type} (fuel : nat) (size : nat) (l : list A) : list (list A) :=
  match fuel with
  | O => []
  | S f =>
      match l with
      | [] => []
      | _ => firstn size l :: slices_fuel f size (skipn size l)
      end
  end.

Definition slices {A : Type} (size : nat) (l : list A) : list (list A) :=
  slices_fuel (length l) size l.

(** [str.strip()]: the white space characters of ASCII, which is what
    tickers files hold: tab to carriage return, the four separators and the
    space. *)
Definition is_space (c : ascii) : bool :=
  let n := nat_of_ascii c in
  ((9 <=? n) && (n <=? 13) || (28 <=? n) && (n <=? 32))%nat.

Fixpoint lstrip (s : string) : string :=
  match s with
  | EmptyString => EmptyString
  | String c s' => if is_space c then lstrip s' else s
  end.

Fixpoint rstrip (s : string) : string :=
  match s with
  | EmptyString => EmptyString
  | String c s' =>
      match rstrip s' with
      | EmptyString => if is_space c then EmptyString else String c EmptyString
      | r => String c r
      end
  end.

Definition strip (s : string) : string := rstrip (lstrip s).

(** [Series.dropna()] on a column of cells. *)
Fixpoint dropna {A : Type} (cells : list (option A)) : list A :=
  match cells with
  | [] => []
  | Some x :: rest => x :: dropna rest
  | None :: rest => dropna rest
  end.

(** [a.fillna(b)] on two columns of one frame, cell by cell. *)
Fixpoint fillna {A : Type} (a b : list (option A)) : list (option A) :=
  match a, b with
  | x :: a', y :: b' => (match x with Some _ => x | None => y end) :: fillna a' b'
  | _, _ => []
  end.

End Py.

(** ** The wall clock *)

Definition timestamp := Z.

(** A clock gives the reading returned by the [n]-th call of [now()]. *)
Definition clock := nat -> timestamp.

(** Code that reads the clock threads the number of readings taken. *)
Definition Stamped (A : Type) : Type := nat -> A * nat.

Definition ret {A : Type} (a : A) : Stamped A := fun k => (a, k).

Definition bind {A B : Type} (m : Stamped A) (f : A -> Stamped B) : Stamped B :=
  fun k => let (a, k') := m k in f a k'.

Definition now (wall : clock) : Stamped timestamp := fun k => (wall k, S k).

Notation "x <- m ;; f" := (bind m (fun x => f))
  (at level 61, m at next level, right associativity).

(** ** The tables *)

(** A row of [stocks_daily], unique on [(ticker, date)]. *)
Module StocksDaily.
Record row := {
  ticker : string;
  company_name : string;
  date : Z;
  open_price : option float;
  high_price : option float;
  low_price : option float;
  close_price : float;
  volume : Z;
  market_cap : option Z;
  created_at : timestamp
}.

Definition key (r : row) : string * Z := (ticker r, date r).

(** The row without its creation stamp. *)
Definition unstamped (r : row) : row :=
  {| ticker := ticker r; company_name := company_name r; date := date r;
     open_price := open_price r; high_price := high_price r;
     low_price := low_price r; close_price := close_price r;
     volume := volume r; market_cap := market_cap r; created_at := 0 |}.
End StocksDaily.

(** A row of [daily_movers], unique on [(ticker, date)]. *)
Module DailyMover.
Record row := {
  ticker : string;
  date : Z;
  previous_close : float;
  current_close : float;
  percent_change : float;
  volume : Z;
  created_at : timestamp
}.

Definition key (r : row) : string * Z := (ticker r, date r).

(** The row without its creation stamp. *)
Definition unstamped (r : row) : row :=
  {| ticker := ticker r; date := date r; previous_close := previous_close r;
     current_close := current_close r; percent_change := percent_change r;
     volume := volume r; created_at := 0 |}.
End DailyMover.

(** A row of [weekly_movers], unique on [(ticker, week_end_date)]. *)
Module WeeklyMover.
Record row := {
  ticker : string;
  week_start_date : Z;
  week_end_date : Z;
  week_start_close : float;
  week_end_close : float;
  percent_change : float;
  created_at : timestamp
}.

Definition key (r : row) : string * Z := (ticker r, week_end_date r).

(** The row without its creation stamp. *)
Definition unstamped (r : row) : row :=
  {| ticker := ticker r; week_start_date := week_start_date r;
     week_end_date := week_end_date r; week_start_close := week_start_close r;
     week_end_close := week_end_close r; percent_change := percent_change r;
     created_at := 0 |}.
End WeeklyMover.

(** A row of [tickers], as [insert_tickers_to_db] writes it. *)
Module Tickers.

Record row := {
  ticker : string;
  company_name : string;
  sector : string;
  active : bool
}.

(** The rows are upserted with [on_conflict='ticker']: the ticker alone is
    the key. *)
Definition key (r : row) : string * Z := (ticker r, 0).

End Tickers.

(** ** The time-series store, as the loaders use it *)

Module Store.

Definition key_eqb (a b : string * Z) : bool :=
  String.eqb (fst a) (fst b) && (snd a =? snd b).

Section Table.
Context {R : Type} (key : R -> string * Z).

(** Modelled from the spec: the store's [upsert(table, record,
    conflictKey)] (section 4.3), an insert-or-replace on the unique key:
    the row that holds the key is overwritten in place, a new key is
    appended. *)
Fixpoint upsert (table : list R) (r : R) : list R :=
  match table with
  | [] => [r]
  | x :: t => if key_eqb (key x) (key r) then r :: t else x :: upsert t r
  end.

(** A chunk of records is upserted record after record. *)
Definition upsert_all (table : list R) (records : list R) : list R :=
  fold_left upsert records table.
End Table.

(** Modelled from the spec: the store's [rangeQuery] (section 4.3) with
    the predicate [gte('date', lo)], [lte('date', hi)]: every row whose
    date is in the inclusive range, in the table's order. *)
Definition range_query (table : list StocksDaily.row) (lo hi : Z)
  : list StocksDaily.row :=
  filter (fun r => (lo <=? StocksDaily.date r) && (StocksDaily.date r <=? hi)) table.

End Store.

(** ** The frame operations shared by the four mover computations *)

Module Frame.
Import StocksDaily.

Definition le_date (a b : row) : bool := date a <=? date b.

Definition le_ticker_date (a b : row) : bool :=
  String.ltb (ticker a) (ticker b)
  || (String.eqb (ticker a) (ticker b) && (date a <=? date b)).

(** [df.sort_values(['ticker', 'date'])] *)
Definition sort_ticker_date (df : list row) : list row :=
  Py.sort_values le_ticker_date df.

(** [df['ticker'].unique()] *)
Definition tickers (df : list row) : list string :=
  Py.unique (map ticker df).

(** [df[df['ticker'] == tk].sort_values('date')] *)
Definition ticker_data (df : list row) (tk : string) : list row :=
  Py.sort_values le_date (filter (fun r => String.eqb (ticker r) tk) df).

(** The frame a mover computation works on: the rows of the window
    [lo, hi], sorted by ticker and date. *)
Definition window (table : list row) (lo hi : Z) : list row :=
  sort_ticker_date (Store.range_query table lo hi).

(** [((b - a) / a) * 100] *)
Definition percent (a b : float) : float := (((b - a) / a) * 100)%float.

(** The loop [for ticker in ...: ... movers.append({..., 'created_at':
    now()})]: [body] gives, for a ticker that is not skipped, the mover
    that waits for its creation stamp; the clock is read once per mover
    appended, in the order of the tickers. *)
Fixpoint collect {M : Type} (wall : clock)
    (body : string -> option (timestamp -> M)) (tks : list string)
  : Stamped (list M) :=
  match tks with
  | [] => ret []
  | tk :: rest =>
      match body tk with
      | None => collect wall body rest
      | Some mk =>
          t <- now wall ;;
          movers <- collect wall body rest ;;
          ret (mk t :: movers)
      end
  end.
End Frame.

(** ** The raw bars of the batched download *)

Module Raw.

(** A cell of a raw frame: a float, an integer, a string or nothing. *)
Inductive cell :=
| Num (x : float)
| Int (z : Z)
| Str (s : string)
| Null.

(** [Series.isna()] on a cell. *)
Definition isna (c : cell) : bool :=
  match c with
  | Num x => Py.isna x
  | Null => true
  | _ => false
  end.

(** A bar as yfinance returns it for one ticker, columns lower-cased. *)
Record bar := {
  date : Z;
  open : cell;
  high : cell;
  low : cell;
  close : cell;
  volume : cell
}.

(** A row of the frame [fetch_batch_data] returns: the bar and its
    ticker. *)
Record row := {
  bar_of : bar;
  ticker : option string
}.

(** The frame of one ticker: its bars, or a frame that lacks a column, on
    which the selection raises. *)
Inductive frame :=
| Malformed
| Bars (rows : list bar).

(** What [yf.download] gives: it raises, or returns a frame with
    [(ticker, field)] columns, or a single-ticker frame. *)
Inductive response :=
| Raises
| MultiIndex (columns : list (string * frame))
| Flat (data : frame).

(** [data[ticker]] *)
Fixpoint select (columns : list (string * frame)) (tk : string) : frame :=
  match columns with
  | [] => Malformed
  | (k, f) :: rest => if String.eqb k tk then f else select rest tk
  end.

End Raw.

(** ** The tickers file *)

Module Csv.

(** A column of the frame [pd.read_csv] returns: its header and its cells,
    as text; [None] is a missing cell. *)
Record column := {
  header : string;
  cells : list (option string)
}.

(** [pd.read_csv] raises, or returns a frame. *)
Inductive file :=
| Unreadable
| Frame (columns : list column).

(** [name in df.columns] *)
Definition has (columns : list column) (name : string) : bool :=
  existsb (fun c => String.eqb (header c) name) columns.

(** [df[name]] *)
Definition get (columns : list column) (name : string) : option column :=
  find (fun c => String.eqb (header c) name) columns.

(** The headers both loaders look for, in this order. *)
Definition candidates : list string :=
  ["ticker"; "Ticker"; "symbol"; "Symbol"; "TICKER"; "SYMBOL"]%string.

(** The column of the tickers: the first candidate that is a header, else
    the first column; [None] is the [IndexError] of a frame without
    columns. *)
Definition ticker_column (columns : list column) : option string :=
  match find (has columns) candidates with
  | Some name => Some name
  | None =>
      match columns with
      | c :: _ => Some (header c)
      | [] => None
      end
  end.

(** The column of the names, when the frame has one: [company_name], else
    [name]. *)
Definition name_column (columns : list column) : option string :=
  if has columns "company_name" || has columns "name"
  then Some (if has columns "company_name" then "company_name" else "name")%string
  else None.

End Csv.

(** ** What the drivers share *)

(** What the store answers to the writes of a run. *)
Record backend := {
  accepts_bars : list StocksDaily.row -> bool;
  accepts_daily : DailyMover.row -> bool;
  accepts_weekly : WeeklyMover.row -> bool
}.

(** The three tables. *)
Record db := {
  stocks_daily : list StocksDaily.row;
  daily_movers : list DailyMover.row;
  weekly_movers : list WeeklyMover.row
}.

(** How a process ends: [main] returns, [sys.exit(code)] is called, or an
    exception reaches the top level. *)
Inductive ending :=
| Returned
| SysExit (code : Z)
| Uncaught.

Definition exit_code (e : ending) : Z :=
  match e with
  | Returned => 0
  | SysExit code => code
  | Uncaught => 1
  end.

(** The calls a driver makes after its loading loop. *)
Inductive call :=
| PercentChangesRpc
| DailyMoversCall
| WeeklyMoversCall.

(** [for mover in movers: try: upsert(mover) except: log] *)
Definition upsert_each {R : Type} (key : R -> string * Z) (accepts : R -> bool)
    (table : list R) (movers : list R) : list R :=
  fold_left (fun tb m => if accepts m then Store.upsert key tb m else tb) movers table.

(** ** [stock_data_loader_fast.py] *)

Module Fast.

Section Movers.
Import StocksDaily.

Definition BATCH_SIZE : nat := 150.
Definition UPSERT_CHUNK : nat := 800.
Definition default_min_percent : float := 15%float.

(** The body of the loop of [calculate_daily_movers] for one ticker. *)
Definition daily_mover (df : list row) (min_percent : float) (tk : string)
  : option (timestamp -> DailyMover.row) :=
  let ticker_data := Frame.ticker_data df tk in
  if (length ticker_data <? 2)%nat then None
  else
    match Py.iloc ticker_data (-2), Py.iloc ticker_data (-1) with
    | Some prev, Some curr =>
        let prev_close := close_price prev in
        let curr_close := close_price curr in
        let curr_date := date curr in
        if (prev_close =? 0)%float || Py.isna prev_close || Py.isna curr_close
        then None
        else
          let percent_change := Frame.percent prev_close curr_close in
          if Py.ge (abs percent_change) min_percent
          then Some (fun t =>
                 {| DailyMover.ticker := tk;
                    DailyMover.date := curr_date;
                    DailyMover.previous_close := prev_close;
                    DailyMover.current_close := curr_close;
                    DailyMover.percent_change := Py.round2 percent_change;
                    DailyMover.volume := volume curr;
                    DailyMover.created_at := t |})
          else None
    | _, _ => None
    end.

(** [calculate_daily_movers]: the movers it hands to the store's upsert,
    in order. *)
Definition calculate_daily_movers (wall : clock) (stocks_daily : list row)
    (target_date : Z) (min_percent : float) : Stamped (list DailyMover.row) :=
  let yesterday := target_date - 1 in
  let two_days_ago := yesterday - 3 in
  match Store.range_query stocks_daily two_days_ago target_date with
  | [] => ret []
  | data =>
      let df := Frame.sort_ticker_date data in
      Frame.collect wall (daily_mover df min_percent) (Frame.tickers df)
  end.

(** The body of the loop of [calculate_weekly_movers] for one ticker. *)
Definition weekly_mover (df : list row) (min_percent : float) (tk : string)
  : option (timestamp -> WeeklyMover.row) :=
  let ticker_data := Frame.ticker_data df tk in
  if (length ticker_data <? 5)%nat then None
  else
    match Py.iloc ticker_data 0, Py.iloc ticker_data (-1) with
    | Some first, Some last =>
        let week_start_close := close_price first in
        let week_end_close := close_price last in
        let week_start_date := date first in
        let week_end_date := date last in
        let days_diff := week_end_date - week_start_date in
        if (days_diff <? 5) || (9 <? days_diff) then None
        else if (week_start_close =? 0)%float || Py.isna week_start_close
                || Py.isna week_end_close
        then None
        else
          let percent_change := Frame.percent week_start_close week_end_close in
          if Py.ge (abs percent_change) min_percent
          then Some (fun t =>
                 {| WeeklyMover.ticker := tk;
                    WeeklyMover.week_start_date := week_start_date;
                    WeeklyMover.week_end_date := week_end_date;
                    WeeklyMover.week_start_close := week_start_close;
                    WeeklyMover.week_end_close := week_end_close;
                    WeeklyMover.percent_change := Py.round2 percent_change;
                    WeeklyMover.created_at := t |})
          else None
    | _, _ => None
    end.

(** [calculate_weekly_movers]: the movers it hands to the store's upsert. *)
Definition calculate_weekly_movers (wall : clock) (stocks_daily : list row)
    (target_date : Z) (min_percent : float) : Stamped (list WeeklyMover.row) :=
  let ten_days_ago := target_date - 10 in
  match Store.range_query stocks_daily ten_days_ago target_date with
  | [] => ret []
  | data =>
      let df := Frame.sort_ticker_date data in
      Frame.collect wall (weekly_mover df min_percent) (Frame.tickers df)
  end.

End Movers.

Section Fetch.
Import Raw.

(** The body of the [try] of [fetch_batch_data]; [None] when an exception
    reaches the outer handler. *)
Definition fetch_body (download : list string -> Z -> Z -> response)
    (tickers : list string) (target_date : Z) : option (list row) :=
  match download tickers target_date (target_date + 1) with
  | Raises => None
  | MultiIndex columns =>
      let unique_tickers := Py.sort_values String.leb (Py.unique (map fst columns)) in
      Some (flat_map
              (fun tk =>
                 match select columns tk with
                 | Malformed => []
                 | Bars ticker_data =>
                     if match ticker_data with [] => true | _ => false end
                        || forallb (fun b => isna (close b)) ticker_data
                     then []
                     else map (fun b => {| bar_of := b; ticker := Some tk |}) ticker_data
                 end)
              unique_tickers)
  | Flat Malformed => None
  | Flat (Bars ticker_data) =>
      if negb (match ticker_data with [] => true | _ => false end)
         && negb (forallb (fun b => isna (close b)) ticker_data)
      then
        match Py.iloc tickers 0 with
        | Some tk => Some (map (fun b => {| bar_of := b; ticker := Some tk |}) ticker_data)
        | None => None
        end
      else Some []
  end.

(** [fetch_batch_data] *)
Definition fetch_batch_data (download : list string -> Z -> Z -> response)
    (tickers : list string) (target_date : Z) : list row :=
  match tickers with
  | [] => []
  | _ =>
      match fetch_body download tickers target_date with
      | Some result => result
      | None => []
      end
  end.

End Fetch.

Section Normalizer.
Import Raw.
(** pandas' reading of a string as a number; [None] when it is none. *)
Variable parse_numeric : string -> option float.

(** [pd.to_numeric(_, errors='coerce')] followed by [float(_)]. *)
Definition to_numeric (c : cell) : float :=
  match c with
  | Num x => x
  | Int z => Py.float_of_Z z
  | Str s => match parse_numeric s with Some x => x | None => nan end
  | Null => nan
  end.

(** [astype('int64')] on a float: non-finite values raise ([None]);
    the value is truncated toward zero, and outside the int64 range the
    conversion gives the smallest int64. *)
Definition astype_int64 (x : float) : option Z :=
  match Py.int_of_float x with
  | None => None
  | Some z => Some (if (- 2 ^ 63 <=? z) && (z <? 2 ^ 63) then z else - 2 ^ 63)
  end.

(** [.fillna(0).astype('int64')] on a value of a float64 column. *)
Definition volume_int64 (c : cell) : option Z :=
  let x := to_numeric c in
  astype_int64 (if Py.isna x then 0%float else x).

(** The integers of a column that holds nothing but integers. *)
Fixpoint integers (cells : list cell) : option (list Z) :=
  match cells with
  | [] => Some []
  | Int z :: rest =>
      match integers rest with
      | Some zs => Some (z :: zs)
      | None => None
      end
  | _ :: _ => None
  end.

Definition fits_int64 (z : Z) : bool := (- 2 ^ 63 <=? z) && (z <? 2 ^ 63).
Definition fits_uint64 (z : Z) : bool := (0 <=? z) && (z <? 2 ^ 64).

(** [astype('int64')] on a uint64: the same 64 bits, read in two's
    complement. *)
Definition uint64_as_int64 (z : Z) : Z := if z <? 2 ^ 63 then z else z - 2 ^ 64.

(** The column converted value by value, as a float64 column is. *)
Fixpoint float64_column (cells : list cell) : option (list Z) :=
  match cells with
  | [] => Some []
  | c :: rest =>
      match volume_int64 c, float64_column rest with
      | Some v, Some vs => Some (v :: vs)
      | _, _ => None
      end
  end.

(** [pd.to_numeric(df['volume'], errors='coerce').fillna(0).astype('int64')]:
    the type [to_numeric] gives the column decides.  A column of integers
    that fit int64 is an int64 column, which the three steps leave as it
    is; a column of non-negative integers that fit uint64 is a uint64
    column, whose values keep their bits; any other column, one that holds
    a float, a missing value or a string, or integers that fit neither
    type together, is a float64 column. *)
Definition volume_column (df : list row) : option (list Z) :=
  let cells := map (fun r => volume (bar_of r)) df in
  match integers cells with
  | Some zs =>
      if forallb fits_int64 zs then Some zs
      else if forallb fits_uint64 zs then Some (map uint64_as_int64 zs)
      else float64_column cells
  | None => float64_column cells
  end.

(** [float(row[col]) if pd.notna(row.get(col)) else None] *)
Definition nullable (x : float) : option float :=
  if Py.notna x then Some x else None.

(** [df['ticker'].map(ticker_map).fillna(df['ticker'])] for one row. *)
Definition company_name_of (ticker_map : string -> option string) (tk : string) : string :=
  match ticker_map tk with
  | Some name => name
  | None => tk
  end.

(** The rows [df.dropna(subset=['ticker', 'close'])] keeps, each with
    its ticker, its coerced close and its volume. *)
Fixpoint dropna (df : list row) (volumes : list Z)
  : list (row * string * float * Z) :=
  match df, volumes with
  | r :: rest, v :: vs =>
      match ticker r with
      | Some tk =>
          let c := to_numeric (close (bar_of r)) in
          if Py.isna c then dropna rest vs else (r, tk, c, v) :: dropna rest vs
      | None => dropna rest vs
      end
  | _, _ => []
  end.

(** The loop that builds the records, one clock reading per record. *)
Fixpoint build_records (wall : clock) (ticker_map : string -> option string)
    (kept : list (row * string * float * Z)) : Stamped (list StocksDaily.row) :=
  match kept with
  | [] => ret []
  | (r, tk, c, v) :: rest =>
      t <- now wall ;;
      records <- build_records wall ticker_map rest ;;
      ret ({| StocksDaily.ticker := tk;
              StocksDaily.company_name := company_name_of ticker_map tk;
              StocksDaily.date := date (bar_of r);
              StocksDaily.open_price := nullable (to_numeric (open (bar_of r)));
              StocksDaily.high_price := nullable (to_numeric (high (bar_of r)));
              StocksDaily.low_price := nullable (to_numeric (low (bar_of r)));
              StocksDaily.close_price := c;
              StocksDaily.volume := v;
              StocksDaily.market_cap := None;
              StocksDaily.created_at := t |} :: records)
  end.

(** [prepare_records]; [None] when the integer conversion of the volume
    column raises. *)
Definition prepare_records (wall : clock) (df : list row)
    (ticker_map : string -> option string)
  : Stamped (option (list StocksDaily.row)) :=
  match df with
  | [] => ret (Some [])
  | _ =>
      match volume_column df with
      | None => ret None
      | Some volumes =>
          records <- build_records wall ticker_map (dropna df volumes) ;;
          ret (Some records)
      end
  end.
End Normalizer.

(** The loop of [upsert_records]: chunk after chunk; a chunk the store
    rejects raises ([false]) and leaves the chunks before it committed. *)
Fixpoint upsert_chunks (b : backend) (table : list StocksDaily.row)
    (chunks : list (list StocksDaily.row)) : list StocksDaily.row * bool :=
  match chunks with
  | [] => (table, true)
  | chunk :: rest =>
      if accepts_bars b chunk
      then upsert_chunks b (Store.upsert_all StocksDaily.key table chunk) rest
      else (table, false)
  end.

(** [upsert_records]; [false] when it raises: on a chunk the store
    rejects, and on a [chunk_size] of 0, which [range] refuses as a step
    before anything is written. *)
Definition upsert_records (b : backend) (table : list StocksDaily.row)
    (records : list StocksDaily.row) (chunk_size : nat)
  : list StocksDaily.row * bool :=
  match records with
  | [] => (table, true)
  | _ =>
      match chunk_size with
      | O => (table, false)
      | _ => upsert_chunks b table (Py.slices chunk_size records)
      end
  end.

(** What a run of [main] reads from outside. *)
Record env := {
  (** [SUPABASE_URL] and [SUPABASE_KEY] are set *)
  credentials : bool;
  wall : clock;
  store : backend;
  last_market_day : Z;
  (** the tickers frame, [None] when loading it ends in [sys.exit(1)] *)
  tickers_df : option (list (string * option string));
  download : list string -> Z -> Z -> Raw.response;
  parse_numeric : string -> option float
}.

(** [dict(zip(tickers_df['ticker'], tickers_df['company_name']))]: the
    last pair of a ticker wins; its name may be null. *)
Fixpoint dict_get (pairs : list (string * option string)) (tk : string)
  : option (option string) :=
  match pairs with
  | [] => None
  | (k, name) :: rest =>
      match dict_get rest tk with
      | Some later => Some later
      | None => if String.eqb k tk then Some name else None
      end
  end.

(** The name [Series.map] finds for a ticker: none for a ticker that is not
    a key and for a null name, which [fillna] both replaces. *)
Definition ticker_map (pairs : list (string * option string)) (tk : string)
  : option string :=
  match dict_get pairs tk with
  | Some (Some name) => Some name
  | _ => None
  end.

(** The outcome of a run. *)
Record outcome := {
  final : db;
  total_records : nat;
  calls : list call;
  how : ending
}.

(** The loop over the batches: the table, the running total and whether
    the loop ran to its end. *)
Fixpoint batches (e : env) (tmap : string -> option string)
    (bs : list (list string)) (table : list StocksDaily.row) (total : nat)
  : Stamped (list StocksDaily.row * nat * bool) :=
  match bs with
  | [] => ret (table, total, true)
  | batch :: rest =>
      match fetch_batch_data (download e) batch (last_market_day e) with
      | [] => batches e tmap rest table total
      | df =>
          prepared <- prepare_records (parse_numeric e) (wall e) df tmap ;;
          match prepared with
          | None => ret (table, total, false)
          | Some [] => batches e tmap rest table total
          | Some records =>
              let (table', ok) := upsert_records (store e) table records UPSERT_CHUNK in
              if ok
              then batches e tmap rest table' (total + length records)%nat
              else ret (table', total, false)
          end
      end
  end.

(** [main] *)
Definition main (e : env) (d : db) : Stamped outcome :=
  let stop table total how_ :=
    {| final := {| stocks_daily := table;
                   daily_movers := daily_movers d;
                   weekly_movers := weekly_movers d |};
       total_records := total; calls := []; how := how_ |} in
  if negb (credentials e) then ret (stop (stocks_daily d) O (SysExit 1))
  else
    let target_date := last_market_day e in
    match tickers_df e with
    | None => ret (stop (stocks_daily d) O (SysExit 1))
    | Some df =>
        let tmap := ticker_map df in
        let ticker_list := map fst df in
        loaded <- batches e tmap (Py.slices BATCH_SIZE ticker_list) (stocks_daily d) O ;;
        let '(table, total, finished) := loaded in
        if negb finished then ret (stop table total Uncaught)
        else if (0 <? total)%nat
        then
          daily <- calculate_daily_movers (wall e) table target_date default_min_percent ;;
          weekly <- calculate_weekly_movers (wall e) table target_date default_min_percent ;;
          ret {| final :=
                   {| stocks_daily := table;
                      daily_movers :=
                        upsert_each DailyMover.key (accepts_daily (store e))
                          (daily_movers d) daily;
                      weekly_movers :=
                        upsert_each WeeklyMover.key (accepts_weekly (store e))
                          (weekly_movers d) weekly |};
                 total_records := total;
                 calls := [PercentChangesRpc; DailyMoversCall; WeeklyMoversCall];
                 how := Returned |}
        else ret (stop table total (SysExit 1))
    end.

(** A page of the [tickers] table: the request raises, or returns rows
    [(ticker, company_name)]. *)
Inductive page :=
| PageRaises
| Page (rows : list (string * option string)).

Definition page_size : nat := 1000.

(** The loop [while True] of [get_tickers_from_db], from [offset] on with
    the rows read so far; [None] when the fuel runs out. *)
Fixpoint read_pages (request : nat -> nat -> page) (fuel : nat) (offset : nat)
    (all_rows : list (string * option string))
  : option (list (string * option string)) :=
  match fuel with
  | O => None
  | S fuel' =>
      match request offset (offset + page_size - 1)%nat with
      | PageRaises => Some all_rows
      | Page [] => Some all_rows
      | Page page_data =>
          let all_rows := all_rows ++ page_data in
          if (length page_data <? page_size)%nat then Some all_rows
          else read_pages request fuel' (offset + page_size)%nat all_rows
      end
  end.

(** [get_tickers_from_db]: the rows read, or [None] for its [sys.exit(1)]
    when there is none; the outer [None] is the fuel running out. *)
Definition get_tickers_from_db (request : nat -> nat -> page) (fuel : nat)
  : option (option (list (string * option string))) :=
  match read_pages request fuel O [] with
  | None => None
  | Some [] => Some None
  | Some all_rows => Some (Some all_rows)
  end.

(** [load_tickers_from_csv]: the frame of tickers and names, or [None] for
    the [sys.exit(1)] of its handler. *)
Definition load_tickers_from_csv (f : Csv.file)
  : option (list (string * option string)) :=
  match f with
  | Csv.Unreadable => None
  | Csv.Frame columns =>
      match Csv.ticker_column columns with
      | None => None
      | Some ticker_col =>
          match Csv.get columns ticker_col with
          | None => None
          | Some col =>
              let tickers := map Py.strip (Py.dropna (Csv.cells col)) in
              let names :=
                match Csv.name_column columns with
                | Some name_col =>
                    match Csv.get columns name_col with
                    | Some ncol => Py.fillna (Csv.cells ncol) (Csv.cells col)
                    | None => []
                    end
                | None => map Some tickers
                end in
              if (length tickers =? length names)%nat
              then Some (combine tickers names)
              else None
          end
      end
  end.

(** The loading of the tickers in [main]: the table first; the bare
    [except:] around it also catches the [SystemExit] of
    [get_tickers_from_db], so the file is read whenever the table gave no
    row. *)
Definition load_tickers (from_db : option (list (string * option string)))
    (f : Csv.file) : option (list (string * option string)) :=
  match from_db with
  | Some rows => Some rows
  | None => load_tickers_from_csv f
  end.

End Fast.


(** ** [stock_data_loader.py] *)

(** yfinance's [Ticker] as the per-ticker loader reads it. *)
Module YF.

(** A row of [stock.history(...)]: its index is the date. *)
Record bar := {
  index : Z;
  Open : float;
  High : float;
  Low : float;
  Close : float;
  Volume : float
}.

(** The keys of [stock.info] the loader looks up. *)
Record info := {
  marketCap : option Z;
  longName : option string;
  shortName : option string
}.

(** One attempt: [yf.Ticker] or [history] raises, or [history] returns
    [hist]; [stock.info] is read only after that and may raise too
    ([None]). *)
Inductive reply :=
| Raises
| History (hist : list bar) (about : option info).

End YF.

Module StockDataLoader.

(** What a run reads from outside. *)
Record env := {
  (** [SUPABASE_URL] and [SUPABASE_KEY] are set *)
  credentials : bool;
  wall : clock;
  store : backend;
  (** [datetime.now().date()] *)
  today : Z;
  (** the reply to the [n]-th attempt for a ticker and a range
      [start, end) *)
  history : nat -> string -> Z -> Z -> YF.reply;
  (** what [load_tickers_from_csv] returns *)
  csv_tickers : list string
}.

(** A step a run takes besides reading and writing the store. *)
Inductive event :=
| Sleep (seconds : float)
| Calls (c : call).

Section Fetch.
Variable e : env.

(** The [except] branch of an attempt: back off and go on, or give up. *)
Definition on_exception (attempt max_retries : nat)
    (go_on : Stamped (option StocksDaily.row * list Z))
  : Stamped (option StocksDaily.row * list Z) :=
  if Z.of_nat attempt <? Z.of_nat max_retries - 1
  then
    r <- go_on ;;
    ret (fst r, 2 ^ Z.of_nat attempt :: snd r)
  else ret (None, []).

(** The loop [for attempt in range(max_retries)], from [attempt] on with
    [remaining] attempts left; the result and the sleeps, in seconds. *)
Fixpoint attempts (ticker : string) (date : Z) (max_retries : nat)
    (remaining attempt : nat) : Stamped (option StocksDaily.row * list Z) :=
  match remaining with
  | O => ret (None, [])
  | S remaining' =>
      let go_on := attempts ticker date max_retries remaining' (S attempt) in
      let start_date := date - 5 in
      let end_date := date + 1 in
      match history e attempt ticker start_date end_date with
      | YF.Raises => on_exception attempt max_retries go_on
      | YF.History [] _ => ret (None, [])
      | YF.History hist about =>
          match Py.iloc hist (-1) with
          | None => on_exception attempt max_retries go_on
          | Some latest_data =>
              let latest_date := YF.index latest_data in
              match about, Py.int_of_float (YF.Volume latest_data) with
              | Some info, Some vol =>
                  let company_name :=
                    match YF.longName info with
                    | Some n => n
                    | None =>
                        match YF.shortName info with
                        | Some n => n
                        | None => ticker
                        end
                    end in
                  t <- now (wall e) ;;
                  ret (Some {| StocksDaily.ticker := Py.upper ticker;
                               StocksDaily.company_name := company_name;
                               StocksDaily.date := latest_date;
                               StocksDaily.open_price := Some (YF.Open latest_data);
                               StocksDaily.high_price := Some (YF.High latest_data);
                               StocksDaily.low_price := Some (YF.Low latest_data);
                               StocksDaily.close_price := YF.Close latest_data;
                               StocksDaily.volume := vol;
                               StocksDaily.market_cap := YF.marketCap info;
                               StocksDaily.created_at := t |}, [])
              | _, _ => on_exception attempt max_retries go_on
              end
          end
      end
  end.

(** [fetch_stock_data]: without a date it asks for yesterday. *)
Definition fetch_stock_data (ticker : string) (date : option Z) (max_retries : nat)
  : Stamped (option StocksDaily.row * list Z) :=
  let date := match date with Some d => d | None => today e - 1 end in
  attempts ticker date max_retries max_retries O.

(** [insert_stock_data]: an upsert; a rejected write is logged. *)
Definition insert_stock_data (table : list StocksDaily.row) (stock_data : StocksDaily.row)
  : list StocksDaily.row :=
  if accepts_bars (store e) [stock_data]
  then Store.upsert StocksDaily.key table stock_data
  else table.

End Fetch.

Section Movers.
Import StocksDaily.

Definition default_min_percent : float := 15%float.

(** The body of the loop of [calculate_and_insert_daily_movers] for one
    ticker. *)
Definition daily_mover (df : list row) (min_percent : float) (tk : string)
  : option (timestamp -> DailyMover.row) :=
  let ticker_data := Frame.ticker_data df tk in
  if (length ticker_data <? 2)%nat then None
  else
    match Py.iloc ticker_data (-2), Py.iloc ticker_data (-1) with
    | Some prev, Some curr =>
        let prev_close := close_price prev in
        let curr_close := close_price curr in
        let curr_date := date curr in
        let percent_change := Frame.percent prev_close curr_close in
        if Py.ge (abs percent_change) min_percent
        then Some (fun t =>
               {| DailyMover.ticker := tk;
                  DailyMover.date := curr_date;
                  DailyMover.previous_close := prev_close;
                  DailyMover.current_close := curr_close;
                  DailyMover.percent_change := Py.np_round2 percent_change;
                  DailyMover.volume := volume curr;
                  DailyMover.created_at := t |})
        else None
    | _, _ => None
    end.

(** [calculate_and_insert_daily_movers]: the movers it hands to the
    store's upsert, in order. *)
Definition calculate_and_insert_daily_movers (wall : clock) (today : Z)
    (stocks_daily : list row) (min_percent : float) : Stamped (list DailyMover.row) :=
  let yesterday := today - 1 in
  let two_days_ago := yesterday - 1 in
  match Store.range_query stocks_daily two_days_ago yesterday with
  | [] => ret []
  | data =>
      let df := Frame.sort_ticker_date data in
      Frame.collect wall (daily_mover df min_percent) (Frame.tickers df)
  end.

(** The body of the loop of [calculate_and_insert_weekly_movers] for one
    ticker. *)
Definition weekly_mover (df : list row) (min_percent : float) (tk : string)
  : option (timestamp -> WeeklyMover.row) :=
  let ticker_data := Frame.ticker_data df tk in
  if (length ticker_data <? 5)%nat then None
  else
    match Py.iloc ticker_data 0, Py.iloc ticker_data (-1) with
    | Some first, Some last =>
        let week_start_close := close_price first in
        let week_end_close := close_price last in
        let week_start_date := date first in
        let week_end_date := date last in
        let days_diff := week_end_date - week_start_date in
        if (days_diff <? 5) || (9 <? days_diff) then None
        else
          let percent_change := Frame.percent week_start_close week_end_close in
          if Py.ge (abs percent_change) min_percent
          then Some (fun t =>
                 {| WeeklyMover.ticker := tk;
                    WeeklyMover.week_start_date := week_start_date;
                    WeeklyMover.week_end_date := week_end_date;
                    WeeklyMover.week_start_close := week_start_close;
                    WeeklyMover.week_end_close := week_end_close;
                    WeeklyMover.percent_change := Py.np_round2 percent_change;
                    WeeklyMover.created_at := t |})
          else None
    | _, _ => None
    end.

(** [calculate_and_insert_weekly_movers]: the movers it hands to the
    store's upsert, in order. *)
Definition calculate_and_insert_weekly_movers (wall : clock) (today : Z)
    (stocks_daily : list row) (min_percent : float) : Stamped (list WeeklyMover.row) :=
  let ten_days_ago := today - 10 in
  match Store.range_query stocks_daily ten_days_ago today with
  | [] => ret []
  | data =>
      let df := Frame.sort_ticker_date data in
      Frame.collect wall (weekly_mover df min_percent) (Frame.tickers df)
  end.

End Movers.

(** The state of the loop of [run_daily_update]. *)
Record progress := {
  table : list StocksDaily.row;
  successful : nat;
  failed : nat;
  trace : list event
}.

(** The loop [for i, ticker in enumerate(tickers, 1)]. *)
Fixpoint update_loop (e : env) (batch_delay : float) (batch_size : positive)
    (tickers : list string) (i : Z) (p : progress) : Stamped progress :=
  match tickers with
  | [] => ret p
  | ticker :: rest =>
      fetched <- fetch_stock_data e ticker None 3 ;;
      let (stock_data, sleeps) := fetched in
      let slept := map (fun s => Sleep (Py.float_of_Z s)) sleeps in
      let checkpoint :=
        if i mod Z.pos batch_size =? 0 then [Sleep 5%float] else [] in
      let p' :=
        match stock_data with
        | Some r =>
            {| table := insert_stock_data e (table p) r;
               successful := S (successful p);
               failed := failed p;
               trace := trace p ++ slept ++ [Sleep batch_delay] ++ checkpoint |}
        | None =>
            {| table := table p;
               successful := successful p;
               failed := S (failed p);
               trace := trace p ++ slept ++ [Sleep batch_delay] ++ checkpoint |}
        end in
      update_loop e batch_delay batch_size rest (i + 1) p'
  end.

(** The outcome of a run. *)
Record outcome := {
  final : db;
  succeeded : nat;
  failures : nat;
  steps : list event;
  how : ending
}.

(** [run_daily_update] *)
Definition run_daily_update (e : env) (d : db) (tickers : list string)
    (batch_delay : float) (batch_size : positive) : Stamped outcome :=
  p <- update_loop e batch_delay batch_size tickers 1
         {| table := stocks_daily d; successful := O; failed := O; trace := [] |} ;;
  if (0 <? successful p)%nat
  then
    daily <- calculate_and_insert_daily_movers (wall e) (today e) (table p)
               default_min_percent ;;
    weekly <- calculate_and_insert_weekly_movers (wall e) (today e) (table p)
               default_min_percent ;;
    ret {| final :=
             {| stocks_daily := table p;
                daily_movers :=
                  upsert_each DailyMover.key (accepts_daily (store e))
                    (daily_movers d) daily;
                weekly_movers :=
                  upsert_each WeeklyMover.key (accepts_weekly (store e))
                    (weekly_movers d) weekly |};
           succeeded := successful p;
           failures := failed p;
           steps := trace p ++ [Calls DailyMoversCall; Calls WeeklyMoversCall];
           how := Returned |}
  else
    ret {| final :=
             {| stocks_daily := table p;
                daily_movers := daily_movers d;
                weekly_movers := weekly_movers d |};
           succeeded := successful p;
           failures := failed p;
           steps := trace p;
           how := Returned |}.

(** [main] *)
Definition main (e : env) (d : db) : Stamped outcome :=
  let nothing :=
    {| final := d; succeeded := O; failures := O; steps := []; how := Returned |} in
  if negb (credentials e) then ret nothing
  else
    match csv_tickers e with
    | [] => ret nothing
    | tickers => run_daily_update e d tickers 1.5%float 100%positive
    end.

(** [load_tickers_from_csv]: the tickers of the file, [[]] when reading
    it raises. *)
Definition load_tickers_from_csv (f : Csv.file) : list string :=
  match f with
  | Csv.Unreadable => []
  | Csv.Frame columns =>
      match Csv.ticker_column columns with
      | None => []
      | Some ticker_column =>
          match Csv.get columns ticker_column with
          | None => []
          | Some col => map Py.strip (Py.dropna (Csv.cells col))
          end
      end
  end.

(** [yf.Ticker(ticker).info] as [insert_tickers_to_db] reads it: the
    lookup raises, or gives the names and the sector it holds. *)
Inductive profile :=
| NoProfile
| Profile (names : YF.info) (sector : option string).

(** The row [insert_tickers_to_db] prepares for a ticker: from the
    profile, or from the ticker alone when the lookup raises. *)
Definition ticker_row (about : string -> profile) (ticker : string) : Tickers.row :=
  match about ticker with
  | Profile info sector =>
      {| Tickers.ticker := Py.upper ticker;
         Tickers.company_name :=
           match YF.longName info with
           | Some n => n
           | None =>
               match YF.shortName info with
               | Some n => n
               | None => ticker
               end
           end;
         Tickers.sector :=
           match sector with
           | Some s => s
           | None => "Unknown"%string
           end;
         Tickers.active := true |}
  | NoProfile =>
      {| Tickers.ticker := Py.upper ticker;
         Tickers.company_name := ticker;
         Tickers.sector := "Unknown"%string;
         Tickers.active := true |}
  end.

(** The loop [for i in range(0, len(ticker_data), batch_size)]: each batch
    is upserted in a [try] of its own. *)
Definition insert_batches (accepts : list Tickers.row -> bool)
    (table : list Tickers.row) (batches : list (list Tickers.row))
  : list Tickers.row :=
  fold_left
    (fun tb batch =>
       if accepts batch then Store.upsert_all Tickers.key tb batch else tb)
    batches table.

(** [insert_tickers_to_db]: the table afterwards and the pauses, one of
    0.1 s after each ticker. *)
Definition insert_tickers_to_db (about : string -> profile)
    (accepts : list Tickers.row -> bool) (table : list Tickers.row)
    (tickers : list string) : list Tickers.row * list event :=
  let ticker_data := map (ticker_row about) tickers in
  let pauses := map (fun _ => Sleep 0x1.999999999999ap-4%float) tickers in
  let batch_size := 50%nat in
  (insert_batches accepts table (Py.slices batch_size ticker_data), pauses).

End StockDataLoader.


(** ** Notions the statements use *)

(** The weekly frame of a ticker that passes the gate of the loop. *)
Definition week_of (df : list StocksDaily.row) (tk : string) (m : WeeklyMover.row) : Prop :=
  exists first mid last,
    Frame.ticker_data df tk = first :: mid ++ [last]
    /\ (5 <= length (Frame.ticker_data df tk))%nat
    /\ WeeklyMover.week_start_date m = StocksDaily.date first
    /\ WeeklyMover.week_end_date m = StocksDaily.date last
    /\ 5 <= StocksDaily.date last - StocksDaily.date first <= 9
    /\ forall r, In r (Frame.ticker_data df tk) ->
                 StocksDaily.date first <= StocksDaily.date r <= StocksDaily.date last.

(** The gate of the weekly computations on a ticker of the frame [df]: its
    bars, in order of date, run from [first] to [last], there are at least
    five of them, and [first] and [last] are 5 to 9 days apart. *)
Definition weekly_gate (df : list StocksDaily.row) (tk : string)
    (first last : StocksDaily.row) : Prop :=
  (exists mid, Frame.ticker_data df tk = first :: mid ++ [last])
  /\ (5 <= length (Frame.ticker_data df tk))%nat
  /\ 5 <= StocksDaily.date last - StocksDaily.date first <= 9.

(** The rule of the daily computation for a ticker whose last two bars by
    date are [prev] and [curr]: a mover is among [movers] exactly when the
    previous close is not zero and the percent change reaches the threshold
    in absolute value, and that mover holds the rounded percent change under
    the key [(ticker, date of curr)]. *)
Definition daily_rule (movers : list DailyMover.row) (tk : string)
    (prev curr : StocksDaily.row) (min_percent : float) : Prop :=
  let pct :=
    Frame.percent (StocksDaily.close_price prev) (StocksDaily.close_price curr) in
  ((exists m, In m movers /\ DailyMover.ticker m = tk)
   <-> (StocksDaily.close_price prev =? 0)%float = false
       /\ Py.ge (abs pct) min_percent = true)
  /\ (forall m, In m movers -> DailyMover.ticker m = tk ->
        DailyMover.percent_change m = Py.round2 pct
        /\ DailyMover.key m = (tk, StocksDaily.date curr)
        /\ DailyMover.previous_close m = StocksDaily.close_price prev
        /\ DailyMover.current_close m = StocksDaily.close_price curr).

(** What the per-ticker loader relies on from [stock.history(start, end)]:
    the bars it returns are dated in [start, end) and come in ascending
    order of date. *)
Definition history_in_range (e : StockDataLoader.env) : Prop :=
  forall n tk s t hist about,
    StockDataLoader.history e n tk s t = YF.History hist about ->
    Forall (fun b => s <= YF.index b < t) hist
    /\ StronglySorted (fun a b => YF.index a <= YF.index b) hist.


(** The delays of [n] consecutive back-offs that start at attempt [first]:
    [2 ** first], [2 ** (first + 1)], ... seconds. *)
Definition backoff (first n : nat) : list Z :=
  map (fun i => 2 ^ Z.of_nat i) (seq first n).

(** A ticker's frame has no data: it cannot be read, it has no row, or all
    its closes are missing. *)
Definition no_data (f : Raw.frame) : bool :=
  match f with
  | Raw.Malformed => true
  | Raw.Bars rows =>
      match rows with [] => true | _ => false end
      || forallb (fun b => Raw.isna (Raw.close b)) rows
  end.

(** Modelled from the spec: the float a raw value reads as, when it reads
    as one: a float is itself, an integer is the float nearest to it, a text
    is what pandas parses it to. *)
Definition reading (parse : string -> option float) (c : Raw.cell) : option float :=
  match c with
  | Raw.Num x => Some x
  | Raw.Int z => Some (Py.float_of_Z z)
  | Raw.Str s => parse s
  | Raw.Null => None
  end.

(** Modelled from the spec: the number a raw value holds; a missing value,
    a NaN and a text that is no number hold none. *)
Definition valid_number (parse : string -> option float) (c : Raw.cell)
  : option float :=
  match reading parse c with
  | Some x => if Py.isna x then None else Some x
  | None => None
  end.

(** Modelled from the spec: a raw volume is missing or invalid: it is no
    integer and holds no number. *)
Definition invalid (parse : string -> option float) (c : Raw.cell) : bool :=
  match c with
  | Raw.Int _ => false
  | _ => match valid_number parse c with Some _ => false | None => true end
  end.

(** Modelled from the spec: the rows that are not dropped have a ticker and
    a close that holds a number. *)
Definition complete (parse : string -> option float) (r : Raw.row) : bool :=
  match Raw.ticker r, valid_number parse (Raw.close (Raw.bar_of r)) with
  | Some _, Some _ => true
  | _, _ => false
  end.

(** Every volume of the frame is an integer that fits int64; some volume of
    the frame is no integer. *)
Definition int64_volumes (df : list Raw.row) : Prop :=
  Forall (fun r => exists z, Raw.volume (Raw.bar_of r) = Raw.Int z
                             /\ - 2 ^ 63 <= z < 2 ^ 63) df.

Definition mixed_volumes (df : list Raw.row) : Prop :=
  exists r, In r df /\ forall z, Raw.volume (Raw.bar_of r) <> Raw.Int z.

(** The integer [v] is the volume of the row [r] of the frame [df]: an
    int64; 0 when the raw volume is missing or invalid; the raw integer
    itself when the frame holds nothing but int64 volumes; and when some
    volume of the frame is no integer, the number the raw volume holds,
    cut to its integer part. *)
Definition volume_of (parse : string -> option float) (df : list Raw.row)
    (r : Raw.row) (v : Z) : Prop :=
  - 2 ^ 63 <= v < 2 ^ 63
  /\ (invalid parse (Raw.volume (Raw.bar_of r)) = true -> v = 0)
  /\ (int64_volumes df -> Raw.volume (Raw.bar_of r) = Raw.Int v)
  /\ (mixed_volumes df ->
      forall x n,
        valid_number parse (Raw.volume (Raw.bar_of r)) = Some x ->
        Py.int_of_float x = Some n -> - 2 ^ 63 <= n < 2 ^ 63 ->
        v = n).

(** The record [out] is the normal form of the row [r] of the frame
    [df]. *)
Definition normalized (parse : string -> option float)
    (ticker_map : string -> option string) (df : list Raw.row) (r : Raw.row)
    (out : StocksDaily.row) : Prop :=
  Raw.ticker r = Some (StocksDaily.ticker out)
  /\ StocksDaily.company_name out
     = match ticker_map (StocksDaily.ticker out) with
       | Some name => name
       | None => StocksDaily.ticker out
       end
  /\ StocksDaily.date out = Raw.date (Raw.bar_of r)
  /\ valid_number parse (Raw.close (Raw.bar_of r)) = Some (StocksDaily.close_price out)
  /\ StocksDaily.open_price out = valid_number parse (Raw.open (Raw.bar_of r))
  /\ StocksDaily.high_price out = valid_number parse (Raw.high (Raw.bar_of r))
  /\ StocksDaily.low_price out = valid_number parse (Raw.low (Raw.bar_of r))
  /\ volume_of parse df r (StocksDaily.volume out)
  /\ StocksDaily.market_cap out = None.

(** The bars of a reply of [yf.download]. *)
Definition bars_of (r : Raw.response) : list Raw.bar :=
  match r with
  | Raw.Raises => []
  | Raw.MultiIndex columns =>
      flat_map (fun kf => match snd kf with
                          | Raw.Bars rows => rows
                          | Raw.Malformed => []
                          end) columns
  | Raw.Flat (Raw.Bars rows) => rows
  | Raw.Flat Raw.Malformed => []
  end.

(** No volume of the reply is an infinity: the integer conversion of the
    normaliser goes through. *)
Definition finite_volumes (parse : string -> option float) (r : Raw.response) : Prop :=
  Forall (fun b => Fast.volume_int64 parse (Raw.volume b) <> None) (bars_of r).

(** The [tickers] table as a store that answers every page request: the
    rows [offset] to [last] of the active tickers in order of ticker. *)
Definition honest_pages (rows : list (string * option string)) : nat -> nat -> Fast.page :=
  fun offset last => Fast.Page (firstn (last + 1 - offset) (skipn offset rows)).

(** The same store when the requests from the row [bad] on raise. *)
Definition failing_from (rows : list (string * option string)) (bad : nat)
  : nat -> nat -> Fast.page :=
  fun offset last =>
    if (bad <=? offset)%nat then Fast.PageRaises else honest_pages rows offset last.

(** A frame has columns of one length. *)
Definition rectangular (columns : list Csv.column) : Prop :=
  forall c c', In c columns -> In c' columns ->
               length (Csv.cells c) = length (Csv.cells c').

(** The cells of the column the loaders take the tickers from. *)
Definition ticker_cells (columns : list Csv.column) : list (option string) :=
  match Csv.ticker_column columns with
  | Some name =>
      match Csv.get columns name with
      | Some col => Csv.cells col
      | None => []
      end
  | None => []
  end.

(** A mover whose percent change is rounded as numpy rounds it, from its own
    two closes. *)
Definition numpy_rounded_daily (m : DailyMover.row) : DailyMover.row :=
  {| DailyMover.ticker := DailyMover.ticker m;
     DailyMover.date := DailyMover.date m;
     DailyMover.previous_close := DailyMover.previous_close m;
     DailyMover.current_close := DailyMover.current_close m;
     DailyMover.percent_change :=
       Py.np_round2 (Frame.percent (DailyMover.previous_close m)
                       (DailyMover.current_close m));
     DailyMover.volume := DailyMover.volume m;
     DailyMover.created_at := DailyMover.created_at m |}.

Definition numpy_rounded_weekly (m : WeeklyMover.row) : WeeklyMover.row :=
  {| WeeklyMover.ticker := WeeklyMover.ticker m;
     WeeklyMover.week_start_date := WeeklyMover.week_start_date m;
     WeeklyMover.week_end_date := WeeklyMover.week_end_date m;
     WeeklyMover.week_start_close := WeeklyMover.week_start_close m;
     WeeklyMover.week_end_close := WeeklyMover.week_end_close m;
     WeeklyMover.percent_change :=
       Py.np_round2 (Frame.percent (WeeklyMover.week_start_close m)
                       (WeeklyMover.week_end_close m));
     WeeklyMover.created_at := WeeklyMover.created_at m |}.

(** A daily mover is backed by two stored bars of its ticker, [prev] and
    [curr], dated in the window [lo, hi]: it carries the date, the close and
    the volume of [curr] and the close of [prev], which is neither zero nor
    missing, and the percent change between the two closes reaches the
    threshold. *)
Definition daily_backed (table : list StocksDaily.row) (lo hi : Z)
    (min_percent : float) (m : DailyMover.row) : Prop :=
  exists prev curr,
    In prev table /\ In curr table
    /\ StocksDaily.ticker prev = DailyMover.ticker m
    /\ StocksDaily.ticker curr = DailyMover.ticker m
    /\ lo <= StocksDaily.date prev <= StocksDaily.date curr
    /\ StocksDaily.date curr <= hi
    /\ DailyMover.date m = StocksDaily.date curr
    /\ DailyMover.previous_close m = StocksDaily.close_price prev
    /\ DailyMover.current_close m = StocksDaily.close_price curr
    /\ DailyMover.volume m = StocksDaily.volume curr
    /\ (DailyMover.previous_close m =? 0)%float = false
    /\ Py.isna (DailyMover.previous_close m) = false
    /\ Py.isna (DailyMover.current_close m) = false
    /\ Py.ge (abs (Frame.percent (DailyMover.previous_close m)
                     (DailyMover.current_close m))) min_percent = true
    /\ DailyMover.percent_change m
       = Py.round2 (Frame.percent (DailyMover.previous_close m)
                      (DailyMover.current_close m)).

(** The stored bars of a ticker that are dated in the window [lo, hi]. *)
Definition bars_in (table : list StocksDaily.row) (tk : string) (lo hi : Z)
  : list StocksDaily.row :=
  filter (fun r => String.eqb (StocksDaily.ticker r) tk
                   && (lo <=? StocksDaily.date r) && (StocksDaily.date r <=? hi))
    table.

(** A weekly mover is backed by the first and the last stored bar of its
    ticker in the window [lo, hi]: the ticker has at least five bars there,
    none dated before [first] or after [last], which are 5 to 9 days apart;
    the mover carries their dates and closes, the week-start close is
    neither zero nor missing, and the percent change between the two closes
    reaches the threshold. *)
Definition weekly_backed (table : list StocksDaily.row) (lo hi : Z)
    (min_percent : float) (m : WeeklyMover.row) : Prop :=
  exists first last,
    In first table /\ In last table
    /\ StocksDaily.ticker first = WeeklyMover.ticker m
    /\ StocksDaily.ticker last = WeeklyMover.ticker m
    /\ lo <= StocksDaily.date first
    /\ StocksDaily.date last <= hi
    /\ (forall r, In r (bars_in table (WeeklyMover.ticker m) lo hi) ->
                  StocksDaily.date first <= StocksDaily.date r <= StocksDaily.date last)
    /\ (5 <= length (bars_in table (WeeklyMover.ticker m) lo hi))%nat
    /\ 5 <= StocksDaily.date last - StocksDaily.date first <= 9
    /\ WeeklyMover.week_start_date m = StocksDaily.date first
    /\ WeeklyMover.week_end_date m = StocksDaily.date last
    /\ WeeklyMover.week_start_close m = StocksDaily.close_price first
    /\ WeeklyMover.week_end_close m = StocksDaily.close_price last
    /\ (WeeklyMover.week_start_close m =? 0)%float = false
    /\ Py.isna (WeeklyMover.week_start_close m) = false
    /\ Py.isna (WeeklyMover.week_end_close m) = false
    /\ Py.ge (abs (Frame.percent (WeeklyMover.week_start_close m)
                     (WeeklyMover.week_end_close m))) min_percent = true
    /\ WeeklyMover.percent_change m
       = Py.round2 (Frame.percent (WeeklyMover.week_start_close m)
                      (WeeklyMover.week_end_close m)).

(** The record [fetch_stock_data] builds for [ticker] from the latest bar
    of a reply, the company information and the reading of the clock. *)
Definition record_of (ticker : string) (latest : YF.bar) (info : YF.info)
    (vol : Z) (t : timestamp) : StocksDaily.row :=
  {| StocksDaily.ticker := Py.upper ticker;
     StocksDaily.company_name :=
       match YF.longName info with
       | Some n => n
       | None => match YF.shortName info with Some n => n | None => ticker end
       end;
     StocksDaily.date := YF.index latest;
     StocksDaily.open_price := Some (YF.Open latest);
     StocksDaily.high_price := Some (YF.High latest);
     StocksDaily.low_price := Some (YF.Low latest);
     StocksDaily.close_price := YF.Close latest;
     StocksDaily.volume := vol;
     StocksDaily.market_cap := YF.marketCap info;
     StocksDaily.created_at := t |}.

(** ** Sample data *)

Module Examples.
Local Open Scope string_scope.

(** A clock that advances by one at each reading. *)
Definition ticking : clock := fun n => Z.of_nat n.

(** A stored bar with the given ticker, date and close. *)
Definition bar (tk : string) (d : Z) (c : float) : StocksDaily.row :=
  {| StocksDaily.ticker := tk;
     StocksDaily.company_name := tk;
     StocksDaily.date := d;
     StocksDaily.open_price := Some c;
     StocksDaily.high_price := Some c;
     StocksDaily.low_price := Some c;
     StocksDaily.close_price := c;
     StocksDaily.volume := 1000;
     StocksDaily.market_cap := None;
     StocksDaily.created_at := 0 |}.

(** The scenario of the specification: A goes from 100 to 120, B from
    100 to 105, on days 1 and 2. *)
Definition two_tickers : list StocksDaily.row :=
  [bar "A" 1 100; bar "B" 1 100; bar "A" 2 120; bar "B" 2 105].

(** A ticker whose close was 0 on day 1 and is 10 on day 2. *)
Definition zero_close : list StocksDaily.row :=
  [bar "Z" 1 0; bar "Z" 2 10].

(** Five bars of one ticker, the first on day 10 at 100 and the last on
    day [10 + span] at 120. *)
Definition week (start : float) (span : Z) : list StocksDaily.row :=
  [bar "W" 10 start; bar "W" 11 110; bar "W" 12 110; bar "W" 13 110;
   bar "W" (10 + span) 120].

(** A store that accepts every write, and an empty database. *)
Definition accepting : backend :=
  {| accepts_bars := fun _ => true;
     accepts_daily := fun _ => true;
     accepts_weekly := fun _ => true |}.

Definition empty_db : db :=
  {| stocks_daily := []; daily_movers := []; weekly_movers := [] |}.


Definition without_B : backend :=
  {| accepts_bars :=
       fun chunk => negb (existsb (fun r => String.eqb (StocksDaily.ticker r) "B") chunk);
     accepts_daily := fun _ => true;
     accepts_weekly := fun _ => true |}.

(** A run on day 21 in which every request to yfinance raises. *)
Definition unreachable : StockDataLoader.env :=
  {| StockDataLoader.credentials := true;
     StockDataLoader.wall := ticking;
     StockDataLoader.store := accepting;
     StockDataLoader.today := 21;
     StockDataLoader.history := fun _ _ _ _ => YF.Raises;
     StockDataLoader.csv_tickers := ["AAPL"] |}.

(** A ticker whose only bar is dated day 15. *)
Definition stale_bar : YF.bar :=
  {| YF.index := 15; YF.Open := 99; YF.High := 101; YF.Low := 98;
     YF.Close := 100; YF.Volume := 1000 |}.

Definition stale : StockDataLoader.env :=
  {| StockDataLoader.credentials := true;
     StockDataLoader.wall := ticking;
     StockDataLoader.store := accepting;
     StockDataLoader.today := 21;
     StockDataLoader.history :=
       fun _ _ s t =>
         YF.History (if ((s <=? 15) && (15 <? t))%Z then [stale_bar] else [])
           (Some {| YF.marketCap := None; YF.longName := Some "Stale Inc";
                    YF.shortName := None |});
     StockDataLoader.csv_tickers := ["stl"] |}.


(** The record the loader builds from [stale_bar] at the first reading of
    the clock. *)
Definition stale_row : StocksDaily.row :=
  {| StocksDaily.ticker := "STL";
     StocksDaily.company_name := "Stale Inc";
     StocksDaily.date := 15;
     StocksDaily.open_price := Some 99%float;
     StocksDaily.high_price := Some 101%float;
     StocksDaily.low_price := Some 98%float;
     StocksDaily.close_price := 100;
     StocksDaily.volume := 1000;
     StocksDaily.market_cap := None;
     StocksDaily.created_at := 0 |}.

(** A raw bar of day 20 with the given close and volume, and a batch of
    three tickers: AAA has a bar, BBB has a bar without a close, CCC has no
    row. *)
Definition raw_bar (c v : Raw.cell) : Raw.bar :=
  {| Raw.date := 20; Raw.open := Raw.Num 99; Raw.high := Raw.Null;
     Raw.low := Raw.Str "n/a"; Raw.close := c; Raw.volume := v |}.

Definition partial_batch : list string -> Z -> Z -> Raw.response :=
  fun _ _ _ =>
    Raw.MultiIndex
      [("CCC", Raw.Bars []);
       ("BBB", Raw.Bars [raw_bar (Raw.Num nan) Raw.Null]);
       ("AAA", Raw.Bars [raw_bar (Raw.Num 100) (Raw.Int 5000)])].

(** No string is a number. *)
Definition no_number : string -> option float := fun _ => None.

(** No ticker has a name. *)
Definition no_names : string -> option string := fun _ => None.

(** A raw row of ticker NEG whose volume is -5. *)
Definition negative_volume : list Raw.row :=
  [{| Raw.bar_of := raw_bar (Raw.Num 100) (Raw.Int (-5)); Raw.ticker := Some "NEG" |}].

(** A raw row of ticker INF whose volume is infinite, after a row of AAA
    with a volume of 5000. *)
Definition infinite_volume : list Raw.row :=
  [{| Raw.bar_of := raw_bar (Raw.Num 100) (Raw.Int 5000); Raw.ticker := Some "AAA" |};
   {| Raw.bar_of := raw_bar (Raw.Num 100) (Raw.Num infinity); Raw.ticker := Some "INF" |}].

(** One raw row: AAA on day 20, close 100, volume 5000. *)
Definition one_raw_row : list Raw.row :=
  [{| Raw.bar_of := raw_bar (Raw.Num 100) (Raw.Int 5000); Raw.ticker := Some "AAA" |}].

(** A run of the normaliser and the upsert over [one_raw_row] that starts
    when the clock has been read [k] times. *)
Definition load_once (k : nat) (table : list StocksDaily.row) : list StocksDaily.row :=
  match fst (Fast.prepare_records no_number ticking one_raw_row no_names k) with
  | Some records => fst (Fast.upsert_records accepting table records Fast.UPSERT_CHUNK)
  | None => table
  end.

(** A run of the batched driver on day 20 over three tickers, with the
    reply [partial_batch] and a store that accepts every write. *)
Definition fast_env : Fast.env :=
  {| Fast.credentials := true;
     Fast.wall := ticking;
     Fast.store := accepting;
     Fast.last_market_day := 20;
     Fast.tickers_df := Some [("AAA", Some "Triple A"); ("BBB", None); ("CCC", None)];
     Fast.download := partial_batch;
     Fast.parse_numeric := no_number |}.

(** A table of 1500 tickers, T0 to T1499, without names. *)
Definition many_tickers : list (string * option string) :=
  map (fun n => ("T" ++ NilEmpty.string_of_uint (Nat.to_uint n), None)) (seq 0 1500).



(** A tickers file with a column of symbols, one of them missing, and a
    column of names; the same file with every symbol present. *)
Definition csv_with_gap : list Csv.column :=
  [ {| Csv.header := "id"; Csv.cells := [Some "1"; Some "2"; Some "3"] |};
    {| Csv.header := "Symbol"; Csv.cells := [Some " aapl "; None; Some "msft"] |};
    {| Csv.header := "name"; Csv.cells := [None; Some "X"; Some "Microsoft"] |} ].

Definition csv_complete : list Csv.column :=
  [ {| Csv.header := "id"; Csv.cells := [Some "1"; Some "2"; Some "3"] |};
    {| Csv.header := "Symbol"; Csv.cells := [Some " aapl "; Some "x"; Some "msft"] |};
    {| Csv.header := "name"; Csv.cells := [None; Some "X"; Some "Microsoft"] |} ].

(** The daily mover of A in [two_tickers], stamped at the first reading. *)
Definition mover_of_A : DailyMover.row :=
  {| DailyMover.ticker := "A";
     DailyMover.date := 2;
     DailyMover.previous_close := 100;
     DailyMover.current_close := 120;
     DailyMover.percent_change := 20;
     DailyMover.volume := 1000;
     DailyMover.created_at := 0 |}.

(** The weekly mover of W in [week 100 7], stamped at the first reading. *)
Definition mover_of_W : WeeklyMover.row :=
  {| WeeklyMover.ticker := "W";
     WeeklyMover.week_start_date := 10;
     WeeklyMover.week_end_date := 17;
     WeeklyMover.week_start_close := 100;
     WeeklyMover.week_end_close := 120;
     WeeklyMover.percent_change := 20;
     WeeklyMover.created_at := 0 |}.

(** The company information of [stale]. *)
Definition stale_info : YF.info :=
  {| YF.marketCap := None; YF.longName := Some "Stale Inc"; YF.shortName := None |}.

(** A run in which the first request for a ticker raises and the later ones
    answer as in [stale]. *)
Definition flaky : StockDataLoader.env :=
  {| StockDataLoader.credentials := true;
     StockDataLoader.wall := ticking;
     StockDataLoader.store := accepting;
     StockDataLoader.today := 21;
     StockDataLoader.history :=
       fun n tk s t =>
         match n with
         | O => YF.Raises
         | _ => StockDataLoader.history stale n tk s t
         end;
     StockDataLoader.csv_tickers := ["stl"] |}.

End Examples.

(** * Properties *)

(** ** Floats: NaN goes through the percent change and fails the threshold *)

Section FloatFacts.

Lemma SFcompare_refl_nan (x : spec_float) :
  SFeqb x x = false -> x = S754_nan.
Proof.
  destruct x as [s | s | | s m e]; unfold SFeqb; simpl; try discriminate; auto.
  - destruct s; discriminate.
  - rewrite Z.compare_refl.
    change (PosDef.Pos.compare_cont Eq m m) with (Pos.compare m m).
    rewrite Pos.compare_refl. destruct s; discriminate.
Qed.

Lemma isna_nan (x : float) : Py.isna x = true -> Prim2SF x = S754_nan.
Proof.
  unfold Py.isna, is_nan. rewrite eqb_spec. intro H.
  apply SFcompare_refl_nan. now apply negb_true_iff.
Qed.

Lemma nan_isna (x : float) : Prim2SF x = S754_nan -> Py.isna x = true.
Proof.
  unfold Py.isna, is_nan. rewrite eqb_spec. intros ->. reflexivity.
Qed.

Lemma percent_nan_start (a b : float) :
  Py.isna a = true -> Prim2SF (Frame.percent a b) = S754_nan.
Proof.
  intro H. apply isna_nan in H. unfold Frame.percent.
  rewrite mul_spec, div_spec, sub_spec, H.
  destruct (Prim2SF b); reflexivity.
Qed.

Lemma percent_nan_end (a b : float) :
  Py.isna b = true -> Prim2SF (Frame.percent a b) = S754_nan.
Proof.
  intro H. apply isna_nan in H. unfold Frame.percent.
  rewrite mul_spec, div_spec, sub_spec, H. reflexivity.
Qed.

Lemma ge_abs_nan (p t : float) :
  Prim2SF p = S754_nan -> Py.ge (abs p) t = false.
Proof.
  intro H. unfold Py.ge. rewrite leb_spec, abs_spec, H.
  destruct (Prim2SF t) as [ | | | ]; reflexivity.
Qed.

(** A NaN close on either side never passes the threshold. *)
Lemma ge_percent_nan (a b t : float) :
  Py.isna a = true \/ Py.isna b = true ->
  Py.ge (abs (Frame.percent a b)) t = false.
Proof.
  intros [H | H]; apply ge_abs_nan;
    [now apply percent_nan_start | now apply percent_nan_end].
Qed.

End FloatFacts.

(** ** Lists: indices, distinct values, sorting *)

Section ListFacts.
Context {A : Type}.

Lemma iloc_first (x : A) (l : list A) : Py.iloc (x :: l) 0 = Some x.
Proof. reflexivity. Qed.

Lemma iloc_last (l : list A) (x : A) : Py.iloc (l ++ [x]) (-1) = Some x.
Proof.
  unfold Py.iloc. rewrite length_app. simpl length.
  replace (Z.of_nat (length l + 1) + -1) with (Z.of_nat (length l)) by lia.
  change (-1 <? 0) with true. cbv iota.
  destruct (Z.ltb_spec (Z.of_nat (length l)) 0) as [H | _]; [lia |].
  rewrite Nat2Z.id, nth_error_app2 by lia.
  now rewrite Nat.sub_diag.
Qed.

Lemma iloc_before_last (l : list A) (x y : A) :
  Py.iloc (l ++ [x; y]) (-2) = Some x.
Proof.
  unfold Py.iloc. rewrite length_app. simpl length.
  replace (Z.of_nat (length l + 2) + -2) with (Z.of_nat (length l)) by lia.
  change (-2 <? 0) with true. cbv iota.
  destruct (Z.ltb_spec (Z.of_nat (length l)) 0) as [H | _]; [lia |].
  rewrite Nat2Z.id, nth_error_app2 by lia.
  now rewrite Nat.sub_diag.
Qed.

Lemma iloc_last_of_two (l : list A) (x y : A) :
  Py.iloc (l ++ [x; y]) (-1) = Some y.
Proof.
  change [x; y] with ([x] ++ [y]). rewrite app_assoc. apply iloc_last.
Qed.

(** A list of two elements or more ends with two elements. *)
Lemma two_last (l : list A) :
  (2 <= length l)%nat -> exists pre x y, l = pre ++ [x; y].
Proof.
  intro H. destruct (rev l) as [ | y [ | x r]] eqn:E.
  - apply (f_equal (@length A)) in E. rewrite length_rev in E. simpl in E. lia.
  - apply (f_equal (@length A)) in E. rewrite length_rev in E. simpl in E. lia.
  - exists (rev r), x, y.
    apply (f_equal (@rev A)) in E. rewrite rev_involutive in E.
    rewrite E. simpl. now rewrite <- app_assoc.
Qed.

(** A non-empty list has a first and a last element. *)
Lemma first_last (l : list A) :
  (2 <= length l)%nat -> exists x mid y, l = x :: mid ++ [y].
Proof.
  intro H. destruct l as [ | x l]; [simpl in H; lia |].
  destruct (exists_last (l := l)) as [mid [y E]].
  - intros ->. simpl in H. lia.
  - exists x, mid, y. now rewrite E.
Qed.

Section SortFacts.
Variable le : A -> A -> bool.

Lemma insert_perm (x : A) (l : list A) : Permutation (x :: l) (Py.insert le x l).
Proof.
  induction l as [ | y l IH]; simpl; [reflexivity |].
  destruct (le x y); [reflexivity |].
  rewrite perm_swap. now constructor.
Qed.

Lemma sort_values_perm (l : list A) : Permutation l (Py.sort_values le l).
Proof.
  induction l as [ | x l IH]; simpl; [reflexivity |].
  rewrite <- insert_perm. now constructor.
Qed.

Lemma sort_values_In (x : A) (l : list A) :
  In x (Py.sort_values le l) <-> In x l.
Proof.
  split; apply Permutation_in;
    [symmetry |]; apply sort_values_perm.
Qed.

Lemma sort_values_length (l : list A) :
  length (Py.sort_values le l) = length l.
Proof. symmetry. apply Permutation_length, sort_values_perm. Qed.

Hypothesis le_total : forall x y, le x y = false -> le y x = true.
Hypothesis le_trans : forall x y z, le x y = true -> le y z = true -> le x z = true.

Lemma insert_sorted (x : A) (l : list A) :
  StronglySorted (fun a b => le a b = true) l ->
  StronglySorted (fun a b => le a b = true) (Py.insert le x l).
Proof.
  induction 1 as [ | y l S IH F]; simpl.
  - repeat constructor.
  - destruct (le x y) eqn:E.
    + constructor; [now constructor |].
      constructor; [assumption |].
      eapply Forall_impl; [| exact F]. intros z Hz. now apply le_trans with y.
    + constructor; [assumption |].
      apply (Permutation_Forall (insert_perm x l)).
      constructor; [now apply le_total | assumption].
Qed.

Lemma sort_values_sorted (l : list A) :
  StronglySorted (fun a b => le a b = true) (Py.sort_values le l).
Proof.
  induction l as [ | x l IH]; simpl; [constructor | now apply insert_sorted].
Qed.

End SortFacts.
End ListFacts.

Lemma StronglySorted_weaken {A : Type} (R R' : A -> A -> Prop) (l : list A) :
  (forall a b, R a b -> R' a b) -> StronglySorted R l -> StronglySorted R' l.
Proof.
  intros W. induction 1 as [ | x l S IH F]; constructor; auto.
  eapply Forall_impl; [| exact F]. auto.
Qed.

Lemma unique_In (x : string) (l : list string) : In x (Py.unique l) <-> In x l.
Proof.
  induction l as [ | y l IH]; simpl; [tauto |].
  rewrite filter_In, IH, negb_true_iff, String.eqb_neq.
  destruct (string_dec y x) as [-> | N]; [tauto |].
  split; [tauto |]. intros [H | H]; [tauto |]. right. split; congruence.
Qed.

Lemma unique_NoDup (l : list string) : NoDup (Py.unique l).
Proof.
  induction l as [ | y l IH]; simpl; constructor.
  - rewrite filter_In, String.eqb_refl. intros [_ H]. discriminate.
  - now apply NoDup_filter.
Qed.

(** ** The loop over the tickers *)

Section CollectFacts.
Context {M : Type}.
Variable wall : clock.
Variable body : string -> option (timestamp -> M).

Lemma collect_In (tks : list string) (k : nat) (m : M) :
  In m (fst (Frame.collect wall body tks k)) ->
  exists tk mk t, In tk tks /\ body tk = Some mk /\ m = mk t.
Proof.
  revert k. induction tks as [ | tk tks IH]; intros k; simpl.
  - intros [].
  - destruct (body tk) as [mk | ] eqn:E.
    + unfold bind, now, ret.
      destruct (Frame.collect wall body tks (S k)) as [ms k'] eqn:C.
      simpl. intros [<- | H].
      * exists tk, mk, (wall k). auto.
      * specialize (IH (S k)). rewrite C in IH.
        destruct (IH H) as (tk' & mk' & t & I & B & ->).
        exists tk', mk', t. auto.
    + intro H. destruct (IH k H) as (tk' & mk' & t & I & B & ->).
      exists tk', mk', t. auto.
Qed.

Lemma collect_complete (tks : list string) (k : nat) (tk : string)
    (mk : timestamp -> M) :
  In tk tks -> body tk = Some mk ->
  exists t, In (mk t) (fst (Frame.collect wall body tks k)).
Proof.
  revert k. induction tks as [ | tk' tks IH]; intros k; simpl; [intros [] |].
  intros [-> | I] B.
  - rewrite B. unfold bind, now, ret.
    destruct (Frame.collect wall body tks (S k)) as [ms k'].
    exists (wall k). now left.
  - destruct (body tk') as [mk' | ] eqn:E.
    + unfold bind, now, ret.
      destruct (IH (S k) I B) as [t H].
      destruct (Frame.collect wall body tks (S k)) as [ms k'].
      exists t. now right.
    + now apply IH.
Qed.

(** When the mover of a ticker carries that ticker, the movers' tickers are
    the tickers that were not skipped, in order. *)
Lemma collect_names (name : M -> string) (tks : list string) (k : nat) :
  (forall tk mk t, body tk = Some mk -> name (mk t) = tk) ->
  map name (fst (Frame.collect wall body tks k))
  = filter (fun tk => match body tk with Some _ => true | None => false end) tks.
Proof.
  intro N. revert k. induction tks as [ | tk tks IH]; intros k; simpl; [reflexivity |].
  destruct (body tk) as [mk | ] eqn:E.
  - unfold bind, now, ret. specialize (IH (S k)).
    destruct (Frame.collect wall body tks (S k)) as [ms k'].
    simpl in *. now rewrite (N _ _ _ E), IH.
  - apply IH.
Qed.

(** The fields of the movers that are not the creation stamp depend neither
    on the clock nor on the readings taken before. *)
Lemma collect_unstamped {B : Type} (erase : M -> B) (wall' : clock)
    (tks : list string) (k k' : nat) :
  (forall tk mk t t', body tk = Some mk -> erase (mk t) = erase (mk t')) ->
  map erase (fst (Frame.collect wall body tks k))
  = map erase (fst (Frame.collect wall' body tks k')).
Proof.
  intro N. revert k k'. induction tks as [ | tk tks IH]; intros k k'; simpl;
    [reflexivity |].
  destruct (body tk) as [mk | ] eqn:E.
  - unfold bind, now, ret. specialize (IH (S k) (S k')).
    destruct (Frame.collect wall body tks (S k)) as [ms j].
    destruct (Frame.collect wall' body tks (S k')) as [ms' j'].
    simpl in *. now rewrite (N _ _ (wall k) (wall' k') E), IH.
  - apply IH.
Qed.

End CollectFacts.

(** ** The frame of a ticker *)

Section FrameFacts.
Import StocksDaily.

Lemma ticker_data_In (df : list row) (tk : string) (r : row) :
  In r (Frame.ticker_data df tk) <-> In r df /\ ticker r = tk.
Proof.
  unfold Frame.ticker_data. rewrite sort_values_In, filter_In.
  now rewrite String.eqb_eq.
Qed.

Lemma ticker_data_sorted (df : list row) (tk : string) :
  StronglySorted (fun a b => date a <= date b) (Frame.ticker_data df tk).
Proof.
  unfold Frame.ticker_data.
  apply StronglySorted_weaken with (R := fun a b => Frame.le_date a b = true).
  { intros a b H. now apply Z.leb_le. }
  apply sort_values_sorted.
  - unfold Frame.le_date. intros x y H.
    apply Z.leb_le. apply Z.leb_gt in H. lia.
  - unfold Frame.le_date. intros x y z H1 H2.
    apply Z.leb_le. apply Z.leb_le in H1, H2. lia.
Qed.

Lemma tickers_In (df : list row) (tk : string) :
  In tk (Frame.tickers df) <-> exists r, In r df /\ ticker r = tk.
Proof.
  unfold Frame.tickers. rewrite unique_In, in_map_iff.
  split; intros (r & H1 & H2); exists r; auto.
Qed.

Lemma tickers_NoDup (df : list row) : NoDup (Frame.tickers df).
Proof. apply unique_NoDup. Qed.

(** A ticker that has a row of its own is visited by the loop. *)
Lemma ticker_data_visited (df : list row) (tk : string) (r : row) :
  In r (Frame.ticker_data df tk) -> In tk (Frame.tickers df).
Proof.
  intro H. apply ticker_data_In in H. apply tickers_In. now exists r.
Qed.

(** The rows of the window are the rows of the table whose date is in it. *)
Lemma window_In (table : list row) (lo hi : Z) (r : row) :
  In r (Frame.window table lo hi) <-> In r table /\ lo <= date r <= hi.
Proof.
  unfold Frame.window, Frame.sort_ticker_date, Store.range_query.
  rewrite sort_values_In, filter_In, andb_true_iff, !Z.leb_le. tauto.
Qed.

(** The frame of a ticker holds rows of the table, of that ticker, dated in
    the window. *)
Lemma window_ticker_data (table : list row) (lo hi : Z) (tk : string) (r : row) :
  In r (Frame.ticker_data (Frame.window table lo hi) tk) ->
  In r table /\ ticker r = tk /\ lo <= date r <= hi.
Proof.
  intro H. apply ticker_data_In in H. destruct H as [H T].
  apply window_In in H. tauto.
Qed.

End FrameFacts.

(** ** The mover computations of the batched loader *)

Section FastMovers.
Import StocksDaily.

Ltac split_body :=
  repeat match goal with
         | |- context [match ?c with _ => _ end] => destruct c eqn:?
         end.

Lemma fast_daily_eq (wall : clock) (table : list row) (target : Z) (min : float) :
  Fast.calculate_daily_movers wall table target min
  = Frame.collect wall
      (Fast.daily_mover (Frame.window table (target - 4) target) min)
      (Frame.tickers (Frame.window table (target - 4) target)).
Proof.
  unfold Fast.calculate_daily_movers, Frame.window.
  replace (target - 1 - 3) with (target - 4) by lia.
  destruct (Store.range_query table (target - 4) target); reflexivity.
Qed.

Lemma fast_weekly_eq (wall : clock) (table : list row) (target : Z) (min : float) :
  Fast.calculate_weekly_movers wall table target min
  = Frame.collect wall
      (Fast.weekly_mover (Frame.window table (target - 10) target) min)
      (Frame.tickers (Frame.window table (target - 10) target)).
Proof.
  unfold Fast.calculate_weekly_movers, Frame.window.
  destruct (Store.range_query table (target - 10) target); reflexivity.
Qed.

(** What the body of the daily loop does with the last two bars. *)
Lemma fast_daily_body (df : list row) (min : float) (tk : string)
    (pre : list row) (prev curr : row) :
  Frame.ticker_data df tk = pre ++ [prev; curr] ->
  Fast.daily_mover df min tk
  = if (close_price prev =? 0)%float || Py.isna (close_price prev)
       || Py.isna (close_price curr)
    then None
    else if Py.ge (abs (Frame.percent (close_price prev) (close_price curr))) min
    then Some (fun t =>
           {| DailyMover.ticker := tk;
              DailyMover.date := date curr;
              DailyMover.previous_close := close_price prev;
              DailyMover.current_close := close_price curr;
              DailyMover.percent_change :=
                Py.round2 (Frame.percent (close_price prev) (close_price curr));
              DailyMover.volume := volume curr;
              DailyMover.created_at := t |})
    else None.
Proof.
  intro E. unfold Fast.daily_mover. rewrite E.
  rewrite iloc_before_last, iloc_last_of_two, length_app.
  destruct (Nat.ltb_spec (length pre + length [prev; curr]) 2) as [H | _];
    [simpl in H; lia | reflexivity].
Qed.

Lemma fast_daily_name (df : list row) (min : float) (tk : string)
    (mk : timestamp -> DailyMover.row) (t : timestamp) :
  Fast.daily_mover df min tk = Some mk -> DailyMover.ticker (mk t) = tk.
Proof.
  unfold Fast.daily_mover. split_body; intro H; inversion H. reflexivity.
Qed.

Lemma fast_weekly_name (df : list row) (min : float) (tk : string)
    (mk : timestamp -> WeeklyMover.row) (t : timestamp) :
  Fast.weekly_mover df min tk = Some mk -> WeeklyMover.ticker (mk t) = tk.
Proof.
  unfold Fast.weekly_mover. split_body; intro H; inversion H. reflexivity.
Qed.

(** What the body of the weekly loop does with the first and the last bar. *)
Lemma fast_weekly_body (df : list row) (min : float) (tk : string)
    (first last : row) (mid : list row) :
  Frame.ticker_data df tk = first :: mid ++ [last] ->
  Fast.weekly_mover df min tk
  = if (length (first :: mid ++ [last]) <? 5)%nat then None
    else if (date last - date first <? 5) || (9 <? date last - date first) then None
    else if (close_price first =? 0)%float || Py.isna (close_price first)
            || Py.isna (close_price last)
    then None
    else if Py.ge (abs (Frame.percent (close_price first) (close_price last))) min
    then Some (fun t =>
           {| WeeklyMover.ticker := tk;
              WeeklyMover.week_start_date := date first;
              WeeklyMover.week_end_date := date last;
              WeeklyMover.week_start_close := close_price first;
              WeeklyMover.week_end_close := close_price last;
              WeeklyMover.percent_change :=
                Py.round2 (Frame.percent (close_price first) (close_price last));
              WeeklyMover.created_at := t |})
    else None.
Proof.
  intro E. unfold Fast.weekly_mover. rewrite E.
  rewrite iloc_first.
  change (first :: mid ++ [last]) with ((first :: mid) ++ [last]) at 2.
  rewrite iloc_last. reflexivity.
Qed.

End FastMovers.

(** ** The mover computations of the per-ticker loader *)

Section LoaderMovers.
Import StocksDaily.

Ltac split_body :=
  repeat match goal with
         | |- context [match ?c with _ => _ end] => destruct c eqn:?
         end.

Lemma loader_daily_eq (wall : clock) (today : Z) (table : list row) (min : float) :
  StockDataLoader.calculate_and_insert_daily_movers wall today table min
  = Frame.collect wall
      (StockDataLoader.daily_mover (Frame.window table (today - 2) (today - 1)) min)
      (Frame.tickers (Frame.window table (today - 2) (today - 1))).
Proof.
  unfold StockDataLoader.calculate_and_insert_daily_movers, Frame.window.
  replace (today - 1 - 1) with (today - 2) by lia.
  destruct (Store.range_query table (today - 2) (today - 1)); reflexivity.
Qed.

Lemma loader_weekly_eq (wall : clock) (today : Z) (table : list row) (min : float) :
  StockDataLoader.calculate_and_insert_weekly_movers wall today table min
  = Frame.collect wall
      (StockDataLoader.weekly_mover (Frame.window table (today - 10) today) min)
      (Frame.tickers (Frame.window table (today - 10) today)).
Proof.
  unfold StockDataLoader.calculate_and_insert_weekly_movers, Frame.window.
  destruct (Store.range_query table (today - 10) today); reflexivity.
Qed.

Lemma loader_weekly_name (df : list row) (min : float) (tk : string)
    (mk : timestamp -> WeeklyMover.row) (t : timestamp) :
  StockDataLoader.weekly_mover df min tk = Some mk -> WeeklyMover.ticker (mk t) = tk.
Proof.
  unfold StockDataLoader.weekly_mover. split_body; intro H; inversion H. reflexivity.
Qed.

(** What the body of the weekly loop does with the first and the last bar. *)
Lemma loader_weekly_body (df : list row) (min : float) (tk : string)
    (first last : row) (mid : list row) :
  Frame.ticker_data df tk = first :: mid ++ [last] ->
  StockDataLoader.weekly_mover df min tk
  = if (length (first :: mid ++ [last]) <? 5)%nat then None
    else if (date last - date first <? 5) || (9 <? date last - date first) then None
    else if Py.ge (abs (Frame.percent (close_price first) (close_price last))) min
    then Some (fun t =>
           {| WeeklyMover.ticker := tk;
              WeeklyMover.week_start_date := date first;
              WeeklyMover.week_end_date := date last;
              WeeklyMover.week_start_close := close_price first;
              WeeklyMover.week_end_close := close_price last;
              WeeklyMover.percent_change :=
                Py.np_round2 (Frame.percent (close_price first) (close_price last));
              WeeklyMover.created_at := t |})
    else None.
Proof.
  intro E. unfold StockDataLoader.weekly_mover. rewrite E.
  rewrite iloc_first.
  change (first :: mid ++ [last]) with ((first :: mid) ++ [last]) at 2.
  rewrite iloc_last. reflexivity.
Qed.

End LoaderMovers.

(** ** The first and the last bar of a sorted frame *)

Lemma sorted_last {A : Type} (R : A -> A -> Prop) (l : list A) (y : A) :
  StronglySorted R (l ++ [y]) -> Forall (fun x => R x y) l.
Proof.
  induction l as [ | x l IH]; simpl; intro S; [constructor |].
  apply StronglySorted_inv in S. destruct S as [S F].
  constructor; [| now apply IH].
  rewrite Forall_forall in F. apply F, in_or_app. right. now left.
Qed.

Lemma sorted_last_two {A : Type} (R : A -> A -> Prop) (l : list A) (x y : A) :
  StronglySorted R (l ++ [x; y]) -> R x y /\ Forall (fun r => R r x) l.
Proof.
  induction l as [ | a l IH]; simpl; intro S.
  - apply StronglySorted_inv in S. destruct S as [_ F].
    split; [now inversion F | constructor].
  - apply StronglySorted_inv in S. destruct S as [S F].
    destruct (IH S) as [H1 H2]. split; [assumption |].
    constructor; [| assumption].
    rewrite Forall_forall in F. apply F, in_or_app. right. now left.
Qed.

(** In the frame of a ticker every bar lies between the first and the last,
    by date. *)
Lemma ticker_data_ends (df : list StocksDaily.row) (tk : string)
    (first last : StocksDaily.row) (mid : list StocksDaily.row) :
  Frame.ticker_data df tk = first :: mid ++ [last] ->
  forall r, In r (Frame.ticker_data df tk) ->
            StocksDaily.date first <= StocksDaily.date r <= StocksDaily.date last.
Proof.
  intros E r I. pose proof (ticker_data_sorted df tk) as S. rewrite E in S, I.
  pose proof (sorted_last _ (first :: mid) last S) as L.
  apply StronglySorted_inv in S. destruct S as [_ F].
  rewrite Forall_forall in F, L.
  destruct I as [<- | I].
  - split; [lia |]. apply L. now left.
  - split; [now apply F |].
    apply in_app_or in I. destruct I as [I | [<- | []]]; [| lia].
    apply L. now right.
Qed.

(** ** Which tickers the weekly computations let through *)

Section WeeklyGate.
Import StocksDaily.

Lemma fast_weekly_some (df : list row) (min : float) (tk : string)
    (mk : timestamp -> WeeklyMover.row) (t : timestamp) :
  Fast.weekly_mover df min tk = Some mk -> week_of df tk (mk t).
Proof.
  intro H.
  destruct (Nat.ltb_spec (length (Frame.ticker_data df tk)) 5) as [L | L].
  { unfold Fast.weekly_mover in H.
    apply Nat.ltb_lt in L. rewrite L in H. discriminate. }
  destruct (first_last (Frame.ticker_data df tk)) as (first & mid & last & E);
    [lia |].
  rewrite (fast_weekly_body _ _ _ _ _ _ E) in H.
  rewrite <- E in H. apply Nat.ltb_ge in L. rewrite L in H.
  destruct (Z.ltb_spec (date last - date first) 5) as [? | G1];
    [discriminate |].
  destruct (Z.ltb_spec 9 (date last - date first)) as [? | G2];
    [discriminate |].
  simpl in H.
  destruct ((close_price first =? 0)%float || Py.isna (close_price first)
            || Py.isna (close_price last)); [discriminate |].
  destruct (Py.ge _ min); [| discriminate].
  inversion H; subst mk; clear H. apply Nat.ltb_ge in L.
  exists first, mid, last. simpl.
  repeat split; auto; try lia; now apply (ticker_data_ends df tk first last mid E).
Qed.

Lemma loader_weekly_some (df : list row) (min : float) (tk : string)
    (mk : timestamp -> WeeklyMover.row) (t : timestamp) :
  StockDataLoader.weekly_mover df min tk = Some mk -> week_of df tk (mk t).
Proof.
  intro H.
  destruct (Nat.ltb_spec (length (Frame.ticker_data df tk)) 5) as [L | L].
  { unfold StockDataLoader.weekly_mover in H.
    apply Nat.ltb_lt in L. rewrite L in H. discriminate. }
  destruct (first_last (Frame.ticker_data df tk)) as (first & mid & last & E);
    [lia |].
  rewrite (loader_weekly_body _ _ _ _ _ _ E) in H.
  rewrite <- E in H. apply Nat.ltb_ge in L. rewrite L in H.
  destruct (Z.ltb_spec (date last - date first) 5) as [? | G1];
    [discriminate |].
  destruct (Z.ltb_spec 9 (date last - date first)) as [? | G2];
    [discriminate |].
  simpl in H.
  destruct (Py.ge _ min); [| discriminate].
  inversion H; subst mk; clear H. apply Nat.ltb_ge in L.
  exists first, mid, last. simpl.
  repeat split; auto; try lia; now apply (ticker_data_ends df tk first last mid E).
Qed.

Lemma collect_named {M : Type} (wall : clock)
    (body : string -> option (timestamp -> M)) (name : M -> string)
    (tks : list string) (k : nat) (tk : string) :
  (forall tk mk t, body tk = Some mk -> name (mk t) = tk) ->
  (exists m, In m (fst (Frame.collect wall body tks k)) /\ name m = tk)
  <-> In tk tks /\ exists mk, body tk = Some mk.
Proof.
  intro N. split.
  - intros (m & I & E). apply collect_In in I.
    destruct I as (tk' & mk & t & I & B & ->).
    rewrite (N _ _ _ B) in E. subst tk'. eauto.
  - intros (I & mk & B).
    destruct (collect_complete wall body tks k tk mk I B) as (t & H).
    exists (mk t). split; [exact H | exact (N _ _ _ B)].
Qed.

(** When the body of the batched loader's weekly loop gives a mover. *)
Lemma fast_weekly_rule (df : list row) (min : float) (tk : string) :
  (exists mk, Fast.weekly_mover df min tk = Some mk)
  <-> exists first last,
        weekly_gate df tk first last
        /\ (close_price first =? 0)%float = false
        /\ Py.isna (close_price first) = false
        /\ Py.isna (close_price last) = false
        /\ Py.ge (abs (Frame.percent (close_price first) (close_price last))) min
           = true.
Proof.
  split.
  - intros (mk & H).
    destruct (Nat.ltb_spec (length (Frame.ticker_data df tk)) 5) as [L | L].
    { unfold Fast.weekly_mover in H.
      apply Nat.ltb_lt in L. rewrite L in H. discriminate. }
    destruct (first_last (Frame.ticker_data df tk)) as (first & mid & last & E);
      [lia |].
    rewrite (fast_weekly_body _ _ _ _ _ _ E) in H.
    rewrite <- E in H. apply Nat.ltb_ge in L. rewrite L in H.
    destruct (Z.ltb_spec (date last - date first) 5) as [? | G1];
      [discriminate |].
    destruct (Z.ltb_spec 9 (date last - date first)) as [? | G2];
      [discriminate |].
    cbn [orb] in H.
    destruct (close_price first =? 0)%float eqn:Z0; [discriminate |].
    destruct (Py.isna (close_price first)) eqn:N1; [discriminate |].
    destruct (Py.isna (close_price last)) eqn:N2; [discriminate |].
    cbn [orb] in H.
    destruct (Py.ge _ min) eqn:G; [| discriminate].
    apply Nat.ltb_ge in L.
    exists first, last. unfold weekly_gate. repeat split; eauto; lia.
  - intros (first & last & ((mid & E) & L & G1 & G2) & Z0 & N1 & N2 & G).
    rewrite (fast_weekly_body _ _ _ _ _ _ E).
    rewrite <- E. apply Nat.ltb_ge in L. rewrite L.
    destruct (Z.ltb_spec (date last - date first) 5) as [? | _]; [lia |].
    destruct (Z.ltb_spec 9 (date last - date first)) as [? | _]; [lia |].
    rewrite Z0, N1, N2, G. cbn [orb]. eauto.
Qed.

(** When the body of the per-ticker loader's weekly loop gives a mover. *)
Lemma loader_weekly_rule (df : list row) (min : float) (tk : string) :
  (exists mk, StockDataLoader.weekly_mover df min tk = Some mk)
  <-> exists first last,
        weekly_gate df tk first last
        /\ Py.ge (abs (Frame.percent (close_price first) (close_price last))) min
           = true.
Proof.
  split.
  - intros (mk & H).
    destruct (Nat.ltb_spec (length (Frame.ticker_data df tk)) 5) as [L | L].
    { unfold StockDataLoader.weekly_mover in H.
      apply Nat.ltb_lt in L. rewrite L in H. discriminate. }
    destruct (first_last (Frame.ticker_data df tk)) as (first & mid & last & E);
      [lia |].
    rewrite (loader_weekly_body _ _ _ _ _ _ E) in H.
    rewrite <- E in H. apply Nat.ltb_ge in L. rewrite L in H.
    destruct (Z.ltb_spec (date last - date first) 5) as [? | G1];
      [discriminate |].
    destruct (Z.ltb_spec 9 (date last - date first)) as [? | G2];
      [discriminate |].
    cbn [orb] in H.
    destruct (Py.ge _ min) eqn:G; [| discriminate].
    apply Nat.ltb_ge in L.
    exists first, last. unfold weekly_gate. repeat split; eauto; lia.
  - intros (first & last & ((mid & E) & L & G1 & G2) & G).
    rewrite (loader_weekly_body _ _ _ _ _ _ E).
    rewrite <- E. apply Nat.ltb_ge in L. rewrite L.
    destruct (Z.ltb_spec (date last - date first) 5) as [? | _]; [lia |].
    destruct (Z.ltb_spec 9 (date last - date first)) as [? | _]; [lia |].
    rewrite G. cbn [orb]. eauto.
Qed.

Lemma weekly_gate_visited (df : list row) (tk : string) (first last : row) :
  weekly_gate df tk first last -> In tk (Frame.tickers df).
Proof.
  intros ((mid & E) & _). apply ticker_data_visited with first.
  rewrite E. now left.
Qed.

(** C2. In both weekly computations a mover is produced only for a ticker
    that has at least 5 bars in the window [target - 10, target] and whose
    first and last bar by date are between 5 and 9 days apart, and for
    every such ticker whose percent change reaches the threshold (in the
    batched loader: and whose closes are numbers, the first not zero): a
    week that spans exactly 5 or exactly 9 days passes, one that spans 4 or
    10 days does not. *)
Theorem weekly_eligibility :
  (forall wall table target min k m,
      In m (fst (Fast.calculate_weekly_movers wall table target min k)) ->
      week_of (Frame.window table (target - 10) target) (WeeklyMover.ticker m) m
      /\ forall r,
          In r (Frame.ticker_data (Frame.window table (target - 10) target)
                  (WeeklyMover.ticker m)) ->
          In r table /\ ticker r = WeeklyMover.ticker m
          /\ target - 10 <= date r <= target)
  /\ (forall wall today table min k m,
      In m (fst (StockDataLoader.calculate_and_insert_weekly_movers
                   wall today table min k)) ->
      week_of (Frame.window table (today - 10) today) (WeeklyMover.ticker m) m
      /\ forall r,
          In r (Frame.ticker_data (Frame.window table (today - 10) today)
                  (WeeklyMover.ticker m)) ->
          In r table /\ ticker r = WeeklyMover.ticker m
          /\ today - 10 <= date r <= today)
  /\ (forall wall table target min k tk,
      (exists m,
          In m (fst (Fast.calculate_weekly_movers wall table target min k))
          /\ WeeklyMover.ticker m = tk)
      <-> exists first last,
            weekly_gate (Frame.window table (target - 10) target) tk first last
            /\ (close_price first =? 0)%float = false
            /\ Py.isna (close_price first) = false
            /\ Py.isna (close_price last) = false
            /\ Py.ge (abs (Frame.percent (close_price first) (close_price last)))
                 min = true)
  /\ (forall wall today table min k tk,
      (exists m,
          In m (fst (StockDataLoader.calculate_and_insert_weekly_movers
                       wall today table min k))
          /\ WeeklyMover.ticker m = tk)
      <-> exists first last,
            weekly_gate (Frame.window table (today - 10) today) tk first last
            /\ Py.ge (abs (Frame.percent (close_price first) (close_price last)))
                 min = true)
  /\ (let fast span :=
        map WeeklyMover.key
          (fst (Fast.calculate_weekly_movers Examples.ticking
                  (Examples.week 100 span) 20 15 0%nat)) in
      fast 5 = [("W"%string, 15)] /\ fast 9 = [("W"%string, 19)]
      /\ fast 4 = [] /\ fast 10 = [])
  /\ (let loader span :=
        map WeeklyMover.key
          (fst (StockDataLoader.calculate_and_insert_weekly_movers Examples.ticking
                  20 (Examples.week 100 span) 15 0%nat)) in
      loader 5 = [("W"%string, 15)] /\ loader 9 = [("W"%string, 19)]
      /\ loader 4 = [] /\ loader 10 = []).
Proof.
  split; [| split; [| split; [| split; [| split]]]].
  - intros wall table target min k m H. rewrite fast_weekly_eq in H.
    apply collect_In in H. destruct H as (tk & mk & t & _ & B & ->).
    rewrite (fast_weekly_name _ _ _ _ t B).
    split; [now apply fast_weekly_some with min | apply window_ticker_data].
  - intros wall today table min k m H. rewrite loader_weekly_eq in H.
    apply collect_In in H. destruct H as (tk & mk & t & _ & B & ->).
    rewrite (loader_weekly_name _ _ _ _ t B).
    split; [now apply loader_weekly_some with min | apply window_ticker_data].
  - intros wall table target min k tk. rewrite fast_weekly_eq.
    rewrite collect_named by (intros ? ? ? H; exact (fast_weekly_name _ _ _ _ _ H)).
    rewrite fast_weekly_rule. split; [tauto |].
    intros (first & last & W & R). split; [| eauto].
    now apply weekly_gate_visited with first last.
  - intros wall today table min k tk. rewrite loader_weekly_eq.
    rewrite collect_named by (intros ? ? ? H; exact (loader_weekly_name _ _ _ _ _ H)).
    rewrite loader_weekly_rule. split; [tauto |].
    intros (first & last & W & R). split; [| eauto].
    now apply weekly_gate_visited with first last.
  - repeat split; vm_compute; reflexivity.
  - repeat split; vm_compute; reflexivity.
Qed.

End WeeklyGate.

(** ** The daily rule and the zero guard of the batched loader *)

Section DailyRule.
Import StocksDaily.

(** In the batched loader, a ticker whose last two bars in the window
    [target - 4, target] are [prev] and [curr] gets a daily mover exactly
    when the previous close is not zero and the absolute percent change
    reaches the threshold; the mover holds the percent change rounded to two
    decimals and is keyed on the ticker and the date of [curr]. *)
Theorem fast_daily_rule (wall : clock) (table : list row) (target : Z)
    (min : float) (k : nat) (tk : string) (pre : list row) (prev curr : row) :
  Frame.ticker_data (Frame.window table (target - 4) target) tk
  = pre ++ [prev; curr] ->
  daily_rule (fst (Fast.calculate_daily_movers wall table target min k))
    tk prev curr min
  /\ date prev <= date curr
  /\ forall r, In r pre -> date r <= date prev.
Proof.
  intro E.
  assert (O : date prev <= date curr /\ forall r, In r pre -> date r <= date prev).
  { pose proof (ticker_data_sorted (Frame.window table (target - 4) target) tk) as S.
    rewrite E in S. apply sorted_last_two in S. destruct S as [S1 S2].
    rewrite Forall_forall in S2. auto. }
  split; [| exact O]. clear O.
  rewrite fast_daily_eq.
  set (df := Frame.window table (target - 4) target) in *.
  pose proof (fast_daily_body df min tk pre prev curr E) as B.
  split.
  - split.
    + intros (m & I & T). apply collect_In in I.
      destruct I as (tk' & mk & t & _ & B' & ->).
      rewrite (fast_daily_name _ _ _ _ t B') in T. subst tk'.
      rewrite B in B'.
      destruct (close_price prev =? 0)%float; [discriminate |].
      destruct (Py.ge _ min); [auto |].
      destruct (_ || _); discriminate.
    + intros [Z G].
      destruct (Py.isna (close_price prev)) eqn:N1.
      { rewrite ge_percent_nan in G by auto. discriminate. }
      destruct (Py.isna (close_price curr)) eqn:N2.
      { rewrite ge_percent_nan in G by auto. discriminate. }
      rewrite Z, G in B. simpl in B.
      assert (V : In tk (Frame.tickers df)).
      { apply ticker_data_visited with curr. rewrite E.
        apply in_or_app. right. simpl. auto. }
      destruct (collect_complete wall _ _ k tk _ V B) as [t I].
      eexists. split; [exact I | reflexivity].
  - intros m I T. apply collect_In in I.
    destruct I as (tk' & mk & t & _ & B' & ->).
    rewrite (fast_daily_name _ _ _ _ t B') in T. subst tk'.
    rewrite B in B'.
    destruct (_ || _); [discriminate |].
    destruct (Py.ge _ min); [| discriminate].
    inversion B'; subst mk. simpl. auto.
Qed.

Lemma fast_daily_rule_witness :
  daily_rule
    (fst (Fast.calculate_daily_movers Examples.ticking Examples.two_tickers 2 15 0%nat))
    "A" (Examples.bar "A" 1 100) (Examples.bar "A" 2 120) 15
  /\ StocksDaily.date (Examples.bar "A" 1 100) <= StocksDaily.date (Examples.bar "A" 2 120)
  /\ forall r, In r [] -> StocksDaily.date r <= StocksDaily.date (Examples.bar "A" 1 100).
Proof.
  apply (fast_daily_rule Examples.ticking Examples.two_tickers 2 15 0%nat "A" []).
  reflexivity.
Defined.

(** The scenario of the specification: of A (100 to 120) and B (100 to 105)
    only A is a daily mover at the threshold 15, with a percent change of
    20.00. *)
Theorem fast_daily_scenario :
  map (fun m => (DailyMover.key m, DailyMover.percent_change m))
    (fst (Fast.calculate_daily_movers Examples.ticking Examples.two_tickers 2
            Fast.default_min_percent 0%nat))
  = [(("A"%string, 2), 20%float)].
Proof. vm_compute. reflexivity. Qed.

(** In the batched loader a ticker whose previous close (daily) or
    week-start close (weekly) is zero or missing, or whose latest close is
    missing, is skipped by the loop, whatever the other close is. *)
Theorem fast_zero_guard (df : list row) (min : float) (tk : string) :
  (forall pre prev curr,
      Frame.ticker_data df tk = pre ++ [prev; curr] ->
      (close_price prev =? 0)%float = true \/ Py.isna (close_price prev) = true
      \/ Py.isna (close_price curr) = true ->
      Fast.daily_mover df min tk = None)
  /\ (forall first mid last,
      Frame.ticker_data df tk = first :: mid ++ [last] ->
      (close_price first =? 0)%float = true \/ Py.isna (close_price first) = true
      \/ Py.isna (close_price last) = true ->
      Fast.weekly_mover df min tk = None).
Proof.
  split.
  - intros pre prev curr E G. rewrite (fast_daily_body _ _ _ _ _ _ E).
    destruct G as [-> | [-> | ->]]; rewrite ?orb_true_r; reflexivity.
  - intros first mid last E G. rewrite (fast_weekly_body _ _ _ _ _ _ E).
    destruct (_ <? 5)%nat; [reflexivity |].
    destruct (_ || _); [reflexivity |].
    destruct G as [-> | [-> | ->]]; rewrite ?orb_true_r; reflexivity.
Qed.

(** C9. The batched loader visits each ticker of the window once, and its
    daily and its weekly computation each produce at most one mover per
    ticker: no ticker occurs twice among the movers of a run. *)
Theorem fast_movers_one_per_ticker (wall : clock) (table : list row)
    (target : Z) (min : float) (k : nat) :
  NoDup (Frame.tickers (Frame.window table (target - 4) target))
  /\ NoDup (map DailyMover.ticker
              (fst (Fast.calculate_daily_movers wall table target min k)))
  /\ NoDup (Frame.tickers (Frame.window table (target - 10) target))
  /\ NoDup (map WeeklyMover.ticker
              (fst (Fast.calculate_weekly_movers wall table target min k))).
Proof.
  repeat split; try apply tickers_NoDup.
  - rewrite fast_daily_eq, (collect_names wall _ DailyMover.ticker).
    + apply NoDup_filter, tickers_NoDup.
    + intros tk mk t. apply fast_daily_name.
  - rewrite fast_weekly_eq, (collect_names wall _ WeeklyMover.ticker).
    + apply NoDup_filter, tickers_NoDup.
    + intros tk mk t. apply fast_weekly_name.
Qed.

(** C1. The per-ticker loader breaks the daily rule on a zero previous
    close: for a ticker that closed at 0 and then at 10 it divides by zero,
    gets an infinite percent change and produces a daily mover, where the
    batched loader, on the same bars, produces none. *)
Theorem loader_daily_mover_on_zero_previous_close :
  fst (StockDataLoader.calculate_and_insert_daily_movers Examples.ticking 3
         Examples.zero_close StockDataLoader.default_min_percent 0%nat)
  = [ {| DailyMover.ticker := "Z";
         DailyMover.date := 2;
         DailyMover.previous_close := 0;
         DailyMover.current_close := 10;
         DailyMover.percent_change := infinity;
         DailyMover.volume := 1000;
         DailyMover.created_at := 0 |} ]
  /\ fst (Fast.calculate_daily_movers Examples.ticking Examples.zero_close 2
            Fast.default_min_percent 0%nat) = [].
Proof. split; vm_compute; reflexivity. Qed.

(** C3. The per-ticker loader has no guard on the denominator: with a
    previous close or a week-start close of 0 it evaluates the division,
    which gives an infinity, and produces a daily and a weekly mover; the
    batched loader produces none on the same bars. *)
Theorem loader_movers_divide_by_zero :
  Frame.percent 0 10 = infinity
  /\ map DailyMover.percent_change
       (fst (StockDataLoader.calculate_and_insert_daily_movers Examples.ticking 3
               Examples.zero_close 15 0%nat)) = [infinity]
  /\ map WeeklyMover.percent_change
       (fst (StockDataLoader.calculate_and_insert_weekly_movers Examples.ticking 20
               (Examples.week 0 7) 15 0%nat)) = [infinity]
  /\ fst (Fast.calculate_daily_movers Examples.ticking Examples.zero_close 2 15 0%nat) = []
  /\ fst (Fast.calculate_weekly_movers Examples.ticking (Examples.week 0 7) 20 15 0%nat) = [].
Proof. repeat split; vm_compute; reflexivity. Qed.

End DailyRule.

(** ** The per-ticker fetch: retries and the date of the bar returned *)

Section FetchFacts.
Variable e : StockDataLoader.env.

Lemma upsert_In {R : Type} (key : R -> string * Z) (table : list R) (r : R) :
  In r (Store.upsert key table r).
Proof.
  induction table as [ | x table IH]; simpl; [now left |].
  destruct (Store.key_eqb (key x) (key r)); [now left | now right].
Qed.

Lemma attempts_all_raise (ticker : string) (date : Z) (max_retries : nat) :
  (forall n s t, (n < max_retries)%nat ->
                 StockDataLoader.history e n ticker s t = YF.Raises) ->
  forall remaining attempt k,
    (attempt + remaining = max_retries)%nat ->
    StockDataLoader.attempts e ticker date max_retries remaining attempt k
    = ((None, backoff attempt (remaining - 1)), k).
Proof.
  intros H. induction remaining as [ | r IH]; intros attempt k E; simpl;
    [reflexivity |].
  rewrite H by lia. unfold StockDataLoader.on_exception.
  destruct (Z.ltb_spec (Z.of_nat attempt) (Z.of_nat max_retries - 1)) as [L | L].
  - unfold bind, ret. rewrite IH by lia. simpl.
    destruct r as [ | r]; [lia |]. simpl. rewrite Nat.sub_0_r. reflexivity.
  - destruct r as [ | r]; [reflexivity | lia].
Qed.

(** Where a bar that [fetch_stock_data] returns comes from. *)
Lemma attempts_some (ticker : string) (date : Z) (max_retries : nat) :
  forall remaining attempt k r sleeps k',
    StockDataLoader.attempts e ticker date max_retries remaining attempt k
    = ((Some r, sleeps), k') ->
    exists n hist about latest,
      StockDataLoader.history e n ticker (date - 5) (date + 1) = YF.History hist about
      /\ Py.iloc hist (-1) = Some latest
      /\ StocksDaily.date r = YF.index latest
      /\ StocksDaily.close_price r = YF.Close latest
      /\ StocksDaily.ticker r = Py.upper ticker.
Proof.
  induction remaining as [ | rem IH]; intros attempt k r sleeps k' H; simpl in H;
    [discriminate |].
  assert (X : forall go,
             go = StockDataLoader.attempts e ticker date max_retries rem (S attempt) ->
             StockDataLoader.on_exception attempt max_retries go k
             = ((Some r, sleeps), k') ->
             exists sl k0 k1, go k0 = ((Some r, sl), k1)).
  { intros go -> Hx. unfold StockDataLoader.on_exception in Hx.
    destruct (_ <? _); [| discriminate].
    unfold bind, ret in Hx.
    destruct (StockDataLoader.attempts e ticker date max_retries rem (S attempt) k)
      as [[o sl] k1] eqn:G.
    simpl in Hx. inversion Hx; subst. eauto. }
  destruct (StockDataLoader.history e attempt ticker (date - 5) (date + 1))
    as [ | hist about] eqn:Hh.
  - destruct (X _ eq_refl H) as (sl & k0 & k1 & G). eauto.
  - destruct hist as [ | b hist]; [discriminate |].
    destruct (Py.iloc (b :: hist) (-1)) as [latest | ] eqn:L.
    + destruct about as [info | ].
      * destruct (Py.int_of_float (YF.Volume latest)) as [vol | ].
        -- unfold bind, now, ret in H. inversion H; subst.
           exists attempt, (b :: hist), (Some info), latest. simpl. auto.
        -- destruct (X _ eq_refl H) as (sl & k0 & k1 & G). eauto.
      * destruct (X _ eq_refl H) as (sl & k0 & k1 & G). eauto.
    + destruct (X _ eq_refl H) as (sl & k0 & k1 & G). eauto.
Qed.


Lemma iloc_last_inv {A : Type} (l : list A) (x : A) :
  Py.iloc l (-1) = Some x -> exists pre, l = pre ++ [x].
Proof.
  destruct l as [ | a l]; [discriminate |].
  destruct (exists_last (l := a :: l)) as [pre [y E]]; [discriminate |].
  rewrite E, iloc_last. intro H. inversion H; subst. now exists pre.
Qed.

(** C8, as the code has it. When every attempt raises, [fetch_stock_data]
    makes [max_retries] attempts, sleeps [2 ** attempt] seconds after each
    failed attempt but the last, and returns [None] without raising: with
    the three attempts of the default that is a sleep of 1s and one of 2s. *)
Theorem fetch_stock_data_gives_up (ticker : string) (date : option Z)
    (max_retries : nat) (k : nat) :
  (forall n s t, (n < max_retries)%nat ->
                 StockDataLoader.history e n ticker s t = YF.Raises) ->
  StockDataLoader.fetch_stock_data e ticker date max_retries k
  = ((None, backoff 0 (max_retries - 1)), k)
  /\ backoff 0 (3 - 1) = [1; 2].
Proof.
  intro H. split; [| reflexivity].
  unfold StockDataLoader.fetch_stock_data.
  now apply attempts_all_raise.
Qed.

Lemma attempts_backoff (ticker : string) (date : Z) (max_retries : nat) :
  forall remaining attempt k,
    (attempt + remaining = max_retries)%nat ->
    exists n, (n <= remaining - 1)%nat
              /\ snd (fst (StockDataLoader.attempts e ticker date max_retries
                             remaining attempt k))
                 = backoff attempt n.
Proof.
  induction remaining as [ | rem IH]; intros attempt k E; simpl.
  - exists O. split; [lia | reflexivity].
  - assert (X : exists n, (n <= S rem - 1)%nat
                  /\ snd (fst (StockDataLoader.on_exception attempt max_retries
                                 (StockDataLoader.attempts e ticker date max_retries
                                    rem (S attempt)) k))
                     = backoff attempt n).
    { unfold StockDataLoader.on_exception.
      destruct (Z.ltb_spec (Z.of_nat attempt) (Z.of_nat max_retries - 1)) as [L | L].
      - unfold bind, ret.
        destruct (IH (S attempt) k) as (n & Hn & Hs); [lia |].
        destruct (StockDataLoader.attempts e ticker date max_retries rem (S attempt) k)
          as [[o sl] k1].
        simpl in *. exists (S n). split; [lia |]. now rewrite Hs.
      - exists O. split; [lia | reflexivity]. }
    destruct (StockDataLoader.history e attempt ticker (date - 5) (date + 1))
      as [ | hist about]; [exact X |].
    destruct hist as [ | b hist];
      [unfold ret; simpl; exists O; split; [lia | reflexivity] |].
    destruct (Py.iloc (b :: hist) (-1)) as [latest | ]; [| exact X].
    destruct about as [info | ]; [| exact X].
    destruct (Py.int_of_float (YF.Volume latest)) as [vol | ]; [| exact X].
    unfold bind, now, ret. simpl. exists O. split; [lia | reflexivity].
Qed.

(** Whatever yfinance replies, [fetch_stock_data] with the three attempts
    of the default returns, and has slept nothing, 1s, or 1s and then 2s. *)
Theorem fetch_stock_data_sleeps (ticker : string) (date : option Z) (k : nat) :
  let sleeps := snd (fst (StockDataLoader.fetch_stock_data e ticker date 3 k)) in
  sleeps = [] \/ sleeps = [1] \/ sleeps = [1; 2].
Proof.
  intro sleeps. subst sleeps. unfold StockDataLoader.fetch_stock_data.
  destruct (attempts_backoff ticker
              (match date with Some d => d | None => StockDataLoader.today e - 1 end)
              3 3 0 k eq_refl) as (n & Hn & Hs).
  rewrite Hs.
  destruct n as [ | [ | [ | n]]]; [auto | auto | auto | simpl in Hn; lia].
Qed.

End FetchFacts.

Lemma fetch_stock_data_gives_up_witness :
  StockDataLoader.fetch_stock_data Examples.unreachable "AAPL" None 3 0%nat
  = ((None, backoff 0 (3 - 1)), 0%nat)
  /\ backoff 0 (3 - 1) = [1; 2].
Proof.
  apply (fetch_stock_data_gives_up Examples.unreachable "AAPL" None 3 0%nat).
  reflexivity.
Defined.

(** C8, as the claim states it, fails: three failed attempts are separated
    by a sleep of 1s and one of 2s only; no sleep of 4s takes place. *)
Lemma fetch_stock_data_no_third_delay :
  StockDataLoader.fetch_stock_data Examples.unreachable "AAPL" None 3 0%nat
  = ((None, [1; 2]), 0%nat)
  /\ ~ In 4 (snd (fst (StockDataLoader.fetch_stock_data Examples.unreachable
                         "AAPL" None 3 0%nat))).
Proof.
  split; [reflexivity |].
  simpl. intros [H | [H | []]]; discriminate.
Qed.

Lemma stale_history_in_range : history_in_range Examples.stale.
Proof.
  intros n tk s t hist about H. simpl in H. inversion H; subst; clear H.
  destruct (Z.leb_spec s 15), (Z.ltb_spec 15 t); simpl;
    repeat constructor; simpl; lia.
Qed.

(** ** The drivers: when the mover computations run and how the process ends *)

Section Drivers.


End Drivers.

(** ** The batched fetch *)

Section Fetcher.
Variable download : list string -> Z -> Z -> Raw.response.

(** C6. [fetch_batch_data] always returns a table.  When the download
    raises, or a single-ticker reply has no data, the table is empty, and
    the loop of [main] goes on with the next batch.  From a multi-ticker
    reply the table holds exactly the bars of the tickers whose frame has
    data: a ticker whose frame cannot be read, has no row or has no close at
    all contributes no row, and nothing is raised for it. *)
Theorem fetch_batch_data_excludes_quietly (tickers : list string) (target : Z) :
  (download tickers target (target + 1) = Raw.Raises ->
   Fast.fetch_batch_data download tickers target = [])
  /\ (forall data,
         download tickers target (target + 1) = Raw.Flat data ->
         no_data data = true ->
         Fast.fetch_batch_data download tickers target = [])
  /\ (forall columns,
         tickers <> [] ->
         download tickers target (target + 1) = Raw.MultiIndex columns ->
         forall r,
           In r (Fast.fetch_batch_data download tickers target)
           <-> exists tk b rows,
               r = {| Raw.bar_of := b; Raw.ticker := Some tk |}
               /\ In tk (map fst columns)
               /\ Raw.select columns tk = Raw.Bars rows
               /\ no_data (Raw.Bars rows) = false
               /\ In b rows)
  /\ (forall (e : Fast.env) tmap batch rest table total,
         Fast.fetch_batch_data (Fast.download e) batch (Fast.last_market_day e) = [] ->
         Fast.batches e tmap (batch :: rest) table total
         = Fast.batches e tmap rest table total)
  /\ map Raw.ticker
       (Fast.fetch_batch_data Examples.partial_batch ["AAA"; "BBB"; "CCC"; "DDD"]%string 20)
     = [Some "AAA"%string].
Proof.
  split; [| split; [| split; [| split]]].
  - intro H. unfold Fast.fetch_batch_data, Fast.fetch_body. rewrite H.
    now destruct tickers.
  - intros data H N. unfold Fast.fetch_batch_data, Fast.fetch_body. rewrite H.
    destruct tickers; [reflexivity |].
    destruct data as [ | rows]; [reflexivity |].
    simpl in N. apply orb_true_iff in N.
    destruct N as [N | N]; rewrite N; simpl; rewrite ?andb_false_r; reflexivity.
  - intros columns NE H r.
    unfold Fast.fetch_batch_data, Fast.fetch_body. rewrite H.
    destruct tickers as [ | t0 ts]; [congruence |].
    rewrite in_flat_map. split.
    + intros (tk & Itk & Ir).
      apply (proj1 (sort_values_In _ _ _)) in Itk.
      apply (proj1 (unique_In _ _)) in Itk.
      destruct (Raw.select columns tk) as [ | rows] eqn:S; [destruct Ir |].
      destruct (_ || _) eqn:N; [destruct Ir |].
      apply in_map_iff in Ir. destruct Ir as (b & <- & Ib).
      exists tk, b, rows. auto.
    + intros (tk & b & rows & -> & Itk & S & N & Ib).
      exists tk. split; [now apply sort_values_In, unique_In |].
      rewrite S. simpl in N. rewrite N.
      apply in_map_iff. now exists b.
  - intros e tmap batch rest table total H. simpl. now rewrite H.
  - reflexivity.
Qed.

End Fetcher.

(** ** The normaliser *)

Section NormalizerFacts.
Variable parse : string -> option float.
Variable wall : clock.
Variable ticker_map : string -> option string.

Lemma to_numeric_reading (c : Raw.cell) :
  Fast.to_numeric parse c
  = match reading parse c with Some x => x | None => nan end.
Proof. destruct c; simpl; try reflexivity. Qed.

Lemma valid_number_none (c : Raw.cell) :
  valid_number parse c = None <-> Py.isna (Fast.to_numeric parse c) = true.
Proof.
  rewrite to_numeric_reading. unfold valid_number.
  destruct (reading parse c) as [x | ].
  - destruct (Py.isna x); split; congruence.
  - split; reflexivity.
Qed.

Lemma valid_number_some (c : Raw.cell) (x : float) :
  valid_number parse c = Some x
  <-> Fast.to_numeric parse c = x /\ Py.isna x = false.
Proof.
  rewrite to_numeric_reading. unfold valid_number.
  destruct (reading parse c) as [y | ].
  - destruct (Py.isna y) eqn:N; split.
    + discriminate.
    + intros [<- N']. congruence.
    + intro H. inversion H; subst. auto.
    + intros [<- _]. reflexivity.
  - split; [discriminate |]. intros [<- N]. discriminate.
Qed.

Lemma nullable_valid_number (c : Raw.cell) :
  Fast.nullable (Fast.to_numeric parse c) = valid_number parse c.
Proof.
  unfold Fast.nullable, Py.notna.
  destruct (valid_number parse c) as [x | ] eqn:V.
  - apply valid_number_some in V. destruct V as [-> N]. now rewrite N.
  - apply valid_number_none in V. now rewrite V.
Qed.

Lemma astype_int64_range (x : float) (v : Z) :
  Fast.astype_int64 x = Some v -> - 2 ^ 63 <= v < 2 ^ 63.
Proof.
  unfold Fast.astype_int64. destruct (Py.int_of_float x) as [z | ]; [| discriminate].
  destruct (Z.leb_spec (- 2 ^ 63) z) as [Lo | Lo],
    (Z.ltb_spec z (2 ^ 63)) as [Hi | Hi]; simpl;
    intro E; inversion E; subst; lia.
Qed.

Lemma astype_int64_exact (x : float) (v n : Z) :
  Fast.astype_int64 x = Some v -> Py.int_of_float x = Some n ->
  - 2 ^ 63 <= n < 2 ^ 63 -> v = n.
Proof.
  unfold Fast.astype_int64. intros H I R. rewrite I in H.
  destruct (Z.leb_spec (- 2 ^ 63) n) as [Lo | Lo],
    (Z.ltb_spec n (2 ^ 63)) as [Hi | Hi]; simpl in H;
    try lia. now inversion H.
Qed.

(** The volume of a float64 column. *)
Lemma volume_int64_spec (c : Raw.cell) (v : Z) :
  Fast.volume_int64 parse c = Some v ->
  - 2 ^ 63 <= v < 2 ^ 63
  /\ (valid_number parse c = None -> v = 0)
  /\ (forall x n, valid_number parse c = Some x -> Py.int_of_float x = Some n ->
                  - 2 ^ 63 <= n < 2 ^ 63 -> v = n).
Proof.
  unfold Fast.volume_int64. intro H. split; [| split].
  - now apply astype_int64_range in H.
  - intro N. apply valid_number_none in N. rewrite N in H.
    vm_compute in H. now inversion H.
  - intros x n V I R. apply valid_number_some in V. destruct V as [E N].
    rewrite E, N in H. now apply astype_int64_exact with x.
Qed.

Lemma volume_int64_none (c : Raw.cell) :
  Fast.volume_int64 parse c = None ->
  exists x, valid_number parse c = Some x /\ Py.int_of_float x = None.
Proof.
  unfold Fast.volume_int64. intro H.
  destruct (Py.isna (Fast.to_numeric parse c)) eqn:N;
    [vm_compute in H; discriminate |].
  exists (Fast.to_numeric parse c). split.
  - apply valid_number_some. auto.
  - unfold Fast.astype_int64 in H.
    now destruct (Py.int_of_float (Fast.to_numeric parse c)).
Qed.

Lemma integers_rows (df : list Raw.row) :
  forall zs,
    Fast.integers (map (fun r => Raw.volume (Raw.bar_of r)) df) = Some zs ->
    Forall2 (fun r z => Raw.volume (Raw.bar_of r) = Raw.Int z) df zs.
Proof.
  induction df as [ | r df IH]; intros zs H; simpl in H.
  - inversion H. constructor.
  - destruct (Raw.volume (Raw.bar_of r)) as [ | z | | ] eqn:E; try discriminate.
    destruct (Fast.integers _) as [zs' | ]; [| discriminate].
    inversion H; subst. constructor; auto.
Qed.

Lemma integers_mixed (df : list Raw.row) :
  mixed_volumes df ->
  Fast.integers (map (fun r => Raw.volume (Raw.bar_of r)) df) = None.
Proof.
  intros (r & I & N).
  destruct (Fast.integers _) as [zs | ] eqn:E; [| reflexivity].
  apply integers_rows in E. exfalso.
  revert zs E. induction df as [ | r' df IH]; intros zs E; [destruct I |].
  inversion E; subst. destruct I as [-> | I].
  - eapply N; eassumption.
  - eapply IH; eassumption.
Qed.

Lemma integers_int64 (df : list Raw.row) :
  int64_volumes df ->
  exists zs,
    Fast.integers (map (fun r => Raw.volume (Raw.bar_of r)) df) = Some zs
    /\ forallb Fast.fits_int64 zs = true.
Proof.
  induction 1 as [ | r df (z & E & R) _ (zs & I & F)]; simpl.
  - exists []. auto.
  - exists (z :: zs). rewrite E, I. split; [reflexivity |].
    simpl. rewrite F, andb_true_r. unfold Fast.fits_int64.
    apply andb_true_iff. split; [apply Z.leb_le | apply Z.ltb_lt]; lia.
Qed.

Lemma float64_column_rows (df : list Raw.row) :
  forall vs,
    Fast.float64_column parse (map (fun r => Raw.volume (Raw.bar_of r)) df) = Some vs ->
    Forall2 (fun r v => Fast.volume_int64 parse (Raw.volume (Raw.bar_of r)) = Some v)
      df vs.
Proof.
  induction df as [ | r df IH]; intros vs H; simpl in H.
  - inversion H. constructor.
  - destruct (Fast.volume_int64 parse (Raw.volume (Raw.bar_of r))) as [v | ] eqn:E;
      [| discriminate].
    destruct (Fast.float64_column parse _) as [vs' | ]; [| discriminate].
    inversion H; subst. constructor; auto.
Qed.

Lemma float64_column_none (df : list Raw.row) :
  Fast.float64_column parse (map (fun r => Raw.volume (Raw.bar_of r)) df) = None ->
  exists r, In r df /\ Fast.volume_int64 parse (Raw.volume (Raw.bar_of r)) = None.
Proof.
  induction df as [ | r df IH]; simpl; [discriminate |].
  destruct (Fast.volume_int64 parse (Raw.volume (Raw.bar_of r))) eqn:Ev.
  - destruct (Fast.float64_column parse _); [discriminate |].
    intros _. destruct (IH eq_refl) as (r' & I & N). exists r'. auto.
  - intros _. exists r. auto.
Qed.

Lemma float64_column_raises (df : list Raw.row) (r : Raw.row) :
  In r df -> Fast.volume_int64 parse (Raw.volume (Raw.bar_of r)) = None ->
  Fast.float64_column parse (map (fun r => Raw.volume (Raw.bar_of r)) df) = None.
Proof.
  induction df as [ | r' df IH]; intros I N; [destruct I |].
  cbn [Fast.float64_column map].
  destruct I as [-> | I].
  - now rewrite N.
  - rewrite (IH I N).
    now destruct (Fast.volume_int64 parse (Raw.volume (Raw.bar_of r'))).
Qed.

Lemma volume_column_none (df : list Raw.row) :
  Fast.volume_column parse df = None ->
  exists r, In r df /\ Fast.volume_int64 parse (Raw.volume (Raw.bar_of r)) = None.
Proof.
  unfold Fast.volume_column.
  destruct (Fast.integers _) as [zs | ]; [| apply float64_column_none].
  destruct (forallb Fast.fits_int64 zs); [discriminate |].
  destruct (forallb Fast.fits_uint64 zs); [discriminate |].
  apply float64_column_none.
Qed.

Lemma Forall2_weaken {A B : Type} (P Q : A -> B -> Prop) (l : list A) (l' : list B) :
  (forall a b, In a l -> In b l' -> P a b -> Q a b) ->
  Forall2 P l l' -> Forall2 Q l l'.
Proof.
  intros H F. induction F as [ | a b l l' Pab F IH]; constructor.
  - apply H; simpl; auto.
  - apply IH. intros a' b' Ia Ib. apply H; simpl; auto.
Qed.

Lemma Forall2_map_r {A B C : Type} (P : A -> C -> Prop) (f : B -> C)
    (l : list A) (l' : list B) :
  Forall2 (fun a b => P a (f b)) l l' -> Forall2 P l (map f l').
Proof. induction 1; simpl; constructor; auto. Qed.

Lemma all_integers_not_mixed (df : list Raw.row) (zs : list Z) :
  Forall2 (fun r z => Raw.volume (Raw.bar_of r) = Raw.Int z) df zs ->
  ~ mixed_volumes df.
Proof.
  intros F (r & I & N). induction F as [ | r' z df zs E F IH]; [destruct I |].
  destruct I as [-> | I]; [now apply (N z) | auto].
Qed.

(** What the conversion of the volume column gives for each row. *)
Lemma volume_column_rows (df : list Raw.row) (vs : list Z) :
  Fast.volume_column parse df = Some vs ->
  Forall2 (volume_of parse df) df vs.
Proof.
  unfold Fast.volume_column.
  destruct (Fast.integers _) as [zs | ] eqn:I.
  - pose proof (integers_rows df zs I) as R.
    pose proof (all_integers_not_mixed df zs R) as NM.
    destruct (forallb Fast.fits_int64 zs) eqn:F64.
    + intro H. inversion H; subst vs; clear H.
      rewrite forallb_forall in F64.
      apply Forall2_weaken with (2 := R). intros r z _ Iz E.
      specialize (F64 z Iz). unfold Fast.fits_int64 in F64.
      apply andb_true_iff in F64. destruct F64 as [Lo Hi].
      apply Z.leb_le in Lo. apply Z.ltb_lt in Hi.
      unfold volume_of. rewrite E. repeat split; auto; try lia.
      * discriminate.
      * intro M. now elim NM.
    + assert (N64 : ~ int64_volumes df).
      { intro A. apply integers_int64 in A. destruct A as (zs' & I' & F').
        congruence. }
      destruct (forallb Fast.fits_uint64 zs) eqn:FU.
      * intro H. inversion H; subst vs; clear H.
        rewrite forallb_forall in FU.
        apply Forall2_map_r. apply Forall2_weaken with (2 := R).
        intros r z _ Iz E. specialize (FU z Iz). unfold Fast.fits_uint64 in FU.
        apply andb_true_iff in FU. destruct FU as [Lo Hi].
        apply Z.leb_le in Lo. apply Z.ltb_lt in Hi.
        unfold volume_of. rewrite E. repeat split.
        -- unfold Fast.uint64_as_int64. destruct (Z.ltb_spec z (2 ^ 63)); lia.
        -- unfold Fast.uint64_as_int64. destruct (Z.ltb_spec z (2 ^ 63)); lia.
        -- discriminate.
        -- intro A. now elim N64.
        -- intro M. now elim NM.
      * intro H. apply float64_column_rows in H.
        apply Forall2_weaken with (2 := H). intros r v Ir _ E.
        destruct (volume_int64_spec _ _ E) as (Rg & _ & _).
        assert (Ez : exists z, Raw.volume (Raw.bar_of r) = Raw.Int z).
        { clear - R Ir. induction R as [ | r' z df zs E R IH]; [destruct Ir |].
          destruct Ir as [-> | Ir]; eauto. }
        destruct Ez as (z & Ez).
        unfold volume_of. rewrite Ez. repeat split; try tauto. discriminate.
  - intro H. apply float64_column_rows in H.
    assert (N64 : ~ int64_volumes df).
    { intro A. apply integers_int64 in A. destruct A as (zs' & I' & _). congruence. }
    apply Forall2_weaken with (2 := H). intros r v _ _ E.
    destruct (volume_int64_spec _ _ E) as (Rg & Zero & Cut).
    unfold volume_of.
    split; [exact Rg |]. split; [| split; [tauto | intros _; exact Cut]].
    unfold invalid. intro V. apply Zero.
    destruct (Raw.volume (Raw.bar_of r)); try discriminate;
      now destruct (valid_number parse _).
Qed.

Lemma complete_dropna (r : Raw.row) :
  complete parse r
  = match Raw.ticker r with
    | Some _ => negb (Py.isna (Fast.to_numeric parse (Raw.close (Raw.bar_of r))))
    | None => false
    end.
Proof.
  unfold complete. destruct (Raw.ticker r); [| reflexivity].
  destruct (valid_number parse (Raw.close (Raw.bar_of r))) as [x | ] eqn:V.
  - apply valid_number_some in V. destruct V as [-> N]. now rewrite N.
  - apply valid_number_none in V. now rewrite V.
Qed.

Lemma build_records_normalized (whole : list Raw.row) (df : list Raw.row) :
  forall volumes k recs k',
    Forall2 (volume_of parse whole) df volumes ->
    Fast.build_records parse wall ticker_map (Fast.dropna parse df volumes) k
    = (recs, k') ->
    Forall2 (normalized parse ticker_map whole) (filter (complete parse) df) recs.
Proof.
  induction df as [ | r df IH]; intros volumes k recs k' V B.
  - simpl in B. inversion B. constructor.
  - inversion V as [ | ? v ? vs Vr Vs]; subst. clear V.
    simpl in B. simpl filter. rewrite complete_dropna.
    destruct (Raw.ticker r) as [tk | ] eqn:Et.
    + destruct (Py.isna (Fast.to_numeric parse (Raw.close (Raw.bar_of r)))) eqn:Ec;
        cbn [negb].
      * now apply IH with vs k k'.
      * simpl in B. unfold bind, now, ret in B.
        destruct (Fast.build_records parse wall ticker_map
                    (Fast.dropna parse df vs) (S k)) as [rest k1] eqn:Er.
        inversion B; subst recs k'; clear B.
        constructor; [| now apply IH with vs (S k) k1].
        unfold normalized, Fast.company_name_of. simpl.
        rewrite !nullable_valid_number.
        split; [exact Et |]. split; [reflexivity |]. split; [reflexivity |].
        split; [apply valid_number_some; auto |].
        repeat (split; [reflexivity |]). split; [exact Vr | reflexivity].
    + now apply IH with vs k k'.
Qed.

(** C5, as the code has it. When [prepare_records] returns, its records are
    the normal forms, in order, of the rows that have a ticker and a close
    that holds a number: a price that holds no number becomes null and
    keeps the row unless it is the close; the name is the ticker map's, or
    the ticker itself; the volume is an int64, 0 when the raw volume is
    missing or invalid, the raw integer in a frame of int64 volumes, the
    integer part of the raw number otherwise, with its sign.  It raises
    only on a volume that holds a number without a finite integer part, an
    infinity, and it does raise on every such volume that is no integer:
    no record of the frame is produced then. *)
Theorem prepare_records_normalizes (df : list Raw.row) (k : nat) :
  (forall recs k',
      Fast.prepare_records parse wall df ticker_map k = (Some recs, k') ->
      Forall2 (normalized parse ticker_map df) (filter (complete parse) df) recs)
  /\ (forall k',
      Fast.prepare_records parse wall df ticker_map k = (None, k') ->
      exists r x,
        In r df /\ valid_number parse (Raw.volume (Raw.bar_of r)) = Some x
        /\ Py.int_of_float x = None)
  /\ (forall r x,
      In r df -> (forall z, Raw.volume (Raw.bar_of r) <> Raw.Int z) ->
      valid_number parse (Raw.volume (Raw.bar_of r)) = Some x ->
      Py.int_of_float x = None ->
      fst (Fast.prepare_records parse wall df ticker_map k) = None).
Proof.
  split; [| split].
  - intros recs k' H. unfold Fast.prepare_records in H.
    destruct df as [ | r rest] eqn:Ed; [inversion H; constructor |].
    rewrite <- Ed in *.
    destruct (Fast.volume_column parse df) as [volumes | ] eqn:V;
      [| discriminate].
    unfold bind, ret in H.
    destruct (Fast.build_records parse wall ticker_map
                (Fast.dropna parse df volumes) k) as [records k1] eqn:B.
    inversion H; subst.
    apply build_records_normalized with volumes k k'; [| exact B].
    now apply volume_column_rows.
  - intros k' H. unfold Fast.prepare_records in H.
    destruct df as [ | r rest] eqn:Ed; [discriminate |].
    rewrite <- Ed in *.
    destruct (Fast.volume_column parse df) as [volumes | ] eqn:V.
    + unfold bind, ret in H.
      destruct (Fast.build_records parse wall ticker_map
                  (Fast.dropna parse df volumes) k). discriminate.
    + apply volume_column_none in V. destruct V as (r' & I & N).
      apply volume_int64_none in N. destruct N as (x & Vx & Ix). eauto.
  - intros r x I NI V Ix. unfold Fast.prepare_records.
    destruct df as [ | r0 rest] eqn:Ed; [destruct I |].
    rewrite <- Ed in *.
    assert (C : Fast.volume_column parse df = None).
    { unfold Fast.volume_column.
      rewrite integers_mixed by (exists r; auto).
      apply float64_column_raises with r; [exact I |].
      unfold Fast.volume_int64. apply valid_number_some in V.
      destruct V as [-> N]. rewrite N. unfold Fast.astype_int64.
      now rewrite Ix. }
    now rewrite C.
Qed.

End NormalizerFacts.

(** C5, as the claim states it, fails in two ways: the volume is not forced
    to be non-negative, a raw volume of -5 is kept as -5; and an infinite
    volume is not replaced by 0 but makes the normaliser raise, so that the
    row before it gives no record either. *)
Lemma prepare_records_keeps_negative_volume :
  option_map (map (fun r => (StocksDaily.ticker r, StocksDaily.volume r)))
    (fst (Fast.prepare_records Examples.no_number Examples.ticking
            Examples.negative_volume Examples.no_names 0%nat))
  = Some [("NEG"%string, -5)]
  /\ -5 < 0
  /\ fst (Fast.prepare_records Examples.no_number Examples.ticking
            Examples.infinite_volume Examples.no_names 0%nat)
     = None.
Proof. split; [vm_compute; reflexivity | split; [lia | vm_compute; reflexivity]]. Qed.

(** ** Tables with a unique key *)

Section TableFacts.
Context {R : Type}.
Variable key : R -> string * Z.

Local Abbreviation find_key k t := (find (fun x => Store.key_eqb (key x) k) t).
Local Abbreviation keys t := (map key t).

Lemma key_eqb_eq (a b : string * Z) : Store.key_eqb a b = true <-> a = b.
Proof.
  unfold Store.key_eqb. destruct a as [s d], b as [s' d']. simpl.
  rewrite andb_true_iff, String.eqb_eq, Z.eqb_eq.
  split; [intros [-> ->]; reflexivity | intro H; inversion H; auto].
Qed.

Lemma key_eqb_refl (a : string * Z) : Store.key_eqb a a = true.
Proof. now apply key_eqb_eq. Qed.

Lemma key_eqb_neq (a b : string * Z) : Store.key_eqb a b = false <-> a <> b.
Proof.
  rewrite <- key_eqb_eq. destruct (Store.key_eqb a b); split; congruence.
Qed.

Lemma find_key_app (k : string * Z) (l l' : list R) :
  find_key k (l ++ l')
  = match find_key k l with Some r => Some r | None => find_key k l' end.
Proof.
  induction l as [ | x l IH]; simpl; [reflexivity |].
  now destruct (Store.key_eqb (key x) k).
Qed.

Lemma find_key_none (k : string * Z) (t : list R) :
  ~ In k (keys t) -> find_key k t = None.
Proof.
  induction t as [ | x t IH]; simpl; [reflexivity |]. intro H.
  destruct (Store.key_eqb (key x) k) eqn:E.
  - apply key_eqb_eq in E. tauto.
  - apply IH. tauto.
Qed.

(** After an upsert the row of the key is the record; the other keys keep
    their row. *)
Lemma find_key_upsert (k : string * Z) (t : list R) (r : R) :
  find_key k (Store.upsert key t r)
  = if Store.key_eqb (key r) k then Some r else find_key k t.
Proof.
  induction t as [ | x t IH]; simpl; [reflexivity |].
  destruct (Store.key_eqb (key x) (key r)) eqn:E; simpl.
  - apply key_eqb_eq in E. rewrite E.
    now destruct (Store.key_eqb (key r) k).
  - rewrite IH.
    destruct (Store.key_eqb (key x) k) eqn:Ex, (Store.key_eqb (key r) k) eqn:Er;
      try reflexivity.
    apply key_eqb_eq in Ex, Er. apply key_eqb_neq in E. congruence.
Qed.

Lemma find_key_upsert_all (k : string * Z) (records : list R) :
  forall t,
    find_key k (Store.upsert_all key t records)
    = match find_key k (rev records) with
      | Some r => Some r
      | None => find_key k t
      end.
Proof.
  unfold Store.upsert_all.
  induction records as [ | r records IH]; intro t; simpl; [reflexivity |].
  rewrite IH, find_key_app, find_key_upsert. simpl.
  destruct (find_key k (rev records)); [reflexivity |].
  now destruct (Store.key_eqb (key r) k).
Qed.

Lemma keys_upsert_In (k : string * Z) (t : list R) (r : R) :
  In k (keys (Store.upsert key t r)) <-> k = key r \/ In k (keys t).
Proof.
  induction t as [ | x t IH]; simpl; [intuition |].
  destruct (Store.key_eqb (key x) (key r)) eqn:E; simpl.
  - apply key_eqb_eq in E. rewrite E. intuition.
  - rewrite IH. intuition.
Qed.

Lemma NoDup_upsert (t : list R) (r : R) :
  NoDup (keys t) -> NoDup (keys (Store.upsert key t r)).
Proof.
  induction t as [ | x t IH]; simpl; intro N.
  - constructor; [intros [] | constructor].
  - inversion N as [ | ? ? Nx Nt]; subst.
    destruct (Store.key_eqb (key x) (key r)) eqn:E; simpl.
    + apply key_eqb_eq in E. rewrite <- E. now constructor.
    + apply key_eqb_neq in E. constructor; [| now apply IH].
      rewrite keys_upsert_In. intuition.
Qed.

Lemma NoDup_upsert_all (records : list R) :
  forall t, NoDup (keys t) -> NoDup (keys (Store.upsert_all key t records)).
Proof.
  unfold Store.upsert_all.
  induction records as [ | r records IH]; intros t N; simpl; [assumption |].
  now apply IH, NoDup_upsert.
Qed.

Lemma keys_upsert_all_In (k : string * Z) (records : list R) :
  forall t,
    In k (keys (Store.upsert_all key t records))
    <-> In k (keys records) \/ In k (keys t).
Proof.
  unfold Store.upsert_all.
  induction records as [ | r records IH]; intro t; simpl; [intuition |].
  rewrite IH, keys_upsert_In. intuition.
Qed.

Lemma keys_upsert_same (t : list R) (r : R) :
  In (key r) (keys t) -> keys (Store.upsert key t r) = keys t.
Proof.
  induction t as [ | x t IH]; simpl; [intros [] |].
  destruct (Store.key_eqb (key x) (key r)) eqn:E; simpl.
  - apply key_eqb_eq in E. now rewrite E.
  - apply key_eqb_neq in E. intros [H | H]; [congruence |].
    now rewrite IH.
Qed.

Lemma keys_upsert_all_same (records : list R) :
  forall t,
    (forall r, In r records -> In (key r) (keys t)) ->
    keys (Store.upsert_all key t records) = keys t.
Proof.
  unfold Store.upsert_all.
  induction records as [ | r records IH]; intros t H; simpl; [reflexivity |].
  rewrite IH.
  - apply keys_upsert_same, H. now left.
  - intros r' I. rewrite keys_upsert_same by (apply H; now left).
    apply H. now right.
Qed.

(** Two tables with the same unique keys, in the same order, that give every
    key the same row are the same table. *)
Lemma table_ext (t t' : list R) :
  NoDup (keys t) -> keys t = keys t' ->
  (forall k, find_key k t = find_key k t') -> t = t'.
Proof.
  revert t'. induction t as [ | x t IH]; intros [ | x' t'] N K F;
    try discriminate; [reflexivity |].
  simpl in K. inversion K as [[Kx Kt]].
  inversion N as [ | ? ? Nx Nt]; subst.
  assert (x = x').
  { specialize (F (key x)). simpl in F.
    rewrite <- Kx, key_eqb_refl in F. congruence. }
  subst x'. f_equal. apply IH; auto.
  intro k. specialize (F k). simpl in F.
  destruct (Store.key_eqb (key x) k) eqn:E; [| assumption].
  apply key_eqb_eq in E. subst k.
  rewrite !find_key_none; auto. now rewrite <- Kt.
Qed.

(** Upserting the same records a second time changes nothing. *)
Lemma upsert_all_idempotent (t : list R) (records : list R) :
  NoDup (keys t) ->
  Store.upsert_all key (Store.upsert_all key t records) records
  = Store.upsert_all key t records.
Proof.
  intro N. apply table_ext.
  - now apply NoDup_upsert_all, NoDup_upsert_all.
  - apply keys_upsert_all_same. intros r I.
    apply keys_upsert_all_In. left. now apply in_map.
  - intro k. rewrite (find_key_upsert_all k records (Store.upsert_all key t records)).
    rewrite find_key_upsert_all.
    now destruct (find_key k (rev records)).
Qed.

(** Erasing a field that is not part of the key commutes with the upsert. *)
Lemma map_upsert_all (erase : R -> R) (records : list R) :
  (forall r, key (erase r) = key r) ->
  forall t,
    map erase (Store.upsert_all key t records)
    = Store.upsert_all key (map erase t) (map erase records).
Proof.
  intro E. unfold Store.upsert_all.
  induction records as [ | r records IH]; intro t; simpl; [reflexivity |].
  rewrite IH. f_equal.
  induction t as [ | x t IHt]; simpl; [reflexivity |].
  rewrite !E. destruct (Store.key_eqb (key x) (key r)); simpl; [reflexivity |].
  now rewrite IHt.
Qed.

End TableFacts.

(** ** Running the pipeline twice *)

Section Rerun.

Lemma slices_concat {A : Type} (size : nat) (l : list A) :
  (0 < size)%nat -> concat (Py.slices size l) = l.
Proof.
  intro P. unfold Py.slices.
  assert (G : forall fuel (l : list A),
             (length l <= fuel)%nat -> concat (Py.slices_fuel fuel size l) = l).
  { induction fuel as [ | fuel IH]; intros [ | x m] L; simpl in *;
      try reflexivity; try lia.
    destruct size as [ | size]; [lia |]. simpl.
    rewrite IH; [now rewrite firstn_skipn |].
    rewrite length_skipn. lia. }
  now apply G.
Qed.

Lemma upsert_chunks_done (b : backend) (chunks : list (list StocksDaily.row)) :
  forall table t,
    Fast.upsert_chunks b table chunks = (t, true) ->
    t = Store.upsert_all StocksDaily.key table (concat chunks).
Proof.
  induction chunks as [ | c chunks IH]; intros table t H; simpl in *.
  - now inversion H.
  - destruct (accepts_bars b c); [| discriminate].
    unfold Store.upsert_all. rewrite fold_left_app. now apply IH.
Qed.

(** An [upsert_records] that does not raise has upserted every record. *)
Lemma upsert_records_done (b : backend) (table t : list StocksDaily.row)
    (records : list StocksDaily.row) (chunk_size : nat) :
  (0 < chunk_size)%nat ->
  Fast.upsert_records b table records chunk_size = (t, true) ->
  t = Store.upsert_all StocksDaily.key table records.
Proof.
  intros P H. unfold Fast.upsert_records in H.
  destruct records as [ | r rest] eqn:E; [now inversion H |].
  rewrite <- E in *. destruct chunk_size as [ | n]; [lia |].
  apply upsert_chunks_done in H.
  now rewrite slices_concat in H.
Qed.

(** The records of the normaliser depend on the clock through their
    creation stamp only. *)
Lemma prepare_records_unstamped (parse : string -> option float)
    (wall wall' : clock) (ticker_map : string -> option string)
    (df : list Raw.row) (k k' : nat) :
  option_map (map StocksDaily.unstamped)
    (fst (Fast.prepare_records parse wall df ticker_map k))
  = option_map (map StocksDaily.unstamped)
      (fst (Fast.prepare_records parse wall' df ticker_map k')).
Proof.
  unfold Fast.prepare_records.
  destruct df as [ | r rest] eqn:E; [reflexivity |]. rewrite <- E.
  destruct (Fast.volume_column parse df) as [volumes | ]; [| reflexivity].
  unfold bind, ret.
  generalize (Fast.dropna parse df volumes) as rows. intro rows.
  assert (G : forall j j',
             map StocksDaily.unstamped
               (fst (Fast.build_records parse wall ticker_map rows j))
             = map StocksDaily.unstamped
                 (fst (Fast.build_records parse wall' ticker_map rows j'))).
  { induction rows as [ | [[[r0 tk] c] v] rows IH]; intros j j'; simpl;
      [reflexivity |].
    unfold bind, now, ret. specialize (IH (S j) (S j')).
    destruct (Fast.build_records parse wall ticker_map rows (S j)) as [l j1].
    destruct (Fast.build_records parse wall' ticker_map rows (S j')) as [l' j1'].
    simpl in *. now rewrite IH. }
  specialize (G k k').
  destruct (Fast.build_records parse wall ticker_map rows k) as [l j1].
  destruct (Fast.build_records parse wall' ticker_map rows k') as [l' j1'].
  simpl in *. now rewrite G.
Qed.

(** C7, as the code has it. Two runs of the normaliser and the upsert over
    the same raw rows, whatever the clock shows, leave a table in which
    every key holds one row and every record has its row; the second run
    changes no field of the table but the creation stamps.  The daily and
    the weekly movers of two runs over the same stored bars agree in every
    field but the creation stamp. *)
Theorem rerun_changes_stamps_only :
  (forall parse wall wall' ticker_map df k k' recs recs' b table t1 t2,
      NoDup (map StocksDaily.key table) ->
      fst (Fast.prepare_records parse wall df ticker_map k) = Some recs ->
      fst (Fast.prepare_records parse wall' df ticker_map k') = Some recs' ->
      Fast.upsert_records b table recs Fast.UPSERT_CHUNK = (t1, true) ->
      Fast.upsert_records b t1 recs' Fast.UPSERT_CHUNK = (t2, true) ->
      NoDup (map StocksDaily.key t1)
      /\ NoDup (map StocksDaily.key t2)
      /\ (forall r, In r recs' -> In (StocksDaily.key r) (map StocksDaily.key t2))
      /\ map StocksDaily.unstamped t2 = map StocksDaily.unstamped t1)
  /\ (forall wall wall' table target min k k',
      map DailyMover.unstamped
        (fst (Fast.calculate_daily_movers wall table target min k))
      = map DailyMover.unstamped
          (fst (Fast.calculate_daily_movers wall' table target min k'))
      /\ map WeeklyMover.unstamped
           (fst (Fast.calculate_weekly_movers wall table target min k))
         = map WeeklyMover.unstamped
             (fst (Fast.calculate_weekly_movers wall' table target min k'))).
Proof.
  split.
  - intros parse wall wall' ticker_map df k k' recs recs' b table t1 t2 N P P' U U'.
    apply upsert_records_done in U; [| unfold Fast.UPSERT_CHUNK; lia].
    apply upsert_records_done in U'; [| unfold Fast.UPSERT_CHUNK; lia].
    subst t1 t2.
    pose proof (prepare_records_unstamped parse wall wall' ticker_map df k k') as S.
    rewrite P, P' in S. simpl in S. inversion S as [S'].
    split; [now apply NoDup_upsert_all |].
    split; [now apply NoDup_upsert_all, NoDup_upsert_all |].
    split.
    + intros r I. apply keys_upsert_all_In. left. now apply in_map.
    + rewrite !(map_upsert_all StocksDaily.key StocksDaily.unstamped)
        by reflexivity.
      rewrite <- S'. apply upsert_all_idempotent.
      rewrite map_map. simpl.
      erewrite map_ext; [exact N | reflexivity].
  - intros wall wall' table target min k k'. split.
    + rewrite !fast_daily_eq. apply collect_unstamped.
      intros tk mk t t' B. unfold Fast.daily_mover in B.
      repeat match type of B with
             | context [match ?c with _ => _ end] => destruct c
             end; inversion B; reflexivity.
    + rewrite !fast_weekly_eq. apply collect_unstamped.
      intros tk mk t t' B. unfold Fast.weekly_mover in B.
      repeat match type of B with
             | context [match ?c with _ => _ end] => destruct c
             end; inversion B; reflexivity.
Qed.

(** C7, as the claim states it, fails: the second run overwrites the
    creation stamp of the row, and of the mover, with a later reading of the
    clock. *)
Lemma rerun_restamps_rows :
  map (fun r => (StocksDaily.key r, StocksDaily.created_at r))
    (Examples.load_once 0 [])
  = [(("AAA"%string, 20), 0)]
  /\ map (fun r => (StocksDaily.key r, StocksDaily.created_at r))
       (Examples.load_once 1 (Examples.load_once 0 []))
     = [(("AAA"%string, 20), 1)]
  /\ map DailyMover.created_at
       (fst (Fast.calculate_daily_movers Examples.ticking Examples.two_tickers 2 15 0%nat))
     = [0]
  /\ map DailyMover.created_at
       (fst (Fast.calculate_daily_movers Examples.ticking Examples.two_tickers 2 15 1%nat))
     = [1].
Proof. repeat split; vm_compute; reflexivity. Qed.

End Rerun.

(** ** Batches and chunks *)

Section Slices.
Context {A : Type}.

Lemma slices_fuel_facts (size : nat) :
  (0 < size)%nat ->
  forall fuel (l : list A),
    (length l <= fuel)%nat ->
    Forall (fun c => (0 < length c <= size)%nat) (Py.slices_fuel fuel size l)
    /\ length (Py.slices_fuel fuel size l) = ((length l + size - 1) / size)%nat
    /\ (forall i c,
           nth_error (Py.slices_fuel fuel size l) i = Some c ->
           (S i < length (Py.slices_fuel fuel size l))%nat ->
           length c = size).
Proof.
  intro P. induction fuel as [ | fuel IH]; intros l L.
  - destruct l; [| simpl in L; lia]. simpl.
    split; [constructor |]. split.
    + symmetry. apply Nat.div_small. lia.
    + intros i c H. destruct i; discriminate.
  - destruct l as [ | x l]; simpl Py.slices_fuel.
    + split; [constructor |]. split.
      * symmetry. apply Nat.div_small. simpl. lia.
      * intros i c H. destruct i; discriminate.
    + set (m := x :: l) in *.
      assert (Lm : (0 < length m)%nat) by (unfold m; simpl; lia).
      assert (Ls : (length (skipn size m) <= fuel)%nat)
        by (rewrite length_skipn; lia).
      destruct (IH (skipn size m) Ls) as (F & C & N).
      split; [| split].
      * constructor; [| exact F].
        rewrite length_firstn. lia.
      * simpl length. rewrite C, length_skipn.
        change (S (length l)) with (length m).
        replace (length m + size - 1)%nat with ((length m - 1) + 1 * size)%nat by lia.
        rewrite Nat.div_add by lia.
        destruct (Nat.le_gt_cases size (length m)) as [G | G].
        -- replace (length m - size + size - 1)%nat with (length m - 1)%nat by lia.
           lia.
        -- replace (length m - size + size - 1)%nat with (size - 1)%nat by lia.
           rewrite !Nat.div_small by lia. lia.
      * intros i c H Hi. destruct i as [ | i]; simpl in H.
        -- inversion H; subst c. rewrite length_firstn.
           simpl length in Hi.
           destruct (Nat.le_gt_cases size (length m)) as [G | G]; [lia |].
           exfalso. rewrite C, length_skipn in Hi.
           replace (length m - size + size - 1)%nat with (size - 1)%nat in Hi by lia.
           rewrite Nat.div_small in Hi by lia. lia.
        -- apply (N i c H). simpl length in Hi. lia.
Qed.

(** The loops [for i in range(0, len(l), size)] over [l[i:i + size]] of
    [main] and of [upsert_records] cut the list into consecutive slices:
    put end to end the slices give the list back, none is empty, all but
    the last hold [size] elements, and there are
    [(len(l) + size - 1) // size] of them, the number of batches [main]
    announces. *)
Theorem slices_partition (size : nat) (l : list A) :
  (0 < size)%nat ->
  concat (Py.slices size l) = l
  /\ Forall (fun c => (0 < length c <= size)%nat) (Py.slices size l)
  /\ length (Py.slices size l) = ((length l + size - 1) / size)%nat
  /\ (forall i c,
         nth_error (Py.slices size l) i = Some c ->
         (S i < length (Py.slices size l))%nat ->
         length c = size).
Proof.
  intro P. split; [now apply slices_concat |].
  unfold Py.slices. now apply slices_fuel_facts.
Qed.

End Slices.

Lemma slices_partition_witness :
  concat (Py.slices Fast.BATCH_SIZE ["A"; "B"; "C"]%string) = ["A"; "B"; "C"]%string
  /\ Forall (fun c => (0 < length c <= Fast.BATCH_SIZE)%nat)
       (Py.slices Fast.BATCH_SIZE ["A"; "B"; "C"]%string)
  /\ length (Py.slices Fast.BATCH_SIZE ["A"; "B"; "C"]%string)
     = ((length ["A"; "B"; "C"]%string + Fast.BATCH_SIZE - 1) / Fast.BATCH_SIZE)%nat
  /\ (forall i c,
         nth_error (Py.slices Fast.BATCH_SIZE ["A"; "B"; "C"]%string) i = Some c ->
         (S i < length (Py.slices Fast.BATCH_SIZE ["A"; "B"; "C"]%string))%nat ->
         length c = Fast.BATCH_SIZE).
Proof.
  apply (slices_partition Fast.BATCH_SIZE ["A"; "B"; "C"]%string).
  unfold Fast.BATCH_SIZE. lia.
Defined.

Section Chunks.
Variable b : backend.

Lemma upsert_chunks_prefix (chunks : list (list StocksDaily.row)) :
  forall table t ok,
    Fast.upsert_chunks b table chunks = (t, ok) ->
    exists done rest,
      chunks = done ++ rest
      /\ t = Store.upsert_all StocksDaily.key table (concat done)
      /\ Forall (fun c => accepts_bars b c = true) done
      /\ (ok = true -> rest = [])
      /\ (ok = false -> exists c rest', rest = c :: rest' /\ accepts_bars b c = false).
Proof.
  induction chunks as [ | c chunks IH]; intros table t ok H; simpl in H.
  - inversion H; subst. exists [], []. repeat split; auto. discriminate.
  - destruct (accepts_bars b c) eqn:Ac.
    + destruct (IH _ _ _ H) as (done & rest & E & T & F & O1 & O2).
      exists (c :: done), rest. subst chunks.
      repeat split; auto.
      simpl. unfold Store.upsert_all in *. now rewrite fold_left_app.
    + inversion H; subst. exists [], (c :: chunks).
      repeat split; auto; [discriminate |].
      intros _. now exists c, chunks.
Qed.

Lemma upsert_records_prefix (table t : list StocksDaily.row)
    (records : list StocksDaily.row) (chunk_size : nat) (ok : bool) :
  (0 < chunk_size)%nat ->
  Fast.upsert_records b table records chunk_size = (t, ok) ->
  exists done rest,
    Py.slices chunk_size records = done ++ rest
    /\ t = Store.upsert_all StocksDaily.key table (concat done)
    /\ Forall (fun c => accepts_bars b c = true) done
    /\ (ok = true -> rest = [])
    /\ (ok = false -> exists c rest', rest = c :: rest' /\ accepts_bars b c = false).
Proof.
  intros P H. unfold Fast.upsert_records in H.
  destruct records as [ | r records'] eqn:E.
  - inversion H; subst. exists [], []. repeat split; auto. discriminate.
  - rewrite <- E in *. destruct chunk_size as [ | n]; [lia |].
    now apply upsert_chunks_prefix.
Qed.

(** [upsert_records] has no rollback across chunks: with a chunk size that
    is positive, whether it returns or re-raises, the table holds the
    upserts of the chunks before the first one the store rejected, in
    order, and of no chunk after it; it returns only when every chunk was
    accepted. *)
Theorem upsert_records_commits_prefix (table : list StocksDaily.row)
    (records : list StocksDaily.row) (chunk_size : nat) :
  (0 < chunk_size)%nat ->
  let result := Fast.upsert_records b table records chunk_size in
  exists done rest,
    Py.slices chunk_size records = done ++ rest
    /\ fst result = Store.upsert_all StocksDaily.key table (concat done)
    /\ Forall (fun c => accepts_bars b c = true) done
    /\ (snd result = true -> rest = [])
    /\ (snd result = false ->
        exists c rest', rest = c :: rest' /\ accepts_bars b c = false).
Proof.
  intros P result. subst result.
  destruct (Fast.upsert_records b table records chunk_size) as [t ok] eqn:H.
  cbn [fst snd]. now apply upsert_records_prefix with (1 := P).
Qed.

End Chunks.

Lemma upsert_records_commits_prefix_witness :
  let result := Fast.upsert_records Examples.without_B [] Examples.two_tickers 1 in
  exists done rest,
    Py.slices 1 Examples.two_tickers = done ++ rest
    /\ fst result = Store.upsert_all StocksDaily.key [] (concat done)
    /\ Forall (fun c => accepts_bars Examples.without_B c = true) done
    /\ (snd result = true -> rest = [])
    /\ (snd result = false ->
        exists c rest', rest = c :: rest' /\ accepts_bars Examples.without_B c = false).
Proof.
  apply (upsert_records_commits_prefix Examples.without_B [] Examples.two_tickers 1).
  lia.
Defined.

(** ** What a run of the batched driver keeps *)

Section FastRun.

Lemma upsert_each_keys {R : Type} (key : R -> string * Z) (accepts : R -> bool)
    (movers : list R) :
  forall table,
    (NoDup (map key table) -> NoDup (map key (upsert_each key accepts table movers)))
    /\ incl (map key table) (map key (upsert_each key accepts table movers)).
Proof.
  unfold upsert_each.
  induction movers as [ | m movers IH]; intro table; simpl.
  - split; [auto | apply incl_refl].
  - destruct (accepts m); [| apply IH].
    destruct (IH (Store.upsert key table m)) as [N I]. split.
    + intro H. now apply N, NoDup_upsert.
    + intros x Hx. apply I, keys_upsert_In. now right.
Qed.

Lemma upsert_records_keys (b : backend) (table records : list StocksDaily.row)
    (chunk_size : nat) :
  (NoDup (map StocksDaily.key table) ->
   NoDup (map StocksDaily.key (fst (Fast.upsert_records b table records chunk_size))))
  /\ incl (map StocksDaily.key table)
       (map StocksDaily.key (fst (Fast.upsert_records b table records chunk_size))).
Proof.
  destruct (Fast.upsert_records b table records chunk_size) as [t ok] eqn:H.
  cbn [fst].
  destruct chunk_size as [ | n].
  - unfold Fast.upsert_records in H.
    destruct records; inversion H; subst; split; auto using incl_refl.
  - apply upsert_records_prefix in H; [| lia].
    destruct H as (done & rest & _ & -> & _). split.
    + apply NoDup_upsert_all.
    + intros x Hx. apply keys_upsert_all_In. now right.
Qed.

Lemma batches_keys (e : Fast.env) (tmap : string -> option string)
    (bs : list (list string)) :
  forall table total k,
    (NoDup (map StocksDaily.key table) ->
     NoDup (map StocksDaily.key (fst (fst (fst (Fast.batches e tmap bs table total k))))))
    /\ incl (map StocksDaily.key table)
         (map StocksDaily.key (fst (fst (fst (Fast.batches e tmap bs table total k))))).
Proof.
  induction bs as [ | batch bs IH]; intros table total k.
  - simpl. split; [auto | apply incl_refl].
  - cbn [Fast.batches].
    destruct (Fast.fetch_batch_data _ batch _) as [ | r df]; [apply IH |].
    unfold bind.
    destruct (Fast.prepare_records _ _ (r :: df) tmap k) as [prepared k1].
    destruct prepared as [[ | rec recs] | ];
      [apply IH | | simpl; split; [auto | apply incl_refl]].
    destruct (upsert_records_keys (Fast.store e) table (rec :: recs) Fast.UPSERT_CHUNK)
      as [N I].
    destruct (Fast.upsert_records (Fast.store e) table (rec :: recs) Fast.UPSERT_CHUNK)
      as [table' ok].
    simpl in N, I. destruct ok; simpl; [| split; assumption].
    destruct (IH table' (total + length (rec :: recs))%nat k1) as [N' I'].
    split; [auto |]. eapply incl_tran; eassumption.
Qed.

(** A run of the batched driver, however it ends, deletes no row and
    creates no second row for a key: in each of the three tables the keys
    present before the run are present after it, and keys that were unique
    stay unique. *)
Theorem fast_main_keeps_unique_keys (e : Fast.env) (d : db) (k : nat) :
  let o := fst (Fast.main e d k) in
  (NoDup (map StocksDaily.key (stocks_daily d)) ->
   NoDup (map StocksDaily.key (stocks_daily (Fast.final o))))
  /\ (NoDup (map DailyMover.key (daily_movers d)) ->
      NoDup (map DailyMover.key (daily_movers (Fast.final o))))
  /\ (NoDup (map WeeklyMover.key (weekly_movers d)) ->
      NoDup (map WeeklyMover.key (weekly_movers (Fast.final o))))
  /\ incl (map StocksDaily.key (stocks_daily d))
       (map StocksDaily.key (stocks_daily (Fast.final o)))
  /\ incl (map DailyMover.key (daily_movers d))
       (map DailyMover.key (daily_movers (Fast.final o)))
  /\ incl (map WeeklyMover.key (weekly_movers d))
       (map WeeklyMover.key (weekly_movers (Fast.final o))).
Proof.
  intro o. subst o. unfold Fast.main.
  destruct (Fast.credentials e); simpl;
    [| repeat split; auto; apply incl_refl].
  destruct (Fast.tickers_df e) as [df | ]; simpl;
    [| repeat split; auto; apply incl_refl].
  unfold bind.
  destruct (batches_keys e (Fast.ticker_map df)
              (Py.slices Fast.BATCH_SIZE (map fst df)) (stocks_daily d) O k) as [N I].
  destruct (Fast.batches e _ _ _ _ k) as [[[table total] finished] k1].
  simpl in N, I.
  destruct finished; simpl; [| repeat split; auto; apply incl_refl].
  destruct (0 <? total)%nat; simpl; [| repeat split; auto; apply incl_refl].
  destruct (Fast.calculate_daily_movers _ _ _ _ k1) as [daily k2].
  destruct (Fast.calculate_weekly_movers _ _ _ _ k2) as [weekly k3].
  simpl.
  destruct (upsert_each_keys DailyMover.key (accepts_daily (Fast.store e)) daily
              (daily_movers d)) as [Nd Id].
  destruct (upsert_each_keys WeeklyMover.key (accepts_weekly (Fast.store e)) weekly
              (weekly_movers d)) as [Nw Iw].
  repeat split; auto.
Qed.

Lemma select_In (columns : list (string * Raw.frame)) (tk : string)
    (rows : list Raw.bar) :
  Raw.select columns tk = Raw.Bars rows -> exists k, In (k, Raw.Bars rows) columns.
Proof.
  induction columns as [ | [k f] columns IH]; simpl; [discriminate |].
  destruct (String.eqb k tk).
  - intros ->. exists k. now left.
  - intro H. destruct (IH H) as [k' I]. exists k'. now right.
Qed.

(** Every row of [fetch_batch_data] is a bar of the reply. *)
Lemma fetch_rows_bars (download : list string -> Z -> Z -> Raw.response)
    (tickers : list string) (target : Z) (r : Raw.row) :
  In r (Fast.fetch_batch_data download tickers target) ->
  In (Raw.bar_of r) (bars_of (download tickers target (target + 1))).
Proof.
  unfold Fast.fetch_batch_data, Fast.fetch_body.
  destruct tickers as [ | t0 ts]; [intros [] |].
  destruct (download (t0 :: ts) target (target + 1)) as [ | columns | [ | rows]];
    try (intros []).
  - rewrite in_flat_map. intros (tk & _ & I).
    destruct (Raw.select columns tk) as [ | rows] eqn:S; [destruct I |].
    destruct (_ || _); [destruct I |].
    apply in_map_iff in I. destruct I as (b & <- & Ib). simpl.
    destruct (select_In _ _ _ S) as [k Ik].
    apply in_flat_map. exists (k, Raw.Bars rows). auto.
  - destruct (_ && _); [| intros []].
    simpl. intro I. apply in_map_iff in I. destruct I as (b & <- & Ib). exact Ib.
Qed.

Lemma volume_column_some (parse : string -> option float) (df : list Raw.row) :
  Forall (fun r => Fast.volume_int64 parse (Raw.volume (Raw.bar_of r)) <> None) df ->
  Fast.volume_column parse df <> None.
Proof.
  intros F N. apply volume_column_none in N. destruct N as (r & I & V).
  rewrite Forall_forall in F. now apply (F r I).
Qed.

Lemma batches_finish (e : Fast.env) (tmap : string -> option string)
    (bs : list (list string)) :
  (forall chunk, accepts_bars (Fast.store e) chunk = true) ->
  (forall tickers s t, finite_volumes (Fast.parse_numeric e) (Fast.download e tickers s t)) ->
  forall table total k,
    snd (fst (Fast.batches e tmap bs table total k)) = true.
Proof.
  intros A V. induction bs as [ | batch bs IH]; intros table total k.
  - reflexivity.
  - cbn [Fast.batches].
    destruct (Fast.fetch_batch_data _ batch _) as [ | r df] eqn:F; [apply IH |].
    unfold bind.
    assert (P : fst (Fast.prepare_records (Fast.parse_numeric e) (Fast.wall e)
                       (r :: df) tmap k) <> None).
    { unfold Fast.prepare_records.
      destruct (Fast.volume_column (Fast.parse_numeric e) (r :: df)) as [vs | ] eqn:C.
      - unfold bind, ret.
        destruct (Fast.build_records _ _ _ _ k). discriminate.
      - exfalso. revert C. apply volume_column_some.
        apply Forall_forall. intros x Ix. rewrite <- F in Ix.
        apply fetch_rows_bars in Ix.
        specialize (V batch (Fast.last_market_day e) (Fast.last_market_day e + 1)).
        unfold finite_volumes in V. rewrite Forall_forall in V. now apply V. }
    destruct (Fast.prepare_records _ _ (r :: df) tmap k) as [prepared k1].
    destruct prepared as [[ | rec recs] | ]; [apply IH | | now elim P].
    destruct (Fast.upsert_records (Fast.store e) table (rec :: recs) Fast.UPSERT_CHUNK)
      as [table' ok] eqn:U.
    apply upsert_records_prefix in U; [| unfold Fast.UPSERT_CHUNK; lia].
    destruct U as (done & rest & _ & _ & _ & _ & Bad).
    destruct ok; [apply IH |].
    destruct (Bad eq_refl) as (c & rest' & _ & Rc). rewrite A in Rc. discriminate.
Qed.

(** With a store that accepts every chunk and a download that delivers no
    infinite volume, the batched driver is never stopped by an exception,
    and its exit code is 0 exactly when it persisted at least one record. *)
Theorem fast_main_completes (e : Fast.env) (d : db) (k : nat) :
  (forall chunk, accepts_bars (Fast.store e) chunk = true) ->
  (forall tickers s t, finite_volumes (Fast.parse_numeric e) (Fast.download e tickers s t)) ->
  Fast.how (fst (Fast.main e d k)) <> Uncaught
  /\ (exit_code (Fast.how (fst (Fast.main e d k))) = 0
      <-> (0 < Fast.total_records (fst (Fast.main e d k)))%nat).
Proof.
  intros A V. unfold Fast.main.
  destruct (Fast.credentials e); simpl;
    [| split; [discriminate | split; [discriminate | lia]]].
  destruct (Fast.tickers_df e) as [df | ]; simpl;
    [| split; [discriminate | split; [discriminate | lia]]].
  unfold bind.
  pose proof (batches_finish e (Fast.ticker_map df)
                (Py.slices Fast.BATCH_SIZE (map fst df)) A V (stocks_daily d) O k) as Fin.
  destruct (Fast.batches e _ _ _ _ k) as [[[table total] finished] k1].
  simpl in Fin. subst finished. simpl.
  destruct (Nat.ltb_spec 0 total) as [P | P].
  - destruct (Fast.calculate_daily_movers _ _ _ _ k1) as [daily k2].
    destruct (Fast.calculate_weekly_movers _ _ _ _ k2) as [weekly k3].
    simpl. split; [discriminate | tauto].
  - simpl. split; [discriminate | split; [discriminate | lia]].
Qed.

Lemma example_finite_volumes (tickers : list string) (s t : Z) :
  finite_volumes Examples.no_number (Examples.partial_batch tickers s t).
Proof. unfold finite_volumes. simpl. repeat constructor; discriminate. Qed.

Lemma fast_main_completes_witness :
  Fast.how (fst (Fast.main Examples.fast_env Examples.empty_db 0%nat)) <> Uncaught
  /\ (exit_code (Fast.how (fst (Fast.main Examples.fast_env Examples.empty_db 0%nat))) = 0
      <-> (0 < Fast.total_records
                 (fst (Fast.main Examples.fast_env Examples.empty_db 0%nat)))%nat).
Proof.
  apply (fast_main_completes Examples.fast_env Examples.empty_db 0%nat).
  - reflexivity.
  - exact example_finite_volumes.
Defined.

End FastRun.

(** ** Reading the tickers table page by page *)

Section Pages.
Variable rows : list (string * option string).

Lemma page_size_pos : (0 < Fast.page_size)%nat.
Proof. unfold Fast.page_size. lia. Qed.

Lemma firstn_nil_inv {A : Type} (n : nat) (l : list A) :
  (0 < n)%nat -> firstn n l = [] -> l = [].
Proof. destruct n, l; simpl; intros; try lia; congruence. Qed.

Lemma firstn_plus {A : Type} (a b : nat) (l : list A) :
  firstn (a + b) l = firstn a l ++ firstn b (skipn a l).
Proof.
  revert l. induction a as [ | a IH]; intros [ | x l]; simpl;
    try reflexivity.
  - now rewrite firstn_nil.
  - now rewrite IH.
Qed.

Lemma honest_page_at (offset : nat) :
  honest_pages rows offset (offset + Fast.page_size - 1)
  = Fast.Page (firstn Fast.page_size (skipn offset rows)).
Proof.
  unfold honest_pages. pose proof page_size_pos.
  now replace (offset + Fast.page_size - 1 + 1 - offset)%nat with Fast.page_size by lia.
Qed.

Lemma read_pages_honest (fuel : nat) :
  forall offset acc,
    (length rows - offset < fuel * Fast.page_size)%nat ->
    Fast.read_pages (honest_pages rows) fuel offset acc
    = Some (acc ++ skipn offset rows).
Proof.
  pose proof page_size_pos as P.
  induction fuel as [ | fuel IH]; intros offset acc L; [rewrite Nat.mul_0_l in L; lia |].
  cbn [Fast.read_pages]. rewrite honest_page_at.
  destruct (firstn Fast.page_size (skipn offset rows)) as [ | x pd] eqn:E.
  - apply firstn_nil_inv in E; [| assumption]. now rewrite E, app_nil_r.
  - rewrite <- E.
    assert (Ls : length (firstn Fast.page_size (skipn offset rows))
                 = Nat.min Fast.page_size (length rows - offset))
      by now rewrite length_firstn, length_skipn.
    destruct (Nat.ltb_spec (length (firstn Fast.page_size (skipn offset rows)))
                Fast.page_size) as [S | S].
    + rewrite firstn_all2 by (rewrite length_skipn; lia). reflexivity.
    + rewrite IH by (rewrite Nat.mul_succ_l in L; lia).
      rewrite <- app_assoc. do 2 f_equal.
      rewrite <- (firstn_skipn Fast.page_size (skipn offset rows)) at 2.
      now rewrite skipn_skipn, (Nat.add_comm Fast.page_size).
Qed.

(** [get_tickers_from_db] reads the whole table, however many pages it has:
    from a store that answers every request it returns all the rows, in
    order, within one request more than there are full pages; from an empty
    table it gets nothing and calls [sys.exit(1)]. *)
Theorem get_tickers_from_db_reads_all (fuel : nat) :
  (length rows < fuel * Fast.page_size)%nat ->
  Fast.get_tickers_from_db (honest_pages rows) fuel
  = Some (match rows with [] => None | _ => Some rows end).
Proof.
  intro L. unfold Fast.get_tickers_from_db.
  rewrite read_pages_honest by lia. simpl. now destruct rows.
Qed.

Lemma read_pages_failing (pages : nat) :
  forall fuel offset acc,
    (pages < fuel)%nat ->
    (offset + pages * Fast.page_size <= length rows)%nat ->
    Fast.read_pages (failing_from rows (offset + pages * Fast.page_size)) fuel offset acc
    = Some (acc ++ firstn (pages * Fast.page_size) (skipn offset rows)).
Proof.
  pose proof page_size_pos as P.
  induction pages as [ | pages IH]; intros fuel offset acc F L;
    (destruct fuel as [ | fuel]; [lia |]); cbn [Fast.read_pages].
  - unfold failing_from. rewrite Nat.mul_0_l, Nat.add_0_r, Nat.leb_refl.
    now rewrite app_nil_r.
  - unfold failing_from.
    destruct (Nat.leb_spec (offset + S pages * Fast.page_size) offset) as [B | B];
      [rewrite Nat.mul_succ_l in B; lia |].
    rewrite honest_page_at.
    assert (Ls : length (firstn Fast.page_size (skipn offset rows)) = Fast.page_size).
    { rewrite length_firstn, length_skipn. rewrite Nat.mul_succ_l in L. lia. }
    destruct (firstn Fast.page_size (skipn offset rows)) as [ | x pd] eqn:E;
      [simpl in Ls; lia |].
    rewrite Ls, Nat.ltb_irrefl, <- E.
    replace (offset + S pages * Fast.page_size)%nat
      with ((offset + Fast.page_size) + pages * Fast.page_size)%nat
      by (rewrite Nat.mul_succ_l; lia).
    fold (failing_from rows (offset + Fast.page_size + pages * Fast.page_size)).
    rewrite IH by (rewrite Nat.mul_succ_l in L; lia).
    rewrite <- app_assoc. do 2 f_equal.
    rewrite Nat.mul_succ_l, (Nat.add_comm (pages * Fast.page_size)).
    rewrite firstn_plus. f_equal.
    now rewrite skipn_skipn, (Nat.add_comm Fast.page_size).
Qed.

(** A request that raises ends the reading without an error: when it comes
    after [pages] full pages, [get_tickers_from_db] returns the rows of
    those pages as if they were the whole table; only when it has no row at
    all does it call [sys.exit(1)], which the bare [except:] of [main] turns
    into the reading of the tickers file. *)
Theorem get_tickers_from_db_truncates (pages fuel : nat) (f : Csv.file) :
  (pages < fuel)%nat ->
  (pages * Fast.page_size <= length rows)%nat ->
  let from_db :=
    Fast.get_tickers_from_db (failing_from rows (pages * Fast.page_size)) fuel in
  from_db
  = Some (match firstn (pages * Fast.page_size) rows with
          | [] => None
          | first_pages => Some first_pages
          end)
  /\ (pages = O ->
      from_db = Some None /\ Fast.load_tickers None f = Fast.load_tickers_from_csv f).
Proof.
  intros F L from_db. subst from_db. unfold Fast.get_tickers_from_db.
  pose proof (read_pages_failing pages fuel O [] F L) as R.
  rewrite Nat.add_0_l in R. cbn [app skipn] in R. rewrite R.
  split; [now destruct (firstn (pages * Fast.page_size) rows) |].
  intros ->. split; reflexivity.
Qed.

End Pages.

Lemma get_tickers_from_db_reads_all_witness :
  Fast.get_tickers_from_db (honest_pages Examples.many_tickers) 2
  = Some (match Examples.many_tickers with
          | [] => None
          | _ => Some Examples.many_tickers
          end).
Proof.
  apply (get_tickers_from_db_reads_all Examples.many_tickers 2).
  apply Nat.ltb_lt. vm_compute. reflexivity.
Defined.

Lemma get_tickers_from_db_truncates_witness :
  Fast.get_tickers_from_db
    (failing_from Examples.many_tickers (1 * Fast.page_size)) 2
  = Some (match firstn (1 * Fast.page_size) Examples.many_tickers with
          | [] => None
          | first_pages => Some first_pages
          end)
  /\ (1%nat = O ->
      Fast.get_tickers_from_db
        (failing_from Examples.many_tickers (1 * Fast.page_size)) 2
      = Some None
      /\ Fast.load_tickers None (Csv.Frame Examples.csv_complete)
         = Fast.load_tickers_from_csv (Csv.Frame Examples.csv_complete)).
Proof.
  apply (get_tickers_from_db_truncates Examples.many_tickers 1 2
           (Csv.Frame Examples.csv_complete)).
  - lia.
  - apply Nat.leb_le. vm_compute. reflexivity.
Defined.

(** ** Reading the tickers file *)

Section CsvFacts.

Lemma rstrip_idempotent (s : string) : Py.rstrip (Py.rstrip s) = Py.rstrip s.
Proof.
  induction s as [ | c s IH]; simpl; [reflexivity |].
  destruct (Py.rstrip s) as [ | c' r] eqn:E.
  - destruct (Py.is_space c) eqn:Sp; simpl; [reflexivity | now rewrite Sp].
  - simpl in IH. simpl. destruct (Py.rstrip r) as [ | c'' r'] eqn:E'.
    + destruct (Py.is_space c'); [discriminate | now inversion IH].
    + now inversion IH.
Qed.

(** A string that does not begin with white space keeps its first
    character under [rstrip]. *)
Lemma rstrip_head (c : ascii) (s : string) :
  Py.is_space c = false -> exists r, Py.rstrip (String c s) = String c r.
Proof.
  intro Sp. simpl. destruct (Py.rstrip s); [rewrite Sp |]; eauto.
Qed.

Lemma lstrip_head (s : string) :
  Py.lstrip s = EmptyString
  \/ exists c r, Py.lstrip s = String c r /\ Py.is_space c = false.
Proof.
  induction s as [ | c s IH]; simpl; [now left |].
  destruct (Py.is_space c) eqn:Sp; [exact IH |]. right. eauto.
Qed.

Lemma strip_idempotent (s : string) : Py.strip (Py.strip s) = Py.strip s.
Proof.
  unfold Py.strip.
  destruct (lstrip_head s) as [-> | (c & r & -> & Sp)]; [reflexivity |].
  destruct (rstrip_head c r Sp) as [r' E]. rewrite E.
  simpl Py.lstrip. rewrite Sp, <- E. apply rstrip_idempotent.
Qed.

Lemma length_fillna {A : Type} (a b : list (option A)) :
  length (Py.fillna a b) = Nat.min (length a) (length b).
Proof.
  revert b. induction a as [ | x a IH]; intros [ | y b]; simpl; auto.
Qed.

Lemma length_dropna {A : Type} (cells : list (option A)) :
  (length (Py.dropna cells) <= length cells)%nat
  /\ (length (Py.dropna cells) = length cells <-> ~ In None cells).
Proof.
  induction cells as [ | [x | ] cells [L E]]; simpl.
  - split; [lia | tauto].
  - split; [lia |]. split.
    + intros H [D | I]; [discriminate |]. apply E; [lia | assumption].
    + intro H. f_equal. apply E. tauto.
  - split; [lia |]. split; [lia | tauto].
Qed.

Lemma get_of_has (columns : list Csv.column) (name : string) :
  Csv.has columns name = true ->
  exists c, Csv.get columns name = Some c /\ In c columns /\ Csv.header c = name.
Proof.
  unfold Csv.has, Csv.get. induction columns as [ | c columns IH]; simpl;
    [discriminate |].
  destruct (String.eqb (Csv.header c) name) eqn:E.
  - intros _. exists c. apply String.eqb_eq in E. auto.
  - simpl. intro H. destruct (IH H) as (c' & G & I & Hd). exists c'. auto.
Qed.

Lemma ticker_column_found (columns : list Csv.column) :
  columns <> [] ->
  exists col, Csv.ticker_column columns = Some (Csv.header col)
              /\ Csv.get columns (Csv.header col) = Some col
              /\ In col columns.
Proof.
  intro NE. unfold Csv.ticker_column.
  destruct (find (Csv.has columns) Csv.candidates) as [name | ] eqn:F.
  - apply find_some in F. destruct F as [_ H].
    destruct (get_of_has _ _ H) as (c & G & I & <-). exists c. auto.
  - destruct columns as [ | c columns]; [congruence |].
    exists c. split; [reflexivity |]. split; [| now left].
    unfold Csv.get. simpl. now rewrite String.eqb_refl.
Qed.

Lemma name_column_found (columns : list Csv.column) (name : string) :
  Csv.name_column columns = Some name ->
  exists c, Csv.get columns name = Some c /\ In c columns.
Proof.
  unfold Csv.name_column.
  destruct (Csv.has columns "company_name") eqn:H1; simpl.
  - intro E. inversion E; subst.
    destruct (get_of_has _ _ H1) as (c & G & I & _). eauto.
  - destruct (Csv.has columns "name") eqn:H2; [| discriminate].
    intro E. inversion E; subst.
    destruct (get_of_has _ _ H2) as (c & G & I & _). eauto.
Qed.

Lemma map_fst_combine {A B : Type} (a : list A) (b : list B) :
  length a = length b -> map fst (combine a b) = a.
Proof.
  revert b. induction a as [ | x a IH]; intros [ | y b]; simpl; try discriminate;
    [reflexivity |].
  intro H. f_equal. apply IH. lia.
Qed.

(** When the tickers file has a column of names, the batched loader reads
    it only if no ticker is missing: a missing cell makes the list of
    tickers shorter than the list of names, the frame cannot be built and
    the loader calls [sys.exit(1)]. *)
Theorem fast_csv_needs_every_ticker (columns : list Csv.column) :
  rectangular columns ->
  columns <> [] ->
  Csv.name_column columns <> None ->
  (Fast.load_tickers_from_csv (Csv.Frame columns) = None
   <-> In None (ticker_cells columns)).
Proof.
  intros R NE NC. unfold Fast.load_tickers_from_csv, ticker_cells.
  destruct (ticker_column_found columns NE) as (col & -> & -> & Ic).
  destruct (Csv.name_column columns) as [name | ] eqn:N; [| congruence].
  destruct (name_column_found _ _ N) as (ncol & -> & In_).
  rewrite length_map, length_fillna, (R ncol col In_ Ic), Nat.min_id.
  destruct (length_dropna (Csv.cells col)) as [L E].
  destruct (Nat.eqb_spec (length (Py.dropna (Csv.cells col))) (length (Csv.cells col)))
    as [Q | Q].
  - split; [discriminate |]. intro I. exfalso. now apply E.
  - split; [intros _ | reflexivity].
    destruct (in_dec (fun x y : option string =>
                        ltac:(decide equality; apply string_dec)) None (Csv.cells col))
      as [I | I]; [assumption |].
    exfalso. apply Q. now apply E.
Qed.

Lemma fast_csv_needs_every_ticker_witness :
  (Fast.load_tickers_from_csv (Csv.Frame Examples.csv_with_gap) = None
   <-> In None (ticker_cells Examples.csv_with_gap)).
Proof.
  apply (fast_csv_needs_every_ticker Examples.csv_with_gap).
  - intros c c' I I'. simpl in I, I'.
    destruct I as [<- | [<- | [<- | []]]], I' as [<- | [<- | [<- | []]]]; reflexivity.
  - discriminate.
  - discriminate.
Defined.

(** Both loaders take the tickers from the same column of the file: what
    the batched loader returns as tickers, when it returns, is what the
    per-ticker loader returns, the cells of that column that are not
    missing, stripped of surrounding white space (stripping them again
    changes nothing); without a column of names the batched loader always
    returns, and names each ticker after itself. *)
Theorem csv_loaders_agree (f : Csv.file) :
  (forall rows,
      Fast.load_tickers_from_csv f = Some rows ->
      map fst rows = StockDataLoader.load_tickers_from_csv f)
  /\ Forall (fun t => Py.strip t = t) (StockDataLoader.load_tickers_from_csv f)
  /\ (forall columns,
      f = Csv.Frame columns ->
      StockDataLoader.load_tickers_from_csv f
      = map Py.strip (Py.dropna (ticker_cells columns)))
  /\ (forall columns,
      f = Csv.Frame columns -> columns <> [] -> Csv.name_column columns = None ->
      Fast.load_tickers_from_csv f
      = Some (map (fun t => (t, Some t)) (StockDataLoader.load_tickers_from_csv f))).
Proof.
  split; [| split; [| split]].
  - intros rows. unfold Fast.load_tickers_from_csv, StockDataLoader.load_tickers_from_csv.
    destruct f as [ | columns]; [discriminate |].
    destruct (Csv.ticker_column columns) as [tc | ]; [| discriminate].
    destruct (Csv.get columns tc) as [col | ]; [| discriminate].
    destruct (Nat.eqb_spec (length (map Py.strip (Py.dropna (Csv.cells col))))
                (length match Csv.name_column columns with
                        | Some name_col =>
                            match Csv.get columns name_col with
                            | Some ncol => Py.fillna (Csv.cells ncol) (Csv.cells col)
                            | None => []
                            end
                        | None => map Some (map Py.strip (Py.dropna (Csv.cells col)))
                        end)) as [Q | Q]; [| discriminate].
    intro H. inversion H. now apply map_fst_combine.
  - unfold StockDataLoader.load_tickers_from_csv.
    destruct f as [ | columns]; [constructor |].
    destruct (Csv.ticker_column columns) as [tc | ]; [| constructor].
    destruct (Csv.get columns tc) as [col | ]; [| constructor].
    apply Forall_forall. intros t I. apply in_map_iff in I.
    destruct I as (x & <- & _). apply strip_idempotent.
  - intros columns ->. unfold StockDataLoader.load_tickers_from_csv, ticker_cells.
    destruct (Csv.ticker_column columns) as [tc | ]; [| reflexivity].
    now destruct (Csv.get columns tc).
  - intros columns -> NE N.
    unfold Fast.load_tickers_from_csv, StockDataLoader.load_tickers_from_csv.
    destruct (ticker_column_found columns NE) as (col & -> & -> & _).
    rewrite N, !length_map, Nat.eqb_refl. f_equal.
    induction (map Py.strip (Py.dropna (Csv.cells col))) as [ | t l IH]; simpl;
      [reflexivity | now rewrite IH].
Qed.

End CsvFacts.

(** ** The two loaders side by side *)

Section SideBySide.
Import StocksDaily.

(** What the body of the daily loop of the per-ticker loader does with the
    last two bars. *)
Lemma loader_daily_body (df : list row) (min : float) (tk : string)
    (pre : list row) (prev curr : row) :
  Frame.ticker_data df tk = pre ++ [prev; curr] ->
  StockDataLoader.daily_mover df min tk
  = if Py.ge (abs (Frame.percent (close_price prev) (close_price curr))) min
    then Some (fun t =>
           {| DailyMover.ticker := tk;
              DailyMover.date := date curr;
              DailyMover.previous_close := close_price prev;
              DailyMover.current_close := close_price curr;
              DailyMover.percent_change :=
                Py.np_round2 (Frame.percent (close_price prev) (close_price curr));
              DailyMover.volume := volume curr;
              DailyMover.created_at := t |})
    else None.
Proof.
  intro E. unfold StockDataLoader.daily_mover. rewrite E.
  rewrite iloc_before_last, iloc_last_of_two, length_app.
  destruct (Nat.ltb_spec (length pre + length [prev; curr]) 2) as [H | _];
    [simpl in H; lia | reflexivity].
Qed.

(** Apart from a close of zero the two loaders detect the same movers: for
    a ticker none of whose bars in the frame closed at 0, the body of the
    daily loop and the body of the weekly loop of the per-ticker loader
    give a mover exactly when those of the batched loader do, with the same
    fields but for the routine that rounds the percent change. *)
Theorem loaders_agree_off_zero (df : list row) (min : float) (tk : string) :
  (forall r, In r (Frame.ticker_data df tk) -> (close_price r =? 0)%float = false) ->
  StockDataLoader.daily_mover df min tk
  = option_map (fun mk t => numpy_rounded_daily (mk t)) (Fast.daily_mover df min tk)
  /\ StockDataLoader.weekly_mover df min tk
     = option_map (fun mk t => numpy_rounded_weekly (mk t)) (Fast.weekly_mover df min tk).
Proof.
  intro NZ. split.
  - destruct (Nat.ltb_spec (length (Frame.ticker_data df tk)) 2) as [L | L].
    + unfold StockDataLoader.daily_mover, Fast.daily_mover.
      apply Nat.ltb_lt in L. now rewrite L.
    + destruct (two_last _ L) as (pre & prev & curr & E).
      rewrite (loader_daily_body _ _ _ _ _ _ E), (fast_daily_body _ _ _ _ _ _ E).
      rewrite NZ by (rewrite E; apply in_or_app; right; simpl; auto).
      simpl orb.
      destruct (Py.isna (close_price prev) || Py.isna (close_price curr)) eqn:N.
      * apply orb_true_iff in N. now rewrite ge_percent_nan.
      * now destruct (Py.ge _ min).
  - destruct (Nat.ltb_spec (length (Frame.ticker_data df tk)) 5) as [L | L].
    + unfold StockDataLoader.weekly_mover, Fast.weekly_mover.
      apply Nat.ltb_lt in L. now rewrite L.
    + destruct (first_last (Frame.ticker_data df tk)) as (first & mid & last & E);
        [lia |].
      rewrite (loader_weekly_body _ _ _ _ _ _ E), (fast_weekly_body _ _ _ _ _ _ E).
      destruct (_ <? 5)%nat; [reflexivity |].
      destruct (_ || _); [reflexivity |].
      rewrite NZ by (rewrite E; now left). simpl orb.
      destruct (Py.isna (close_price first) || Py.isna (close_price last)) eqn:N.
      * apply orb_true_iff in N. now rewrite ge_percent_nan.
      * now destruct (Py.ge _ min).
Qed.

Lemma loaders_agree_off_zero_witness :
  StockDataLoader.daily_mover Examples.two_tickers 15 "A"
  = option_map (fun mk t => numpy_rounded_daily (mk t))
      (Fast.daily_mover Examples.two_tickers 15 "A")
  /\ StockDataLoader.weekly_mover Examples.two_tickers 15 "A"
     = option_map (fun mk t => numpy_rounded_weekly (mk t))
         (Fast.weekly_mover Examples.two_tickers 15 "A").
Proof.
  apply (loaders_agree_off_zero Examples.two_tickers 15 "A").
  intros r I. simpl in I. destruct I as [<- | [<- | []]]; reflexivity.
Defined.

End SideBySide.

(** ** What every mover of the batched loader rests on *)

Section Backed.
Import StocksDaily.

(** Every daily mover the batched loader produces rests on two stored bars
    of its ticker dated in [target_date - 4, target_date]: its date, current
    close and volume are those of the later bar, its previous close is that
    of the earlier one and is neither zero nor missing, and the percent
    change between the two closes reaches the threshold in absolute
    value. *)
Theorem fast_daily_movers_backed (wall : clock) (table : list row) (target : Z)
    (min : float) (k : nat) (m : DailyMover.row) :
  In m (fst (Fast.calculate_daily_movers wall table target min k)) ->
  daily_backed table (target - 4) target min m.
Proof.
  rewrite fast_daily_eq. intro I. apply collect_In in I.
  destruct I as (tk & mk & t & _ & B & ->).
  set (df := Frame.window table (target - 4) target) in *.
  destruct (Nat.ltb_spec (length (Frame.ticker_data df tk)) 2) as [L | L].
  { unfold Fast.daily_mover in B. apply Nat.ltb_lt in L. rewrite L in B.
    discriminate. }
  destruct (two_last _ L) as (pre & prev & curr & E).
  rewrite (fast_daily_body _ _ _ _ _ _ E) in B.
  destruct (close_price prev =? 0)%float eqn:Z0; [discriminate |].
  destruct (Py.isna (close_price prev)) eqn:N1; [discriminate |].
  destruct (Py.isna (close_price curr)) eqn:N2; [discriminate |].
  simpl in B.
  destruct (Py.ge _ min) eqn:G; [| discriminate].
  inversion B; subst mk; clear B.
  assert (Ip : In prev (Frame.ticker_data df tk))
    by (rewrite E; apply in_or_app; right; simpl; auto).
  assert (Ic : In curr (Frame.ticker_data df tk))
    by (rewrite E; apply in_or_app; right; simpl; auto).
  apply window_ticker_data in Ip, Ic.
  pose proof (ticker_data_sorted df tk) as S. rewrite E in S.
  apply sorted_last_two in S. destruct S as [S _].
  exists prev, curr. simpl. intuition.
Qed.

Lemma fast_daily_movers_backed_witness :
  daily_backed Examples.two_tickers (2 - 4) 2 15 Examples.mover_of_A.
Proof.
  apply (fast_daily_movers_backed Examples.ticking Examples.two_tickers 2 15 0%nat).
  left. reflexivity.
Defined.

Lemma filter_perm_length {A : Type} (p : A -> bool) (l l' : list A) :
  Permutation l l' -> length (filter p l) = length (filter p l').
Proof.
  induction 1 as [ | x l l' _ IH | x y l | l l' l'' _ IH1 _ IH2]; simpl.
  - reflexivity.
  - destruct (p x); simpl; congruence.
  - destruct (p x), (p y); reflexivity.
  - congruence.
Qed.

Lemma bars_in_In (table : list row) (tk : string) (lo hi : Z) (r : row) :
  In r (bars_in table tk lo hi)
  <-> In r (Frame.ticker_data (Frame.window table lo hi) tk).
Proof.
  unfold bars_in. rewrite filter_In, ticker_data_In, window_In.
  rewrite !andb_true_iff, String.eqb_eq, !Z.leb_le. tauto.
Qed.

Lemma bars_in_length (table : list row) (tk : string) (lo hi : Z) :
  length (bars_in table tk lo hi)
  = length (Frame.ticker_data (Frame.window table lo hi) tk).
Proof.
  unfold Frame.ticker_data, Frame.window, Frame.sort_ticker_date, Store.range_query.
  rewrite sort_values_length.
  rewrite <- (filter_perm_length _ _ _ (sort_values_perm _ _)).
  unfold bars_in.
  induction table as [ | r table IH]; simpl; [reflexivity |].
  destruct (String.eqb (ticker r) tk) eqn:T, (lo <=? date r), (date r <=? hi);
    simpl; rewrite ?T; simpl; congruence.
Qed.

(** Every weekly mover the batched loader produces rests on the first and
    the last stored bar of its ticker in [target_date - 10, target_date]:
    the ticker has at least five bars there, none before the first or after
    the last, which are 5 to 9 days apart; the mover carries their dates
    and closes, its week-start close is neither zero nor missing, and the
    percent change between the two closes reaches the threshold in absolute
    value. *)
Theorem fast_weekly_movers_backed (wall : clock) (table : list row) (target : Z)
    (min : float) (k : nat) (m : WeeklyMover.row) :
  In m (fst (Fast.calculate_weekly_movers wall table target min k)) ->
  weekly_backed table (target - 10) target min m.
Proof.
  rewrite fast_weekly_eq. intro I. apply collect_In in I.
  destruct I as (tk & mk & t & _ & B & ->).
  set (df := Frame.window table (target - 10) target) in *.
  destruct (Nat.ltb_spec (length (Frame.ticker_data df tk)) 5) as [L | L].
  { unfold Fast.weekly_mover in B. apply Nat.ltb_lt in L. rewrite L in B.
    discriminate. }
  destruct (first_last (Frame.ticker_data df tk)) as (first & mid & last & E);
    [lia |].
  rewrite (fast_weekly_body _ _ _ _ _ _ E) in B.
  destruct (_ <? 5)%nat; [discriminate |].
  destruct (Z.ltb_spec (date last - date first) 5) as [? | G1]; [discriminate |].
  destruct (Z.ltb_spec 9 (date last - date first)) as [? | G2]; [discriminate |].
  cbn [orb] in B.
  destruct (close_price first =? 0)%float eqn:Z0; [discriminate |].
  destruct (Py.isna (close_price first)) eqn:N1; [discriminate |].
  destruct (Py.isna (close_price last)) eqn:N2; [discriminate |].
  simpl in B.
  destruct (Py.ge _ min) eqn:G; [| discriminate].
  inversion B; subst mk; clear B.
  assert (If : In first (Frame.ticker_data df tk)) by (rewrite E; now left).
  assert (Il : In last (Frame.ticker_data df tk))
    by (rewrite E; right; apply in_or_app; right; now left).
  apply window_ticker_data in If, Il.
  assert (Ends : forall r, In r (bars_in table tk (target - 10) target) ->
                           date first <= date r <= date last).
  { intros r Ir. apply bars_in_In in Ir.
    now apply (ticker_data_ends df tk first last mid E). }
  assert (Five : (5 <= length (bars_in table tk (target - 10) target))%nat)
    by (rewrite bars_in_length; exact L).
  exists first, last. cbn [WeeklyMover.ticker WeeklyMover.week_start_date
    WeeklyMover.week_end_date WeeklyMover.week_start_close
    WeeklyMover.week_end_close WeeklyMover.percent_change].
  repeat split; try tauto; try lia; auto; now apply Ends.
Qed.

Lemma fast_weekly_movers_backed_witness :
  weekly_backed (Examples.week 100 7) (20 - 10) 20 15 Examples.mover_of_W.
Proof.
  apply (fast_weekly_movers_backed Examples.ticking (Examples.week 100 7) 20 15 0%nat).
  left. reflexivity.
Defined.

End Backed.

(** ** The per-ticker fetch: the attempt that decides *)

Section Decisive.
Variable e : StockDataLoader.env.

Lemma backoff_cons (first n : nat) :
  backoff first (S n) = 2 ^ Z.of_nat first :: backoff (S first) n.
Proof. reflexivity. Qed.

Lemma attempts_after_failures (ticker : string) (date : Z) (max_retries : nat)
    (outcome : nat -> Stamped (option StocksDaily.row * list Z)) (failures : nat) :
  forall remaining attempt k,
    (attempt + remaining = max_retries)%nat ->
    (failures < remaining)%nat ->
    (forall n s t, (attempt <= n < attempt + failures)%nat ->
                   StockDataLoader.history e n ticker s t = YF.Raises) ->
    (forall remaining' k,
        StockDataLoader.attempts e ticker date max_retries (S remaining')
          (attempt + failures) k
        = outcome (attempt + failures)%nat k) ->
    StockDataLoader.attempts e ticker date max_retries remaining attempt k
    = (fst (fst (outcome (attempt + failures)%nat k)),
       backoff attempt failures ++ snd (fst (outcome (attempt + failures)%nat k)),
       snd (outcome (attempt + failures)%nat k)).
Proof.
  induction failures as [ | failures IH]; intros remaining attempt k E F R D.
  - destruct remaining as [ | remaining]; [lia |].
    rewrite Nat.add_0_r in *. rewrite D.
    now destruct (outcome attempt k) as [[o sl] k'].
  - destruct remaining as [ | remaining]; [lia |].
    cbn [StockDataLoader.attempts]. rewrite R by lia.
    unfold StockDataLoader.on_exception.
    destruct (Z.ltb_spec (Z.of_nat attempt) (Z.of_nat max_retries - 1)) as [L | L];
      [| lia].
    unfold bind, ret.
    replace (attempt + S failures)%nat with (S attempt + failures)%nat in * by lia.
    rewrite (IH remaining (S attempt) k); [| lia | lia | | exact D].
    + cbn [fst snd]. now rewrite backoff_cons.
    + intros n s t Hn. apply R. lia.
Qed.

(** A failed attempt is made up for by the next ones: when the first
    [failures] attempts raise and the next one, still within
    [max_retries], returns a history whose latest bar has a finite volume,
    [fetch_stock_data] returns the record of that bar after sleeping 1, 2,
    ... [2 ** (failures - 1)] seconds, and reads the clock once. *)
Theorem fetch_stock_data_recovers (ticker : string) (date : Z)
    (max_retries failures : nat) (hist : list YF.bar) (info : YF.info)
    (latest : YF.bar) (vol : Z) (k : nat) :
  (failures < max_retries)%nat ->
  (forall n s t, (n < failures)%nat ->
                 StockDataLoader.history e n ticker s t = YF.Raises) ->
  StockDataLoader.history e failures ticker (date - 5) (date + 1)
  = YF.History hist (Some info) ->
  Py.iloc hist (-1) = Some latest ->
  Py.int_of_float (YF.Volume latest) = Some vol ->
  StockDataLoader.fetch_stock_data e ticker (Some date) max_retries k
  = ((Some (record_of ticker latest info vol (StockDataLoader.wall e k)),
      backoff 0 failures), S k).
Proof.
  intros F R H L V. unfold StockDataLoader.fetch_stock_data.
  rewrite (attempts_after_failures ticker date max_retries
             (fun _ j => ((Some (record_of ticker latest info vol
                                   (StockDataLoader.wall e j)), []), S j))
             failures max_retries O k); try lia.
  - simpl. now rewrite app_nil_r.
  - intros n s t Hn. apply R. lia.
  - intros remaining' j. cbn [StockDataLoader.attempts].
    change (0 + failures)%nat with failures.
    rewrite H. destruct hist as [ | b hist']; [discriminate |].
    rewrite L, V. reflexivity.
Qed.

(** An empty history is final: when the first [failures] attempts raise and
    the next one returns no bar, [fetch_stock_data] returns [None] at once,
    without trying again and without reading the company information. *)
Theorem fetch_stock_data_empty_is_final (ticker : string) (date : Z)
    (max_retries failures : nat) (about : option YF.info) (k : nat) :
  (failures < max_retries)%nat ->
  (forall n s t, (n < failures)%nat ->
                 StockDataLoader.history e n ticker s t = YF.Raises) ->
  StockDataLoader.history e failures ticker (date - 5) (date + 1)
  = YF.History [] about ->
  StockDataLoader.fetch_stock_data e ticker (Some date) max_retries k
  = ((None, backoff 0 failures), k).
Proof.
  intros F R H. unfold StockDataLoader.fetch_stock_data.
  rewrite (attempts_after_failures ticker date max_retries
             (fun _ j => ((None, []), j)) failures max_retries O k); try lia.
  - simpl. now rewrite app_nil_r.
  - intros n s t Hn. apply R. lia.
  - intros remaining' j. cbn [StockDataLoader.attempts].
    change (0 + failures)%nat with failures.
    now rewrite H.
Qed.

End Decisive.

Lemma fetch_stock_data_recovers_witness :
  StockDataLoader.fetch_stock_data Examples.flaky "stl" (Some 20) 3 0%nat
  = ((Some (record_of "stl" Examples.stale_bar Examples.stale_info 1000
              (StockDataLoader.wall Examples.flaky 0%nat)),
      backoff 0 1), 1%nat).
Proof.
  apply (fetch_stock_data_recovers Examples.flaky "stl" 20 3 1
           [Examples.stale_bar] Examples.stale_info Examples.stale_bar 1000 0%nat).
  - lia.
  - intros n s t Hn. destruct n; [reflexivity | lia].
  - reflexivity.
  - reflexivity.
  - reflexivity.
Defined.

Lemma fetch_stock_data_empty_is_final_witness :
  StockDataLoader.fetch_stock_data Examples.flaky "stl" (Some 30) 3 0%nat
  = ((None, backoff 0 1), 0%nat).
Proof.
  apply (fetch_stock_data_empty_is_final Examples.flaky "stl" 30 3 1
           (Some Examples.stale_info) 0%nat).
  - lia.
  - intros n s t Hn. destruct n; [reflexivity | lia].
  - reflexivity.
Defined.

(** ** What a run of the per-ticker driver keeps *)

Section LoaderRun.
Variable e : StockDataLoader.env.

Lemma length_upsert {R : Type} (key : R -> string * Z) (table : list R) (r : R) :
  (length (Store.upsert key table r) <= S (length table))%nat.
Proof.
  induction table as [ | x table IH]; simpl; [lia |].
  destruct (Store.key_eqb (key x) (key r)); simpl; lia.
Qed.

Lemma insert_stock_data_keeps (table : list StocksDaily.row) (r : StocksDaily.row) :
  (NoDup (map StocksDaily.key table) ->
   NoDup (map StocksDaily.key (StockDataLoader.insert_stock_data e table r)))
  /\ incl (map StocksDaily.key table)
       (map StocksDaily.key (StockDataLoader.insert_stock_data e table r))
  /\ (length (StockDataLoader.insert_stock_data e table r) <= S (length table))%nat.
Proof.
  unfold StockDataLoader.insert_stock_data.
  destruct (accepts_bars (StockDataLoader.store e) [r]).
  - split; [apply NoDup_upsert |]. split; [| apply length_upsert].
    intros x Hx. apply keys_upsert_In. now right.
  - split; [auto |]. split; [apply incl_refl | lia].
Qed.

Lemma update_loop_accounts (batch_delay : float) (batch_size : positive)
    (tickers : list string) :
  forall i p k,
    let p' := fst (StockDataLoader.update_loop e batch_delay batch_size tickers i p k) in
    (StockDataLoader.successful p' + StockDataLoader.failed p'
     = StockDataLoader.successful p + StockDataLoader.failed p + length tickers)%nat
    /\ (NoDup (map StocksDaily.key (StockDataLoader.table p)) ->
        NoDup (map StocksDaily.key (StockDataLoader.table p')))
    /\ incl (map StocksDaily.key (StockDataLoader.table p))
         (map StocksDaily.key (StockDataLoader.table p'))
    /\ (length (StockDataLoader.table p') + StockDataLoader.successful p
        <= length (StockDataLoader.table p) + StockDataLoader.successful p')%nat.
Proof.
  induction tickers as [ | tk tickers IH]; intros i p k.
  - simpl. repeat split; auto; try lia. apply incl_refl.
  - cbn [StockDataLoader.update_loop]. unfold bind.
    destruct (StockDataLoader.fetch_stock_data e tk None 3 k)
      as [[stock_data sleeps] k1].
    cbv zeta. change (length (tk :: tickers)) with (S (length tickers)).
    destruct stock_data as [r | ];
      match goal with
      | |- context [StockDataLoader.update_loop e batch_delay batch_size tickers
                      (i + 1) ?q k1] =>
          pose proof (IH (i + 1) q k1) as H; cbv zeta in H;
          cbn [StockDataLoader.table StockDataLoader.successful
               StockDataLoader.failed] in H;
          set (p1 := fst (StockDataLoader.update_loop e batch_delay batch_size
                            tickers (i + 1) q k1)) in *
      end;
      destruct H as (C & N & I & L).
    + destruct (insert_stock_data_keeps (StockDataLoader.table p) r) as (N1 & I1 & L1).
      repeat split; [lia | auto | | lia].
      eapply incl_tran; eassumption.
    + repeat split; [lia | auto | auto | lia].
Qed.

(** A run of [run_daily_update] counts every ticker once, as a success or
    as a failure; it deletes no row of [stocks_daily], creates no second row
    for a key, adds at most one row per success, and returns normally. *)
Theorem loader_run_accounts (d : db) (tickers : list string)
    (batch_delay : float) (batch_size : positive) (k : nat) :
  let o := fst (StockDataLoader.run_daily_update e d tickers batch_delay batch_size k) in
  (StockDataLoader.succeeded o + StockDataLoader.failures o = length tickers)%nat
  /\ (NoDup (map StocksDaily.key (stocks_daily d)) ->
      NoDup (map StocksDaily.key (stocks_daily (StockDataLoader.final o))))
  /\ incl (map StocksDaily.key (stocks_daily d))
       (map StocksDaily.key (stocks_daily (StockDataLoader.final o)))
  /\ (length (stocks_daily (StockDataLoader.final o))
      <= length (stocks_daily d) + StockDataLoader.succeeded o)%nat
  /\ StockDataLoader.how o = Returned.
Proof.
  intro o. subst o. unfold StockDataLoader.run_daily_update, bind.
  pose proof (update_loop_accounts batch_delay batch_size tickers 1
                {| StockDataLoader.table := stocks_daily d;
                   StockDataLoader.successful := O;
                   StockDataLoader.failed := O;
                   StockDataLoader.trace := [] |} k) as A.
  cbv zeta in A.
  destruct (StockDataLoader.update_loop e batch_delay batch_size tickers 1 _ k)
    as [p k1].
  simpl in A. destruct A as (C & N & I & L).
  destruct (0 <? StockDataLoader.successful p)%nat.
  - destruct (StockDataLoader.calculate_and_insert_daily_movers _ _ _ _ k1)
      as [daily k2].
    destruct (StockDataLoader.calculate_and_insert_weekly_movers _ _ _ _ k2)
      as [weekly k3].
    simpl. repeat split; auto; lia.
  - simpl. repeat split; auto; lia.
Qed.

End LoaderRun.

(** ** The tickers table *)

Section TickerTable.
Variable about : string -> StockDataLoader.profile.
Variable accepts : list Tickers.row -> bool.

Lemma insert_batches_keys (batches : list (list Tickers.row)) :
  forall table k,
    In k (map Tickers.key (StockDataLoader.insert_batches accepts table batches))
    <-> In k (map Tickers.key table)
        \/ exists batch,
             In batch batches /\ accepts batch = true
             /\ In k (map Tickers.key batch).
Proof.
  unfold StockDataLoader.insert_batches.
  induction batches as [ | b batches IH]; intros table k; simpl.
  - split; [auto | intros [H | (b & [] & _)]; exact H].
  - rewrite IH. destruct (accepts b) eqn:E.
    + rewrite keys_upsert_all_In. split.
      * intros [[H | H] | (c & I & A & H)]; eauto 7.
      * intros [H | (c & [I | I] & A & H)]; subst; eauto 7.
    + split.
      * intros [H | (c & I & A & H)]; eauto 7.
      * intros [H | (c & [I | I] & A & H)]; subst; [auto | congruence | eauto 7].
Qed.

Lemma insert_batches_NoDup (batches : list (list Tickers.row)) :
  forall table,
    NoDup (map Tickers.key table) ->
    NoDup (map Tickers.key (StockDataLoader.insert_batches accepts table batches)).
Proof.
  unfold StockDataLoader.insert_batches.
  induction batches as [ | b batches IH]; intros table N; simpl; [exact N |].
  apply IH. destruct (accepts b); [now apply NoDup_upsert_all | exact N].
Qed.

(** [insert_tickers_to_db] prepares one row per ticker, upper-cased, also
    for a ticker whose profile lookup raises, and pauses once per ticker.
    A batch the store rejects is skipped and the later batches are still
    written: afterwards the table holds exactly the tickers it held before
    and those of the accepted batches of 50, each ticker once. *)
Theorem insert_tickers_to_db_skips_rejected (table : list Tickers.row)
    (tickers : list string) :
  let ticker_data := map (StockDataLoader.ticker_row about) tickers in
  let result := StockDataLoader.insert_tickers_to_db about accepts table tickers in
  map Tickers.ticker ticker_data = map Py.upper tickers
  /\ length (snd result) = length tickers
  /\ (forall k,
        In k (map Tickers.key (fst result))
        <-> In k (map Tickers.key table)
            \/ exists batch,
                 In batch (Py.slices 50 ticker_data) /\ accepts batch = true
                 /\ In k (map Tickers.key batch))
  /\ (NoDup (map Tickers.key table) -> NoDup (map Tickers.key (fst result))).
Proof.
  cbv zeta. unfold StockDataLoader.insert_tickers_to_db. cbn [fst snd].
  split; [| split; [| split]].
  - rewrite map_map. apply map_ext. intro tk.
    unfold StockDataLoader.ticker_row. now destruct (about tk).
  - apply length_map.
  - intro k. apply insert_batches_keys.
  - apply insert_batches_NoDup.
Qed.

End TickerTable.

(** ** What the per-ticker run persists *)

Section Persisted.
Variable e : StockDataLoader.env.

Lemma attempts_clock (ticker : string) (date : Z) (max_retries : nat) :
  forall remaining attempt k1 k2,
    snd (fst (StockDataLoader.attempts e ticker date max_retries remaining attempt k1))
    = snd (fst (StockDataLoader.attempts e ticker date max_retries remaining attempt k2))
    /\ option_map StocksDaily.unstamped
         (fst (fst (StockDataLoader.attempts e ticker date max_retries remaining attempt k1)))
       = option_map StocksDaily.unstamped
           (fst (fst (StockDataLoader.attempts e ticker date max_retries remaining attempt k2))).
Proof.
  induction remaining as [ | rem IH]; intros attempt k1 k2; simpl; [auto |].
  assert (X : snd (fst (StockDataLoader.on_exception attempt max_retries
                          (StockDataLoader.attempts e ticker date max_retries
                             rem (S attempt)) k1))
              = snd (fst (StockDataLoader.on_exception attempt max_retries
                            (StockDataLoader.attempts e ticker date max_retries
                               rem (S attempt)) k2))
              /\ option_map StocksDaily.unstamped
                   (fst (fst (StockDataLoader.on_exception attempt max_retries
                                (StockDataLoader.attempts e ticker date max_retries
                                   rem (S attempt)) k1)))
                 = option_map StocksDaily.unstamped
                     (fst (fst (StockDataLoader.on_exception attempt max_retries
                                  (StockDataLoader.attempts e ticker date max_retries
                                     rem (S attempt)) k2)))).
  { unfold StockDataLoader.on_exception.
    destruct (_ <? _); [| auto].
    unfold bind, ret.
    destruct (IH (S attempt) k1 k2) as [Hs Ho].
    destruct (StockDataLoader.attempts e ticker date max_retries rem (S attempt) k1)
      as [[o1 s1] k1'].
    destruct (StockDataLoader.attempts e ticker date max_retries rem (S attempt) k2)
      as [[o2 s2] k2'].
    simpl in *. split; congruence. }
  destruct (StockDataLoader.history e attempt ticker (date - 5) (date + 1))
    as [ | hist about]; [exact X |].
  destruct hist as [ | b hist]; [auto |].
  destruct (Py.iloc (b :: hist) (-1)) as [latest | ]; [| exact X].
  destruct about as [info | ]; [| exact X].
  destruct (Py.int_of_float (YF.Volume latest)) as [vol | ]; [| exact X].
  unfold bind, now, ret. simpl. auto.
Qed.

(** What [fetch_stock_data] returns depends on the clock through the
    creation stamp only. *)
Lemma fetch_stock_data_clock (ticker : string) (date : option Z) (max_retries : nat)
    (k1 k2 : nat) (r : StocksDaily.row) (sleeps : list Z) (k1' : nat) :
  StockDataLoader.fetch_stock_data e ticker date max_retries k1 = ((Some r, sleeps), k1') ->
  exists r' k2',
    StockDataLoader.fetch_stock_data e ticker date max_retries k2
    = ((Some r', sleeps), k2')
    /\ StocksDaily.unstamped r' = StocksDaily.unstamped r.
Proof.
  unfold StockDataLoader.fetch_stock_data. intro H.
  destruct (attempts_clock ticker
              (match date with Some d => d | None => StockDataLoader.today e - 1 end)
              max_retries max_retries 0 k1 k2) as [Hs Ho].
  rewrite H in Hs, Ho.
  destruct (StockDataLoader.attempts e ticker _ max_retries max_retries 0 k2)
    as [[o s] k2'].
  simpl in Hs, Ho. subst s.
  destruct o as [r' | ]; [| discriminate].
  exists r', k2'. split; [reflexivity |]. simpl in Ho. congruence.
Qed.

Lemma unstamped_key (r r' : StocksDaily.row) :
  StocksDaily.unstamped r' = StocksDaily.unstamped r ->
  StocksDaily.key r' = StocksDaily.key r.
Proof.
  intro H. unfold StocksDaily.key.
  change (StocksDaily.ticker r') with (StocksDaily.ticker (StocksDaily.unstamped r')).
  change (StocksDaily.date r') with (StocksDaily.date (StocksDaily.unstamped r')).
  now rewrite H.
Qed.

Lemma update_loop_keeps (batch_delay : float) (batch_size : positive)
    (tickers : list string) (i : Z) (p : StockDataLoader.progress) (k : nat) :
  incl (map StocksDaily.key (StockDataLoader.table p))
    (map StocksDaily.key
       (StockDataLoader.table
          (fst (StockDataLoader.update_loop e batch_delay batch_size tickers i p k)))).
Proof. apply (update_loop_accounts e batch_delay batch_size tickers i p k). Qed.

Lemma update_loop_persists (batch_delay : float) (batch_size : positive)
    (tk : string) (r : StocksDaily.row) (sleeps : list Z) (k1 k1' : nat) :
  StockDataLoader.fetch_stock_data e tk None 3 k1 = ((Some r, sleeps), k1') ->
  (forall r', StocksDaily.key r' = StocksDaily.key r ->
              accepts_bars (StockDataLoader.store e) [r'] = true) ->
  forall tickers i p k,
    In tk tickers ->
    In (StocksDaily.key r)
      (map StocksDaily.key
         (StockDataLoader.table
            (fst (StockDataLoader.update_loop e batch_delay batch_size tickers i p k)))).
Proof.
  intros F A. induction tickers as [ | t tickers IH]; intros i p k I; [destruct I |].
  cbn [StockDataLoader.update_loop]. unfold bind.
  destruct I as [-> | I].
  - destruct (fetch_stock_data_clock tk None 3 k1 k r sleeps k1' F)
      as (r' & k' & F' & U).
    rewrite F'. cbv zeta. apply update_loop_keeps.
    cbn [StockDataLoader.table]. unfold StockDataLoader.insert_stock_data.
    apply unstamped_key in U. rewrite (A r' U), <- U.
    apply in_map, upsert_In.
  - destruct (StockDataLoader.fetch_stock_data e t None 3 k) as [[o s] k'].
    cbv zeta. now apply IH.
Qed.

Lemma update_loop_origin (batch_delay : float) (batch_size : positive)
    (key : string * Z) :
  forall tickers i p k,
    In key
      (map StocksDaily.key
         (StockDataLoader.table
            (fst (StockDataLoader.update_loop e batch_delay batch_size tickers i p k)))) ->
    In key (map StocksDaily.key (StockDataLoader.table p))
    \/ exists tk k1 r1 s1 k1',
         In tk tickers
         /\ StockDataLoader.fetch_stock_data e tk None 3 k1 = ((Some r1, s1), k1')
         /\ key = StocksDaily.key r1.
Proof.
  induction tickers as [ | t tickers IH]; intros i p k H; [now left |].
  cbn [StockDataLoader.update_loop] in H. unfold bind in H.
  destruct (StockDataLoader.fetch_stock_data e t None 3 k) as [[o s] k'] eqn:F.
  cbv zeta in H. apply IH in H.
  destruct H as [H | (tk & k1 & r1 & s1 & k1' & I & F1 & E)].
  - destruct o as [r | ]; cbn [StockDataLoader.table] in H; [| now left].
    unfold StockDataLoader.insert_stock_data in H.
    destruct (accepts_bars (StockDataLoader.store e) [r]); [| now left].
    apply keys_upsert_In in H. destruct H as [-> | H]; [| now left].
    right. exists t, k, r, s, k'. split; [now left | auto].
  - right. exists tk, k1, r1, s1, k1'. split; [now right | auto].
Qed.

(** C10. Asked for [date], [fetch_stock_data] queries the range
    [date - 5, date + 1) and returns the latest bar of the reply: the
    record is dated between [date - 5] and [date], no bar of the reply is
    later, and [insert_stock_data] stores the record under its own date.
    [run_daily_update], which asks for yesterday, persists the record of
    every ticker of its list under the date of that bar when the store
    accepts the write, and persists nothing under another key than the
    ticker and bar date of a record fetched. *)
Theorem fetch_stock_data_last_available_close (ticker : string) (date : Z)
    (max_retries k : nat) (r : StocksDaily.row) (sleeps : list Z) (k' : nat) :
  history_in_range e ->
  StockDataLoader.fetch_stock_data e ticker (Some date) max_retries k
  = ((Some r, sleeps), k') ->
  date - 5 <= StocksDaily.date r <= date
  /\ (exists n hist about,
         StockDataLoader.history e n ticker (date - 5) (date + 1)
         = YF.History hist about
         /\ (exists b, In b hist /\ YF.index b = StocksDaily.date r
                       /\ YF.Close b = StocksDaily.close_price r)
         /\ forall b, In b hist -> YF.index b <= StocksDaily.date r)
  /\ StocksDaily.key r = (Py.upper ticker, StocksDaily.date r)
  /\ (forall table,
       accepts_bars (StockDataLoader.store e) [r] = true ->
       In r (StockDataLoader.insert_stock_data e table r))
  /\ (date = StockDataLoader.today e - 1 -> max_retries = 3%nat ->
      forall d tickers batch_delay batch_size k0,
        let o := fst (StockDataLoader.run_daily_update e d tickers batch_delay
                        batch_size k0) in
        (In ticker tickers ->
         (forall r', StocksDaily.key r' = StocksDaily.key r ->
                     accepts_bars (StockDataLoader.store e) [r'] = true) ->
         In (Py.upper ticker, StocksDaily.date r)
           (map StocksDaily.key (stocks_daily (StockDataLoader.final o))))
        /\ (forall key,
              In key (map StocksDaily.key (stocks_daily (StockDataLoader.final o))) ->
              In key (map StocksDaily.key (stocks_daily d))
              \/ exists tk k1 r1 s1 k1',
                   In tk tickers
                   /\ StockDataLoader.fetch_stock_data e tk None 3 k1
                      = ((Some r1, s1), k1')
                   /\ key = StocksDaily.key r1)).
Proof.
  intros W H.
  assert (K : StocksDaily.key r = (Py.upper ticker, StocksDaily.date r)).
  { unfold StockDataLoader.fetch_stock_data in H. apply attempts_some in H.
    destruct H as (_ & _ & _ & _ & _ & _ & _ & _ & T).
    unfold StocksDaily.key. now rewrite T. }
  split; [| split; [| split; [| split]]].
  - unfold StockDataLoader.fetch_stock_data in H. apply attempts_some in H.
    destruct H as (n & hist & about & latest & Hh & L & D & C & T).
    destruct (W _ _ _ _ _ _ Hh) as [F S].
    apply iloc_last_inv in L. destruct L as [pre ->].
    assert (I : In latest (pre ++ [latest])) by (apply in_or_app; right; now left).
    rewrite Forall_forall in F. pose proof (F _ I) as B. lia.
  - unfold StockDataLoader.fetch_stock_data in H. apply attempts_some in H.
    destruct H as (n & hist & about & latest & Hh & L & D & C & T).
    destruct (W _ _ _ _ _ _ Hh) as [F S].
    apply iloc_last_inv in L. destruct L as [pre ->].
    assert (I : In latest (pre ++ [latest])) by (apply in_or_app; right; now left).
    rewrite Forall_forall in F. pose proof (F _ I) as B.
    exists n, (pre ++ [latest]), about. split; [assumption |]. split.
    + exists latest. auto.
    + intros b Ib. rewrite D. apply in_app_or in Ib.
      destruct Ib as [Ib | [<- | []]]; [| lia].
      apply sorted_last in S. rewrite Forall_forall in S. now apply S.
  - exact K.
  - intros table A. unfold StockDataLoader.insert_stock_data. rewrite A.
    apply upsert_In.
  - intros -> -> d tickers batch_delay batch_size k0 o.
    assert (T : stocks_daily (StockDataLoader.final o)
                = StockDataLoader.table
                    (fst (StockDataLoader.update_loop e batch_delay batch_size tickers 1
                            {| StockDataLoader.table := stocks_daily d;
                               StockDataLoader.successful := O;
                               StockDataLoader.failed := O;
                               StockDataLoader.trace := [] |} k0))).
    { subst o. unfold StockDataLoader.run_daily_update, bind.
      destruct (StockDataLoader.update_loop e batch_delay batch_size tickers 1 _ k0)
        as [p k1].
      destruct (0 <? StockDataLoader.successful p)%nat; [| reflexivity].
      destruct (StockDataLoader.calculate_and_insert_daily_movers _ _ _ _ k1)
        as [daily k2].
      destruct (StockDataLoader.calculate_and_insert_weekly_movers _ _ _ _ k2)
        as [weekly k3].
      reflexivity. }
    rewrite T. split.
    + intros I A. rewrite <- K.
      exact (update_loop_persists batch_delay batch_size ticker r sleeps k k' H A
               tickers 1 _ k0 I).
    + intros key I. apply update_loop_origin in I. exact I.
Qed.

End Persisted.

Lemma fetch_stock_data_last_available_close_witness :
  20 - 5 <= StocksDaily.date Examples.stale_row <= 20
  /\ (exists n hist about,
         StockDataLoader.history Examples.stale n "stl" (20 - 5) (20 + 1)
         = YF.History hist about
         /\ (exists b, In b hist /\ YF.index b = StocksDaily.date Examples.stale_row
                       /\ YF.Close b = StocksDaily.close_price Examples.stale_row)
         /\ forall b, In b hist -> YF.index b <= StocksDaily.date Examples.stale_row)
  /\ StocksDaily.key Examples.stale_row
     = (Py.upper "stl", StocksDaily.date Examples.stale_row)
  /\ (forall table,
       accepts_bars (StockDataLoader.store Examples.stale) [Examples.stale_row] = true ->
       In Examples.stale_row
         (StockDataLoader.insert_stock_data Examples.stale table Examples.stale_row))
  /\ (20 = StockDataLoader.today Examples.stale - 1 -> 3%nat = 3%nat ->
      forall d tickers batch_delay batch_size k0,
        let o := fst (StockDataLoader.run_daily_update Examples.stale d tickers
                        batch_delay batch_size k0) in
        (In "stl"%string tickers ->
         (forall r', StocksDaily.key r' = StocksDaily.key Examples.stale_row ->
                     accepts_bars (StockDataLoader.store Examples.stale) [r'] = true) ->
         In (Py.upper "stl", StocksDaily.date Examples.stale_row)
           (map StocksDaily.key (stocks_daily (StockDataLoader.final o))))
        /\ (forall key,
              In key (map StocksDaily.key (stocks_daily (StockDataLoader.final o))) ->
              In key (map StocksDaily.key (stocks_daily d))
              \/ exists tk k1 r1 s1 k1',
                   In tk tickers
                   /\ StockDataLoader.fetch_stock_data Examples.stale tk None 3 k1
                      = ((Some r1, s1), k1')
                   /\ key = StocksDaily.key r1)).
Proof.
  apply (fetch_stock_data_last_available_close Examples.stale "stl" 20 3 0%nat
           Examples.stale_row [] 1%nat stale_history_in_range).
  reflexivity.
Defined.

(** ** The drivers: what the gate of the mover computations counts *)

Section Gate.








End Gate.

